(** * Blue Sherpa analytics backend: session state machine and processing simulator

    A shallow embedding of the Flask backend stubs: the relational rows of
    [models.py], the data-access layer of [db_service.py], and the request
    handlers and the background simulator of [resources/].  Handlers are
    written in a state-and-exception monad over a [World] that holds the
    database, a logical clock, the id supply, the spawned background tasks,
    the pending requests of the environment and the write history of the
    processing-status rows. *)

From Stdlib Require Import ZArith List Ascii String Floats Uint63 Lia Bool.
From stdpp Require Import gmap strings list pretty.

Local Open Scope Z_scope.

(** ** Strings *)

(** The double-quote character, for the configured questions that quote a
    phrase of the user's query. *)
Definition dq : string := String (ascii_of_nat 34) EmptyString.

(** Python [str.lower], on the ASCII letters of a byte string. *)
Definition lower_ascii (c : ascii) : ascii :=
  let n := nat_of_ascii c in
  if ((65 <=? n)%nat && (n <=? 90)%nat)%bool then ascii_of_nat (n + 32) else c.

Fixpoint lower (s : string) : string :=
  match s with
  | EmptyString => EmptyString
  | String c s' => String (lower_ascii c) (lower s')
  end.

(** Strings are the UTF-8 bytes of the Python text.  Python [str.isspace]
    on a character below 128: space, the controls 9..13 and the separators
    28..31. *)
Definition is_space (c : ascii) : bool :=
  let n := nat_of_ascii c in
  ((n =? 32)%nat || ((9 <=? n)%nat && (n <=? 13)%nat) || ((28 <=? n)%nat && (n <=? 31)%nat))%bool.

(** The whitespace characters of two bytes: U+0085 and U+00A0. *)
Definition is_space2 (c0 c1 : ascii) : bool :=
  let b0 := nat_of_ascii c0 in
  let b1 := nat_of_ascii c1 in
  ((b0 =? 194) && ((b1 =? 133) || (b1 =? 160)))%nat%bool.

(** The whitespace characters of three bytes: U+1680, U+2000..U+200A,
    U+2028, U+2029, U+202F, U+205F and U+3000. *)
Definition is_space3 (c0 c1 c2 : ascii) : bool :=
  let b0 := nat_of_ascii c0 in
  let b1 := nat_of_ascii c1 in
  let b2 := nat_of_ascii c2 in
  (((b0 =? 225) && (b1 =? 154) && (b2 =? 128))
   || ((b0 =? 226) && (b1 =? 128)
       && (((128 <=? b2) && (b2 <=? 138)) || (b2 =? 168) || (b2 =? 169) || (b2 =? 175)))
   || ((b0 =? 226) && (b1 =? 129) && (b2 =? 159))
   || ((b0 =? 227) && (b1 =? 128) && (b2 =? 128)))%nat%bool.

Fixpoint lstrip (s : string) : string :=
  match s with
  | EmptyString => EmptyString
  | String c0 s0 =>
      if is_space c0 then lstrip s0
      else
        match s0 with
        | String c1 s1 =>
            if is_space2 c0 c1 then lstrip s1
            else
              match s1 with
              | String c2 s2 => if is_space3 c0 c1 c2 then lstrip s2 else s
              | EmptyString => s
              end
        | EmptyString => s
        end
  end.

(** The text holds whitespace only. *)
Definition all_space (s : string) : bool :=
  match lstrip s with
  | EmptyString => true
  | String _ _ => false
  end.

Fixpoint rstrip (s : string) : string :=
  match s with
  | EmptyString => EmptyString
  | String c s' => if all_space s then EmptyString else String c (rstrip s')
  end.

(** Python [str.strip] with no argument. *)
Definition strip (s : string) : string := rstrip (lstrip s).

(** ** Numbers *)

(** A JSON number as Python reads it: an [int] or a [float] (IEEE binary64,
    which is the kernel's [float]). *)
Inductive pynum :=
| PInt (z : Z)
| PFloat (f : float).

(** [float(z)] for a small non-negative Python int (exact below 2^53). *)
Definition float_of_int (z : Z) : float := PrimFloat.of_uint63 (Uint63.of_Z z).

(** Python [min(a, b)]: the first argument unless the second is smaller. *)
Definition py_min (a b : float) : float := if PrimFloat.ltb b a then b else a.

(** Logical time: every reading of the clock is a later instant. *)
Definition timestamp := nat.

(** ** Configuration ([config.py]) *)

Module Config.

Definition MIN_PROCESSING_TIME : Z := 3.
Definition MAX_PROCESSING_TIME : Z := 30.
Definition DEFAULT_PROCESSING_TIME : Z := 6.

Definition ANALYSIS_DEPTHS : list string := [ "basic"; "moderate"; "deep" ].
Definition REPORT_FORMATS : list string := [ "executive"; "detailed"; "visual" ].
Definition VALIDATION_LEVELS : list string := [ "low"; "medium"; "high" ].

Record StageConfig := {
  sc_id : string;
  sc_name : string;
  sc_icon : string;
  sc_duration : Z
}.

Definition PROCESSING_STAGES : list StageConfig :=
  [ {| sc_id := "planning"; sc_name := "Planning"; sc_icon := "Database"; sc_duration := 15 |};
    {| sc_id := "coding"; sc_name := "Coding"; sc_icon := "Code"; sc_duration := 25 |};
    {| sc_id := "verification"; sc_name := "In-conversation Verification"; sc_icon := "TrendingUp"; sc_duration := 20 |};
    {| sc_id := "execution"; sc_name := "Execution"; sc_icon := "FileText"; sc_duration := 20 |};
    {| sc_id := "fixing"; sc_name := "Code-fixing"; sc_icon := "Code"; sc_duration := 10 |};
    {| sc_id := "optimization"; sc_name := "Plan Optimization"; sc_icon := "TrendingUp"; sc_duration := 5 |};
    {| sc_id := "summarization"; sc_name := "Summarization"; sc_icon := "FileText"; sc_duration := 5 |} ].

(** Ambiguity questions by domain (two initial questions each). *)
Definition DOMAIN_AMBIGUITY_QUESTIONS : list (string * list string) :=
  [ ("Finance",
     [ ("By " +:+ dq +:+ ("regional differences" +:+ dq +:+ " - do you mean geographical regions, sales territories, or market segments?"));
       ("For " +:+ dq +:+ ("customer acquisition metrics" +:+ dq +:+ " - should I include CAC, LTV, or specific conversion rates?")) ]);
    ("Marketing",
     [ ("By " +:+ dq +:+ ("campaign performance" +:+ dq +:+ " - do you mean ROI, engagement rates, or conversion metrics?"));
       ("For " +:+ dq +:+ ("audience segmentation" +:+ dq +:+ " - should I focus on demographics, behavior, or psychographics?")) ]);
    ("Sales",
     [ ("By " +:+ dq +:+ ("sales performance" +:+ dq +:+ " - do you mean revenue, volume, or conversion rates?"));
       ("For " +:+ dq +:+ ("territory analysis" +:+ dq +:+ " - should I segment by geography, industry, or account size?")) ]);
    ("Operations",
     [ ("By " +:+ dq +:+ ("operational efficiency" +:+ dq +:+ " - do you mean cost reduction, time optimization, or quality metrics?"));
       ("For " +:+ dq +:+ ("process analysis" +:+ dq +:+ " - should I focus on bottlenecks, resource allocation, or workflow optimization?")) ]);
    ("Human Resources",
     [ ("By " +:+ dq +:+ ("employee performance" +:+ dq +:+ " - do you mean productivity, satisfaction, or retention metrics?"));
       ("For " +:+ dq +:+ ("workforce analysis" +:+ dq +:+ " - should I segment by department, role level, or tenure?")) ]);
    ("Technology",
     [ ("By " +:+ dq +:+ ("system performance" +:+ dq +:+ " - do you mean response time, throughput, or reliability metrics?"));
       ("For " +:+ dq +:+ ("technology stack analysis" +:+ dq +:+ " - should I focus on infrastructure, applications, or security?")) ]);
    ("Customer Service",
     [ ("By " +:+ dq +:+ ("service quality" +:+ dq +:+ " - do you mean response time, resolution rate, or customer satisfaction?"));
       ("For " +:+ dq +:+ ("channel analysis" +:+ dq +:+ " - should I include phone, email, chat, or all support channels?")) ]);
    ("Product Management",
     [ ("By " +:+ dq +:+ ("product performance" +:+ dq +:+ " - do you mean usage metrics, feature adoption, or user satisfaction?"));
       ("For " +:+ dq +:+ ("product analysis" +:+ dq +:+ " - should I focus on individual features, product lines, or entire portfolio?")) ]);
    ("Supply Chain",
     [ ("By " +:+ dq +:+ ("supply chain efficiency" +:+ dq +:+ " - do you mean cost, delivery time, or inventory optimization?"));
       ("For " +:+ dq +:+ ("vendor analysis" +:+ dq +:+ " - should I focus on performance, cost, or risk assessment?")) ]);
    ("Legal",
     [ ("By " +:+ dq +:+ ("legal analysis" +:+ dq +:+ " - do you mean compliance metrics, case outcomes, or risk assessment?"));
       ("For " +:+ dq +:+ ("regulatory focus" +:+ dq +:+ " - should I prioritize specific jurisdictions or regulations?")) ]) ].

(** Additional ambiguity questions for extended resolution. *)
Definition ADDITIONAL_QUESTIONS : list string :=
  [ "Should I include seasonal adjustments in the analysis?";
    "Do you want to segment by product categories or customer types?";
    "Are there any specific constraints or limitations to consider?" ].

End Config.

(** Python [dict.get(key, default)] on a dictionary kept as an association
    list (first binding wins). *)
Fixpoint dict_get {V : Type} (d : list (string * V)) (key : string) (default : V) : V :=
  match d with
  | [] => default
  | (k, v) :: d' => if String.eqb k key then v else dict_get d' key default
  end.

(** ** Rows ([models.py]) *)

Inductive Step := StepQuery | StepAmbiguity | StepContext | StepProcessing | StepCompleted.
Inductive SessionStatus := SessActive | SessProcessing | SessCompleted | SessStopped.
Inductive MessageType := MsgUser | MsgAssistant | MsgAmbiguity.
Inductive MessageStatus := MsgActive | MsgCompleted | MsgContextConfirmation.
Inductive AmbiguityStatus := AmbActive | AmbContextConfirmation | AmbCompleted | AmbConfirmed.
Inductive ProcStatus := PsInitializing | PsProcessing | PsCompleted | PsStopped | PsFailed.
Inductive StageStatus := StQueued | StProcessing | StCompleted | StStopped | StCancelled.
Inductive LogType := LogInfo | LogSuccess | LogWarning | LogError.

#[global] Instance Step_eq_dec : EqDecision Step.
Proof. solve_decision. Defined.
#[global] Instance MessageType_eq_dec : EqDecision MessageType.
Proof. solve_decision. Defined.
#[global] Instance ProcStatus_eq_dec : EqDecision ProcStatus.
Proof. solve_decision. Defined.
#[global] Instance StageStatus_eq_dec : EqDecision StageStatus.
Proof. solve_decision. Defined.

(** [sessions]: the row of a session, keyed by its id in the table. *)
Record Session := {
  sess_title : string;
  sess_domain : string;
  sess_user_id : string;
  sess_current_step : Step;
  sess_status : SessionStatus;
  sess_created_at : timestamp;
  sess_updated_at : timestamp
}.

(** [messages]; the metadata columns no handler writes are left out. *)
Record Message := {
  msg_id : nat;
  msg_session_id : string;
  msg_type : MessageType;
  msg_content : string;
  msg_status : option MessageStatus;
  msg_timestamp : timestamp;
  msg_current_question : option string;
  msg_answered_questions : nat;
  msg_total_questions : nat;
  msg_all_questions : option (list string);
  msg_expanded : bool
}.

(** [ambiguity_data], keyed by session id (the column is unique). *)
Record AmbiguityData := {
  amb_questions : list string;
  amb_answers : list string;
  amb_current_question_index : nat;
  amb_status : AmbiguityStatus;
  amb_questions_extended : bool;
  amb_started_at : timestamp;
  amb_completed_questions_at : option timestamp;
  amb_completed_at : option timestamp
}.

(** One entry of the JSON stage list of a processing status. *)
Record Stage := {
  stage_id : string;
  stage_name : string;
  stage_icon : string;
  stage_status : StageStatus;
  stage_progress : float;
  stage_started_at : option timestamp;
  stage_completed_at : option timestamp
}.

(** The configuration a run was started with. *)
Record ProcConfig := {
  cfg_processing_time : pynum;
  cfg_analytics_depth : string;
  cfg_reporting_style : string;
  cfg_cross_validation : string
}.

(** [processing_status], keyed by session id (the column is unique). *)
Record ProcessingStatus := {
  ps_id : nat;
  ps_status : ProcStatus;
  ps_current_stage : nat;
  ps_overall_progress : float;
  ps_stages : list Stage;
  ps_config : ProcConfig;
  ps_started_at : timestamp;
  ps_completed_at : option timestamp;
  ps_error : option string
}.

(** [processing_logs]. *)
Record ProcessingLog := {
  log_id : nat;
  log_processing_status_id : nat;
  log_session_id : string;
  log_message : string;
  log_type : LogType;
  log_timestamp : timestamp
}.

Inductive CycleType := CycleInitial | CycleFollowup.

(** [conversation_cycles], with the columns the handlers touch. *)
Record ConversationCycle := {
  cyc_id : nat;
  cyc_session_id : string;
  cyc_number : nat;
  cyc_type : CycleType;
  cyc_current_step : Step;
  cyc_initial_query : string;
  cyc_started_at : timestamp;
  cyc_ambiguity_started_at : option timestamp
}.

(** The database.  Tables with a unique session key are finite maps; the
    message, log and cycle tables are lists in insertion order, which is the
    order [ORDER BY timestamp ASC] returns since a row is stamped with the
    clock when it is inserted. *)
Record DB := {
  sessions : gmap string Session;
  messages : list Message;
  ambiguity_data : gmap string AmbiguityData;
  processing_status : gmap string ProcessingStatus;
  processing_logs : list ProcessingLog;
  conversation_cycles : list ConversationCycle
}.

(** ** Update dictionaries

    The [updates] argument of the [update_*] functions: a field is [None]
    when the key is absent from the dictionary. *)

Record SessionUpdates := {
  su_current_step : option Step;
  su_status : option SessionStatus
}.

Record MessageUpdates := {
  mu_current_question : option (option string);
  mu_answered_questions : option nat;
  mu_total_questions : option nat;
  mu_status : option MessageStatus
}.

Record AmbiguityUpdates := {
  au_questions : option (list string);
  au_answers : option (list string);
  au_current_question_index : option nat;
  au_status : option AmbiguityStatus;
  au_completed_questions_at : option timestamp;
  au_completed_at : option timestamp
}.

Record ProcUpdates := {
  pu_status : option ProcStatus;
  pu_stages : option (list Stage);
  pu_current_stage : option nat;
  pu_overall_progress : option float;
  pu_completed_at : option timestamp;
  pu_error : option string
}.

Definition no_session_updates : SessionUpdates :=
  {| su_current_step := None; su_status := None |}.
Definition no_message_updates : MessageUpdates :=
  {| mu_current_question := None; mu_answered_questions := None;
     mu_total_questions := None; mu_status := None |}.
Definition no_ambiguity_updates : AmbiguityUpdates :=
  {| au_questions := None; au_answers := None; au_current_question_index := None;
     au_status := None; au_completed_questions_at := None; au_completed_at := None |}.
Definition no_proc_updates : ProcUpdates :=
  {| pu_status := None; pu_stages := None; pu_current_stage := None;
     pu_overall_progress := None; pu_completed_at := None; pu_error := None |}.

(** [setattr] of every key of the dictionary. *)
Definition apply_session_updates (u : SessionUpdates) (s : Session) : Session :=
  {| sess_title := sess_title s;
     sess_domain := sess_domain s;
     sess_user_id := sess_user_id s;
     sess_current_step := default (sess_current_step s) (su_current_step u);
     sess_status := default (sess_status s) (su_status u);
     sess_created_at := sess_created_at s;
     sess_updated_at := sess_updated_at s |}.

Definition apply_message_updates (u : MessageUpdates) (m : Message) : Message :=
  {| msg_id := msg_id m;
     msg_session_id := msg_session_id m;
     msg_type := msg_type m;
     msg_content := msg_content m;
     msg_status := match mu_status u with Some s => Some s | None => msg_status m end;
     msg_timestamp := msg_timestamp m;
     msg_current_question := default (msg_current_question m) (mu_current_question u);
     msg_answered_questions := default (msg_answered_questions m) (mu_answered_questions u);
     msg_total_questions := default (msg_total_questions m) (mu_total_questions u);
     msg_all_questions := msg_all_questions m;
     msg_expanded := msg_expanded m |}.

Definition apply_ambiguity_updates (u : AmbiguityUpdates) (a : AmbiguityData) : AmbiguityData :=
  {| amb_questions := default (amb_questions a) (au_questions u);
     amb_answers := default (amb_answers a) (au_answers u);
     amb_current_question_index :=
       default (amb_current_question_index a) (au_current_question_index u);
     amb_status := default (amb_status a) (au_status u);
     amb_questions_extended := amb_questions_extended a;
     amb_started_at := amb_started_at a;
     amb_completed_questions_at :=
       match au_completed_questions_at u with
       | Some t => Some t
       | None => amb_completed_questions_at a
       end;
     amb_completed_at :=
       match au_completed_at u with Some t => Some t | None => amb_completed_at a end |}.

Definition apply_proc_updates (u : ProcUpdates) (p : ProcessingStatus) : ProcessingStatus :=
  {| ps_id := ps_id p;
     ps_status := default (ps_status p) (pu_status u);
     ps_current_stage := default (ps_current_stage p) (pu_current_stage u);
     ps_overall_progress := default (ps_overall_progress p) (pu_overall_progress u);
     ps_stages := default (ps_stages p) (pu_stages u);
     ps_config := ps_config p;
     ps_started_at := ps_started_at p;
     ps_completed_at :=
       match pu_completed_at u with Some t => Some t | None => ps_completed_at p end;
     ps_error := match pu_error u with Some e => Some e | None => ps_error p end |}.

(** ** The world and the handler monad *)

(** The Flask session of a request: the login flag and the stored user id. *)
Record Auth := {
  logged_in : bool;
  auth_user_id : option string
}.

(** [db] is the database; [clock] the logical time; [next_id] the supply that
    stands for [uuid4] and the auto-increment keys; [threads] the background
    tasks started so far (session id and total minutes); [sched] what the
    environment does during the coming sleeps of the running task: [None]
    for nothing, [Some (auth, sid)] for a stop request on session [sid];
    [history] every update dictionary written to a processing-status row,
    with the session it was written for, oldest first. *)
Record World := {
  db : DB;
  clock : timestamp;
  next_id : nat;
  threads : list (string * pynum);
  sched : list (option (Auth * string));
  history : list (string * ProcUpdates)
}.

(** How a piece of a Python function body ends: with a value, with a
    [return] out of the enclosing function, or with an exception, of which
    the handlers only ever read [str(e)]. *)
Inductive result (R A : Type) :=
| Val (a : A)
| Return (r : R)
| Raise (e : string).
Arguments Val {R A} a.
Arguments Return {R A} r.
Arguments Raise {R A} e.

Definition M (R A : Type) : Type := World -> result R A * World.

Definition ret {R A} (a : A) : M R A := fun w => (Val a, w).

Definition bind {R A B} (m : M R A) (k : A -> M R B) : M R B :=
  fun w =>
    match m w with
    | (Val a, w') => k a w'
    | (Return r, w') => (Return r, w')
    | (Raise e, w') => (Raise e, w')
    end.

Notation "'let!' x := m 'in' k" := (bind m (fun x => k))
  (at level 10, x name, m at level 100, k at level 200).
Notation "m ;! k" := (bind m (fun _ => k))
  (at level 100, k at level 200, right associativity).

(** [return r] *)
Definition return_ {R A} (r : R) : M R A := fun w => (Return r, w).

(** [raise] *)
Definition raise {R A} (e : string) : M R A := fun w => (Raise e, w).

(** A call: the callee's [return] is the value of the call. *)
Definition call {R A} (body : M A A) : M R A :=
  fun w =>
    match body w with
    | (Val a, w') => (Val a, w')
    | (Return a, w') => (Val a, w')
    | (Raise e, w') => (Raise e, w')
    end.

(** [try: body except Exception as e: handler(e)] *)
Definition try_except {R A} (body : M R A) (handler : string -> M R A) : M R A :=
  fun w =>
    match body w with
    | (Raise e, w') => handler e w'
    | other => other
    end.

(** [for x in xs: body(x)] *)
Fixpoint for_each {R X} (xs : list X) (body : X -> M R unit) : M R unit :=
  match xs with
  | [] => ret tt
  | x :: xs' => body x ;! for_each xs' body
  end.

(** [enumerate(xs)] *)
Definition enumerate {X} (xs : list X) : list (nat * X) := imap (fun i x => (i, x)) xs.

Definition when {R} (b : bool) (m : M R unit) : M R unit := if b then m else ret tt.

(** *** Field updates of the world and the database *)

Definition with_db (f : DB -> DB) (w : World) : World :=
  {| db := f (db w); clock := clock w; next_id := next_id w; threads := threads w;
     sched := sched w; history := history w |}.

Definition set_sessions (f : gmap string Session -> gmap string Session) (d : DB) : DB :=
  {| sessions := f (sessions d); messages := messages d;
     ambiguity_data := ambiguity_data d; processing_status := processing_status d;
     processing_logs := processing_logs d; conversation_cycles := conversation_cycles d |}.

Definition set_messages (f : list Message -> list Message) (d : DB) : DB :=
  {| sessions := sessions d; messages := f (messages d);
     ambiguity_data := ambiguity_data d; processing_status := processing_status d;
     processing_logs := processing_logs d; conversation_cycles := conversation_cycles d |}.

Definition set_ambiguity_data
    (f : gmap string AmbiguityData -> gmap string AmbiguityData) (d : DB) : DB :=
  {| sessions := sessions d; messages := messages d;
     ambiguity_data := f (ambiguity_data d); processing_status := processing_status d;
     processing_logs := processing_logs d; conversation_cycles := conversation_cycles d |}.

Definition set_processing_status
    (f : gmap string ProcessingStatus -> gmap string ProcessingStatus) (d : DB) : DB :=
  {| sessions := sessions d; messages := messages d;
     ambiguity_data := ambiguity_data d; processing_status := f (processing_status d);
     processing_logs := processing_logs d; conversation_cycles := conversation_cycles d |}.

Definition set_processing_logs (f : list ProcessingLog -> list ProcessingLog) (d : DB) : DB :=
  {| sessions := sessions d; messages := messages d;
     ambiguity_data := ambiguity_data d; processing_status := processing_status d;
     processing_logs := f (processing_logs d); conversation_cycles := conversation_cycles d |}.

Definition set_conversation_cycles
    (f : list ConversationCycle -> list ConversationCycle) (d : DB) : DB :=
  {| sessions := sessions d; messages := messages d;
     ambiguity_data := ambiguity_data d; processing_status := processing_status d;
     processing_logs := processing_logs d; conversation_cycles := f (conversation_cycles d) |}.

Definition read_db {R} : M R DB := fun w => (Val (db w), w).

Definition write_db {R} (f : DB -> DB) : M R unit := fun w => (Val tt, with_db f w).

(** [datetime.utcnow()] *)
Definition utcnow {R} : M R timestamp :=
  fun w =>
    (Val (clock w),
     {| db := db w; clock := S (clock w); next_id := next_id w; threads := threads w;
        sched := sched w; history := history w |}).

(** A fresh key: [uuid4] for the string ids, the next integer for the
    auto-increment ones. *)
Definition generate_id {R} : M R nat :=
  fun w =>
    (Val (next_id w),
     {| db := db w; clock := clock w; next_id := S (next_id w); threads := threads w;
        sched := sched w; history := history w |}).

(** The write history of the processing-status rows. *)
Definition record_update {R} (session_id : string) (updates : ProcUpdates) : M R unit :=
  fun w =>
    (Val tt,
     {| db := db w; clock := clock w; next_id := next_id w; threads := threads w;
        sched := sched w; history := history w ++ [(session_id, updates)] |}).

(** [threading.Thread(target=..., args=(session_id, minutes)).start()] *)
Definition start_thread {R} (session_id : string) (minutes : pynum) : M R unit :=
  fun w =>
    (Val tt,
     {| db := db w; clock := clock w; next_id := next_id w;
        threads := threads w ++ [(session_id, minutes)];
        sched := sched w; history := history w |}).

(** The first row that satisfies [p], changed by [f]. *)
Fixpoint update_first {A} (p : A -> bool) (f : A -> A) (l : list A) : list A :=
  match l with
  | [] => []
  | x :: l' => if p x then f x :: l' else x :: update_first p f l'
  end.

(** ** The data-access layer ([db_service.py]) *)

(** The keyword arguments of [Message(...)] that the handlers pass. *)
Record MessageData := {
  md_type : MessageType;
  md_content : string;
  md_status : option MessageStatus;
  md_current_question : option string;
  md_expanded : bool;
  md_answered_questions : nat;
  md_total_questions : nat;
  md_all_questions : option (list string)
}.

(** A message dictionary with the column defaults for the optional keys. *)
Definition plain_message (type : MessageType) (content : string)
    (status : MessageStatus) : MessageData :=
  {| md_type := type; md_content := content; md_status := Some status;
     md_current_question := None; md_expanded := false;
     md_answered_questions := 0%nat; md_total_questions := 0%nat;
     md_all_questions := None |}.

(** [Session.to_dict()] *)
Record SessionDict := {
  sd_id : string;
  sd_title : string;
  sd_domain : string;
  sd_user_id : string;
  sd_current_step : Step;
  sd_status : SessionStatus;
  sd_messages_count : nat
}.

Definition message_of (session_id : string) (m : Message) : bool :=
  String.eqb (msg_session_id m) session_id.

Definition session_to_dict (d : DB) (session_id : string) (s : Session) : SessionDict :=
  {| sd_id := session_id;
     sd_title := sess_title s;
     sd_domain := sess_domain s;
     sd_user_id := sess_user_id s;
     sd_current_step := sess_current_step s;
     sd_status := sess_status s;
     sd_messages_count := length (List.filter (message_of session_id) (messages d)) |}.

Module db_service.

Definition touch (now : timestamp) (s : Session) : Session :=
  {| sess_title := sess_title s; sess_domain := sess_domain s;
     sess_user_id := sess_user_id s; sess_current_step := sess_current_step s;
     sess_status := sess_status s; sess_created_at := sess_created_at s;
     sess_updated_at := now |}.

Definition get_session {R} (session_id : string) : M R (option Session) :=
  let! d := read_db in
  ret (sessions d !! session_id).

Definition update_session {R} (session_id : string) (updates : SessionUpdates)
    : M R (option Session) :=
  let! d := read_db in
  match sessions d !! session_id with
  | Some session =>
      let! now := utcnow in
      let session' := touch now (apply_session_updates updates session) in
      write_db (set_sessions (insert session_id session')) ;!
      ret (Some session')
  | None => ret None
  end.

(** The message is flushed, and stamped, by the query for its session. *)
Definition add_message {R} (session_id : string) (message_data : MessageData)
    : M R Message :=
  let! message_id := generate_id in
  let! stamp := utcnow in
  let message :=
    {| msg_id := message_id;
       msg_session_id := session_id;
       msg_type := md_type message_data;
       msg_content := md_content message_data;
       msg_status := md_status message_data;
       msg_timestamp := stamp;
       msg_current_question := md_current_question message_data;
       msg_answered_questions := md_answered_questions message_data;
       msg_total_questions := md_total_questions message_data;
       msg_all_questions := md_all_questions message_data;
       msg_expanded := md_expanded message_data |} in
  write_db (set_messages (fun ms => ms ++ [message])) ;!
  let! d := read_db in
  match sessions d !! session_id with
  | Some session =>
      let! now := utcnow in
      write_db (set_sessions (insert session_id (touch now session)))
  | None => ret tt
  end ;!
  ret message.

Definition get_session_messages {R} (session_id : string) : M R (list Message) :=
  let! d := read_db in
  ret (List.filter (message_of session_id) (messages d)).

Definition update_message {R} (message_id : nat) (updates : MessageUpdates) : M R unit :=
  write_db (set_messages
    (update_first (fun m => Nat.eqb (msg_id m) message_id) (apply_message_updates updates))).

Definition set_message_status (status : MessageStatus) (m : Message) : Message :=
  apply_message_updates
    {| mu_current_question := None; mu_answered_questions := None;
       mu_total_questions := None; mu_status := Some status |} m.

Definition update_message_status {R} (session_id : string) (message_type : MessageType)
    (status : MessageStatus) : M R bool :=
  let! d := read_db in
  let p := fun m => (message_of session_id m && bool_decide (msg_type m = message_type))%bool in
  if existsb p (messages d) then
    write_db (set_messages (update_first p (set_message_status status))) ;!
    ret true
  else ret false.

(** *** Ambiguity data *)

Definition create_ambiguity_data {R} (session_id : string) (questions : list string)
    (domain : string) : M R AmbiguityData :=
  let! d := read_db in
  match ambiguity_data d !! session_id with
  | Some _ => raise "UNIQUE constraint failed: ambiguity_data.session_id"
  | None =>
      let! now := utcnow in
      let row :=
        {| amb_questions := questions;
           amb_answers := [];
           amb_current_question_index := 0%nat;
           amb_status := AmbActive;
           amb_questions_extended := false;
           amb_started_at := now;
           amb_completed_questions_at := None;
           amb_completed_at := None |} in
      write_db (set_ambiguity_data (insert session_id row)) ;!
      ret row
  end.

Definition get_ambiguity_data {R} (session_id : string) : M R (option AmbiguityData) :=
  let! d := read_db in
  ret (ambiguity_data d !! session_id).

Definition update_ambiguity_data {R} (session_id : string) (updates : AmbiguityUpdates)
    : M R (option AmbiguityData) :=
  let! d := read_db in
  match ambiguity_data d !! session_id with
  | Some row =>
      let row' := apply_ambiguity_updates updates row in
      write_db (set_ambiguity_data (insert session_id row')) ;!
      ret (Some row')
  | None => ret None
  end.

Definition delete_ambiguity_data {R} (session_id : string) : M R bool :=
  let! d := read_db in
  match ambiguity_data d !! session_id with
  | Some _ => write_db (set_ambiguity_data (delete session_id)) ;! ret true
  | None => ret false
  end.

Definition complete_ambiguity_resolution {R} (session_id : string) : M R bool :=
  let! d := read_db in
  match ambiguity_data d !! session_id with
  | Some row =>
      let! now := utcnow in
      let row' :=
        apply_ambiguity_updates
          {| au_questions := None; au_answers := None; au_current_question_index := None;
             au_status := Some AmbCompleted; au_completed_questions_at := None;
             au_completed_at := Some now |} row in
      write_db (set_ambiguity_data (insert session_id row')) ;!
      ret true
  | None => ret false
  end.

(** *** Processing status and logs *)

Definition initial_stage (stage_config : Config.StageConfig) : Stage :=
  {| stage_id := Config.sc_id stage_config;
     stage_name := Config.sc_name stage_config;
     stage_icon := Config.sc_icon stage_config;
     stage_status := StQueued;
     stage_progress := float_of_int 0;
     stage_started_at := None;
     stage_completed_at := None |}.

Definition create_processing_status {R} (session_id : string) (config : ProcConfig)
    : M R ProcessingStatus :=
  let stages := List.map initial_stage Config.PROCESSING_STAGES in
  let! d := read_db in
  match processing_status d !! session_id with
  | Some _ => raise "UNIQUE constraint failed: processing_status.session_id"
  | None =>
      let! row_id := generate_id in
      let! now := utcnow in
      let row :=
        {| ps_id := row_id;
           ps_status := PsProcessing;
           ps_current_stage := 0%nat;
           ps_overall_progress := float_of_int 0;
           ps_stages := stages;
           ps_config := config;
           ps_started_at := now;
           ps_completed_at := None;
           ps_error := None |} in
      write_db (set_processing_status (insert session_id row)) ;!
      ret row
  end.

Definition get_processing_status {R} (session_id : string) : M R (option ProcessingStatus) :=
  let! d := read_db in
  ret (processing_status d !! session_id).

Definition update_processing_status {R} (session_id : string) (updates : ProcUpdates)
    : M R (option ProcessingStatus) :=
  let! d := read_db in
  match processing_status d !! session_id with
  | Some row =>
      let row' := apply_proc_updates updates row in
      write_db (set_processing_status (insert session_id row')) ;!
      record_update session_id updates ;!
      ret (Some row')
  | None => ret None
  end.

(** Deleting the row deletes its logs (the relationship cascades). *)
Definition delete_processing_status {R} (session_id : string) : M R bool :=
  let! d := read_db in
  match processing_status d !! session_id with
  | Some row =>
      write_db (set_processing_logs
        (List.filter (fun l => negb (Nat.eqb (log_processing_status_id l) (ps_id row))))) ;!
      write_db (set_processing_status (delete session_id)) ;!
      ret true
  | None => ret false
  end.

Definition add_processing_log {R} (session_id : string) (message : string)
    (log_type : LogType) : M R (option ProcessingLog) :=
  let! new_id := generate_id in
  let! d := read_db in
  match processing_status d !! session_id with
  | None => ret None
  | Some row =>
      let! now := utcnow in
      let log_entry :=
        {| log_id := new_id;
           log_processing_status_id := ps_id row;
           log_session_id := session_id;
           log_message := message;
           log_type := log_type;
           log_timestamp := now |} in
      write_db (set_processing_logs (fun ls => ls ++ [log_entry])) ;!
      ret (Some log_entry)
  end.

Definition log_of (session_id : string) (l : ProcessingLog) : bool :=
  String.eqb (log_session_id l) session_id.

Definition get_processing_logs {R} (session_id : string) : M R (list ProcessingLog) :=
  let! d := read_db in
  ret (List.filter (log_of session_id) (processing_logs d)).

Definition delete_processing_logs {R} (session_id : string) : M R nat :=
  let! d := read_db in
  let logs := List.filter (log_of session_id) (processing_logs d) in
  write_db (set_processing_logs (List.filter (fun l => negb (log_of session_id l)))) ;!
  ret (length logs).

Definition clear_processing_logs {R} (session_id : string) : M R nat :=
  delete_processing_logs session_id.

(** *** Conversation cycles *)

Definition cycle_of (session_id : string) (c : ConversationCycle) : bool :=
  String.eqb (cyc_session_id c) session_id.

Definition create_conversation_cycle {R} (session_id : string) (cycle_type : CycleType)
    (initial_query : string) : M R ConversationCycle :=
  let! d := read_db in
  let numbers := List.map cyc_number (List.filter (cycle_of session_id) (conversation_cycles d)) in
  let next_cycle_number :=
    match numbers with
    | [] => 1%nat
    | n :: ns => S (fold_right Nat.max n ns)
    end in
  let! cycle_id := generate_id in
  let! now := utcnow in
  let cycle :=
    {| cyc_id := cycle_id;
       cyc_session_id := session_id;
       cyc_number := next_cycle_number;
       cyc_type := cycle_type;
       cyc_current_step := StepQuery;
       cyc_initial_query := initial_query;
       cyc_started_at := now;
       cyc_ambiguity_started_at := None |} in
  write_db (set_conversation_cycles (fun cs => cs ++ [cycle])) ;!
  ret cycle.

(** [update_conversation_cycle(cycle_id, {'current_step': step})]; the
    message of the [ValueError] names the cycle in the source. *)
Definition update_conversation_cycle_step {R} (cycle_id : nat) (step : Step)
    : M R ConversationCycle :=
  let! d := read_db in
  match List.find (fun c => Nat.eqb (cyc_id c) cycle_id) (conversation_cycles d) with
  | None => raise "Conversation cycle not found"
  | Some cycle =>
      let! now := utcnow in
      let started :=
        match step, cyc_ambiguity_started_at cycle with
        | StepAmbiguity, None => Some now
        | _, old => old
        end in
      let cycle' :=
        {| cyc_id := cyc_id cycle; cyc_session_id := cyc_session_id cycle;
           cyc_number := cyc_number cycle; cyc_type := cyc_type cycle;
           cyc_current_step := step; cyc_initial_query := cyc_initial_query cycle;
           cyc_started_at := cyc_started_at cycle;
           cyc_ambiguity_started_at := started |} in
      write_db (set_conversation_cycles
        (update_first (fun c => Nat.eqb (cyc_id c) cycle_id) (fun _ => cycle'))) ;!
      ret cycle'
  end.

End db_service.

(** ** Responses and authentication ([utils/helpers.py]) *)

(** A value of a response dictionary.  [JMinutes x] is the text
    [f"{x} minutes"]. *)
Inductive json :=
| JStr (s : string)
| JNat (n : nat)
| JMinutes (x : pynum)
| JBool (b : bool)
| JNull
| JStrs (l : list string)
| JConfig (c : ProcConfig)
| JStamp (t : timestamp)
| JMessages (ms : list Message)
| JResults (session_data : SessionDict) (config : option ProcConfig) (generated_at : timestamp).

(** The pair a handler returns: [success_response(data)] or
    [error_response(message, status_code, error_code)], without the
    envelope's wall-clock stamp. *)
Inductive Response :=
| Success (data : list (string * json))
| Error (message : string) (status_code : Z) (error_code : option string).

Definition success_response {R} (data : list (string * json)) : M R Response :=
  ret (Success data).

Definition error_response {R} (message : string) (status_code : Z) : M R Response :=
  ret (Error message status_code None).

Definition is_success (r : Response) : bool :=
  match r with Success _ => true | Error _ _ _ => false end.

(** The [@require_auth] decorator. *)
Definition require_auth {R} (auth : Auth) (f : M R Response) : M R Response :=
  if negb (logged_in auth) then
    ret (Error "Authentication required" 401 (Some "AUTH_REQUIRED"))
  else
    match auth_user_id auth with
    | None | Some EmptyString => ret (Error "Invalid session" 401 (Some "INVALID_SESSION"))
    | Some _ => f
    end.

(** The shape every [post]/[get] shares: the body runs inside [try], an
    exception becomes the 500 response with [prefix: str(e)]. *)
Definition handler {R} (auth : Auth) (prefix : string) (body : M Response Response)
    : M R Response :=
  require_auth auth
    (call (try_except body (fun e => return_ (Error (prefix +:+ ": " +:+ e) 500 None)))).

(** [xs[i]], raising [IndexError] out of range. *)
Definition list_index {R X} (xs : list X) (i : nat) : M R X :=
  match xs !! i with
  | Some x => ret x
  | None => raise "list index out of range"
  end.

(** [list(dict.fromkeys(keys))]: the keys in order of first occurrence. *)
Definition dict_fromkeys (keys : list string) : list string :=
  fold_left (fun d k => if bool_decide (k ∈ d) then d else d ++ [k]) keys [].

(** The [_update_ambiguity_message] method that [AmbiguityResolve] and
    [AmbiguityAnswer] both define: the first ambiguity message of the
    session takes the given fields. *)
Definition update_ambiguity_message {R} (session_id : string) (updates : MessageUpdates)
    : M R unit :=
  let! messages := db_service.get_session_messages session_id in
  match List.find (fun m => bool_decide (msg_type m = MsgAmbiguity)) messages with
  | Some message =>
      let update_data := updates in
      match mu_current_question update_data, mu_answered_questions update_data,
            mu_total_questions update_data, mu_status update_data with
      | None, None, None, None => ret tt
      | _, _, _, _ => db_service.update_message (msg_id message) update_data
      end
  | None => ret tt
  end.

(** ** Ambiguity resolution ([resources/ambiguity.py]) *)

Module AmbiguityResolve.

Definition _update_ambiguity_message {R} := @update_ambiguity_message R.

Definition _clean_duplicate_questions {R} (session_id : string) (domain : string) : M R unit :=
  call (
    let! ambiguity_data := db_service.get_ambiguity_data session_id in
    match ambiguity_data with
    | None => return_ tt
    | Some ambiguity_data =>
        let current_questions := amb_questions ambiguity_data in
        if (length current_questions =? 0)%nat then return_ tt
        else
          let cleaned_questions := dict_fromkeys current_questions in
          if negb (length cleaned_questions =? length current_questions)%nat then
            let answers_count := length (amb_answers ambiguity_data) in
            let new_index :=
              if (0 <? length cleaned_questions)%nat
              then Nat.min answers_count (length cleaned_questions - 1)
              else 0%nat in
            db_service.update_ambiguity_data session_id
              {| au_questions := Some cleaned_questions; au_answers := None;
                 au_current_question_index := Some new_index; au_status := None;
                 au_completed_questions_at := None; au_completed_at := None |} ;!
            ret tt
          else ret tt
    end).

Definition _start_analysis (session_id : string) (session_data : SessionDict)
    : M Response Response :=
  db_service.update_session session_id
    {| su_current_step := Some StepProcessing; su_status := None |} ;!
  let! now := utcnow in
  db_service.update_ambiguity_data session_id
    {| au_questions := None; au_answers := None; au_current_question_index := None;
       au_status := Some AmbCompleted; au_completed_questions_at := None;
       au_completed_at := Some now |} ;!
  success_response
    [ ("message", JStr "Analysis started"); ("session_step", JStr "processing") ].

Definition extend_questions (cleaned_questions additional_questions : list string)
    (initial_count : nat) : list string :=
  if (length cleaned_questions <=? initial_count)%nat then
    let unique_additional :=
      List.filter (fun q => negb (bool_decide (q ∈ cleaned_questions))) additional_questions in
    cleaned_questions ++ unique_additional
  else cleaned_questions.

Definition _continue_resolving (session_id : string) (session_data : SessionDict)
    : M Response Response :=
  _clean_duplicate_questions session_id (sd_domain session_data) ;!
  let! ambiguity_data := db_service.get_ambiguity_data session_id in
  match ambiguity_data with
  | None => return_ (Error "No ambiguity data found" 404 None)
  | Some ambiguity_data =>
      let current_questions := amb_questions ambiguity_data in
      let current_answers := amb_answers ambiguity_data in
      let additional_questions := Config.ADDITIONAL_QUESTIONS in
      let domain := sd_domain session_data in
      let initial_questions := dict_get Config.DOMAIN_AMBIGUITY_QUESTIONS domain [] in
      let initial_count := length initial_questions in
      let cleaned_questions := dict_fromkeys current_questions in
      let extended_questions :=
        extend_questions cleaned_questions additional_questions initial_count in
      db_service.update_ambiguity_data session_id
        {| au_questions := Some extended_questions; au_answers := None;
           au_current_question_index := None; au_status := Some AmbActive;
           au_completed_questions_at := None; au_completed_at := None |} ;!
      db_service.update_session session_id
        {| su_current_step := Some StepAmbiguity; su_status := None |} ;!
      let next_question_index := length current_answers in
      let! current_question :=
        if (next_question_index <? length extended_questions)%nat
        then list_index extended_questions next_question_index
        else ret "What additional analysis details would you like to specify?" in
      _update_ambiguity_message session_id
        {| mu_current_question := Some (Some current_question);
           mu_answered_questions := Some (length current_answers);
           mu_total_questions := Some (length extended_questions);
           mu_status := Some MsgActive |} ;!
      success_response
        [ ("message", JStr "Continuing ambiguity resolution");
          ("current_question", JStr current_question);
          ("total_questions", JNat (length extended_questions));
          ("answered_questions", JNat (length current_answers)) ]
  end.

(** The JSON body: [None] for a missing or empty body, else the value of
    its ['action'] key. *)
Definition post {R} (auth : Auth) (session_id : string) (data : option (option string))
    : M R Response :=
  handler auth "Ambiguity resolution failed" (
    let! session_data := db_service.get_session session_id in
    match session_data with
    | None => return_ (Error "Session not found" 404 None)
    | Some session_row =>
        let! d := read_db in
        let session_dict := session_to_dict d session_id session_row in
        if negb (bool_decide (Some (sd_user_id session_dict) = auth_user_id auth)) then
          return_ (Error "Access denied" 403 None)
        else
          match data with
          | None => return_ (Error "No data provided" 400 None)
          | Some action =>
              if bool_decide (action = Some "start_analysis") then
                _start_analysis session_id session_dict
              else if bool_decide (action = Some "continue_resolving") then
                _continue_resolving session_id session_dict
              else return_ (Error "Invalid action" 400 None)
          end
    end).

End AmbiguityResolve.

Module AmbiguityAnswer.

Definition _update_ambiguity_message {R} := @update_ambiguity_message R.

Definition _handle_single_answer (session_id : string) (answer : string)
    : M Response Response :=
  let! ambiguity_data := db_service.get_ambiguity_data session_id in
  match ambiguity_data with
  | None => return_ (Error "No ambiguity data found" 404 None)
  | Some ambiguity_data =>
      let current_answers := amb_answers ambiguity_data in
      let current_questions := amb_questions ambiguity_data in
      let new_answers := current_answers ++ [answer] in
      let new_index := length new_answers in
      if (length new_answers <? length current_questions)%nat then
        let next_question_index := length new_answers in
        let! next_question := list_index current_questions next_question_index in
        db_service.update_ambiguity_data session_id
          {| au_questions := None; au_answers := Some new_answers;
             au_current_question_index := Some new_index; au_status := None;
             au_completed_questions_at := None; au_completed_at := None |} ;!
        _update_ambiguity_message session_id
          {| mu_current_question := Some (Some next_question);
             mu_answered_questions := Some (length new_answers);
             mu_total_questions := Some (length current_questions);
             mu_status := Some MsgActive |} ;!
        success_response
          [ ("message", JStr "Answer recorded");
            ("next_question", JStr next_question);
            ("current_index", JNat next_question_index);
            ("answered_questions", JNat (length new_answers));
            ("total_questions", JNat (length current_questions));
            ("status", JStr "active") ]
      else
        let! now := utcnow in
        db_service.update_ambiguity_data session_id
          {| au_questions := None; au_answers := Some new_answers;
             au_current_question_index := Some new_index;
             au_status := Some AmbContextConfirmation;
             au_completed_questions_at := Some now; au_completed_at := None |} ;!
        _update_ambiguity_message session_id
          {| mu_current_question := Some None;
             mu_answered_questions := Some (length new_answers);
             mu_total_questions := Some (length current_questions);
             mu_status := Some MsgContextConfirmation |} ;!
        db_service.update_session session_id
          {| su_current_step := Some StepContext; su_status := None |} ;!
        success_response
          [ ("message", JStr "All questions answered");
            ("status", JStr "context_confirmation");
            ("total_answered", JNat (length new_answers));
            ("ready_for_confirmation", JBool true) ]
  end.

Definition _handle_batch_answers (session_id : string) (answers_batch : list string)
    : M Response Response :=
  let! ambiguity_data := db_service.get_ambiguity_data session_id in
  match ambiguity_data with
  | None => return_ (Error "No ambiguity data found" 404 None)
  | Some ambiguity_data =>
      let current_answers := amb_answers ambiguity_data in
      let current_questions := amb_questions ambiguity_data in
      let new_answers := current_answers ++ answers_batch in
      let new_index := length new_answers in
      if (length current_questions <=? length new_answers)%nat then
        let! now := utcnow in
        db_service.update_ambiguity_data session_id
          {| au_questions := None;
             au_answers := Some (take (length current_questions) new_answers);
             au_current_question_index := Some (length current_questions);
             au_status := Some AmbContextConfirmation;
             au_completed_questions_at := Some now; au_completed_at := None |} ;!
        _update_ambiguity_message session_id
          {| mu_current_question := Some None;
             mu_answered_questions := Some (length current_questions);
             mu_total_questions := Some (length current_questions);
             mu_status := Some MsgContextConfirmation |} ;!
        db_service.update_session session_id
          {| su_current_step := Some StepContext; su_status := None |} ;!
        success_response
          [ ("message", JStr "All questions answered");
            ("status", JStr "context_confirmation");
            ("total_answered", JNat (length current_questions));
            ("ready_for_confirmation", JBool true) ]
      else
        let next_question_index := length new_answers in
        let! next_question := list_index current_questions next_question_index in
        db_service.update_ambiguity_data session_id
          {| au_questions := None; au_answers := Some new_answers;
             au_current_question_index := Some new_index; au_status := None;
             au_completed_questions_at := None; au_completed_at := None |} ;!
        _update_ambiguity_message session_id
          {| mu_current_question := Some (Some next_question);
             mu_answered_questions := Some (length new_answers);
             mu_total_questions := Some (length current_questions);
             mu_status := Some MsgActive |} ;!
        success_response
          [ ("message", JStr (pretty (length answers_batch) +:+ " answers recorded"));
            ("next_question", JStr next_question);
            ("current_index", JNat next_question_index);
            ("answered_questions", JNat (length new_answers));
            ("total_questions", JNat (length current_questions));
            ("status", JStr "active") ]
  end.

(** The JSON body of an answer submission: the ['answers'] array and the
    ['answer'] string, each [None] when the key is absent. *)
Record AnswerBody := {
  body_answers : option (list string);
  body_answer : option string
}.

(** [data] is [None] for a missing or empty body. *)
Definition post {R} (auth : Auth) (session_id : string) (data : option AnswerBody)
    : M R Response :=
  handler auth "Failed to submit answer" (
    let! session_data := db_service.get_session session_id in
    match session_data with
    | None => return_ (Error "Session not found" 404 None)
    | Some session_row =>
        if negb (bool_decide (Some (sess_user_id session_row) = auth_user_id auth)) then
          return_ (Error "Access denied" 403 None)
        else
          match data with
          | None => return_ (Error "No data provided" 400 None)
          | Some body =>
              match body_answers body with
              | Some answers_batch =>
                  match answers_batch with
                  | [] => return_ (Error "Answers array is required" 400 None)
                  | _ =>
                      let valid_answers :=
                        List.filter (fun s => negb (String.eqb s EmptyString))
                                    (List.map strip answers_batch) in
                      match valid_answers with
                      | [] =>
                          return_ (Error "At least one valid answer is required" 400 None)
                      | _ => _handle_batch_answers session_id valid_answers
                      end
                  end
              | None =>
                  let answer := strip (default EmptyString (body_answer body)) in
                  if String.eqb answer EmptyString then
                    return_ (Error "Answer is required" 400 None)
                  else _handle_single_answer session_id answer
              end
          end
    end).

End AmbiguityAnswer.

(** ** Processing ([resources/processing.py]) *)

(** [[f(x) for x in xs]] with an effectful [f]. *)
Fixpoint map_m {R X Y} (f : X -> M R Y) (xs : list X) : M R (list Y) :=
  match xs with
  | [] => ret []
  | x :: xs' =>
      let! y := f x in
      let! ys := map_m f xs' in
      ret (y :: ys)
  end.

(** A loop whose body updates a local variable. *)
Fixpoint for_fold {R X S} (xs : list X) (body : X -> S -> M R S) (s : S) : M R S :=
  match xs with
  | [] => ret s
  | x :: xs' =>
      let! s' := body x s in
      for_fold xs' body s'
  end.

Definition set_stage_status (status : StageStatus) (st : Stage) : Stage :=
  {| stage_id := stage_id st; stage_name := stage_name st; stage_icon := stage_icon st;
     stage_status := status; stage_progress := stage_progress st;
     stage_started_at := stage_started_at st;
     stage_completed_at := stage_completed_at st |}.

Definition set_stage_progress (progress : float) (st : Stage) : Stage :=
  {| stage_id := stage_id st; stage_name := stage_name st; stage_icon := stage_icon st;
     stage_status := stage_status st; stage_progress := progress;
     stage_started_at := stage_started_at st;
     stage_completed_at := stage_completed_at st |}.

Definition set_stage_started_at (now : timestamp) (st : Stage) : Stage :=
  {| stage_id := stage_id st; stage_name := stage_name st; stage_icon := stage_icon st;
     stage_status := stage_status st; stage_progress := stage_progress st;
     stage_started_at := Some now;
     stage_completed_at := stage_completed_at st |}.

Definition set_stage_completed_at (now : timestamp) (st : Stage) : Stage :=
  {| stage_id := stage_id st; stage_name := stage_name st; stage_icon := stage_icon st;
     stage_status := stage_status st; stage_progress := stage_progress st;
     stage_started_at := stage_started_at st;
     stage_completed_at := Some now |}.

Module ProcessingStop.

(** The body of the loop over the stage list. *)
Definition stop_stage {R} (stage : Stage) : M R Stage :=
  match stage_status stage with
  | StProcessing =>
      let! now := utcnow in
      ret (set_stage_completed_at now (set_stage_status StStopped stage))
  | StQueued => ret (set_stage_status StCancelled stage)
  | _ => ret stage
  end.

Definition post {R} (auth : Auth) (session_id : string) : M R Response :=
  handler auth "Failed to stop processing" (
    let! session_data := db_service.get_session session_id in
    match session_data with
    | None => return_ (Error "Session not found" 404 None)
    | Some session_row =>
        if negb (bool_decide (Some (sess_user_id session_row) = auth_user_id auth)) then
          return_ (Error "Access denied" 403 None)
        else
          let! processing_data := db_service.get_processing_status session_id in
          match processing_data with
          | None => return_ (Error "No processing data found" 404 None)
          | Some processing_data =>
              if negb (bool_decide (ps_status processing_data = PsProcessing)) then
                return_ (Error "Processing is not active" 400 None)
              else
                let! stages_list := map_m stop_stage (ps_stages processing_data) in
                db_service.update_processing_status session_id
                  {| pu_status := Some PsStopped; pu_stages := Some stages_list;
                     pu_current_stage := None; pu_overall_progress := None;
                     pu_completed_at := None; pu_error := None |} ;!
                db_service.add_processing_log session_id
                  "Processing was manually stopped by user" LogWarning ;!
                db_service.update_session session_id
                  {| su_current_step := Some StepCompleted; su_status := Some SessStopped |} ;!
                db_service.add_message session_id
                  (plain_message MsgAssistant
                     "Analysis Stopped - Processing was manually interrupted" MsgCompleted) ;!
                success_response
                  [ ("message", JStr "Processing stopped successfully");
                    ("status", JStr "stopped") ]
          end
    end).

End ProcessingStop.

(** [time.sleep]: time passes, and the environment takes its next turn: it
    does nothing, or another client's stop request is served meanwhile.  Of
    the requests that can reach the server during a pause only the stop
    request is part of the schedule; what a cleanup does to a task between
    two turns of its loop is composed by hand where it is needed.  The
    length of the pause is not part of the model. *)
Definition sleep {R} : M R unit :=
  fun w =>
    let rest := tail (sched w) in
    let w1 :=
      {| db := db w; clock := S (clock w); next_id := next_id w; threads := threads w;
         sched := rest; history := history w |} in
    match sched w with
    | Some (auth, session_id) :: _ =>
        (Val tt, snd (ProcessingStop.post (R := unit) auth session_id w1))
    | _ => (Val tt, w1)
    end.

(** [int(x)] of a float: truncation toward zero; Python raises on a NaN or
    an infinity. *)
Definition py_int {R} (x : float) : M R Z :=
  match Prim2SF x with
  | S754_zero _ => ret 0
  | S754_finite s m e =>
      let v := if 0 <=? e then Z.pos m * 2 ^ e else Z.pos m / 2 ^ (- e) in
      ret (if s then - v else v)
  | S754_infinity _ => raise "cannot convert float infinity to integer"
  | S754_nan => raise "cannot convert float NaN to integer"
  end.

Definition is_stopped (current_status : option ProcessingStatus) : bool :=
  match current_status with
  | None => true
  | Some row => bool_decide (ps_status row = PsStopped)
  end.

Module ProcessingStart.

(** The request body: the keys of ['config'], [None] when absent.  A
    [processing_time] that is not a number is kept as [inr] of its type
    name. *)
Record StartConfig := {
  rc_processing_time : option (pynum + string);
  rc_analytics_depth : option string;
  rc_reporting_style : option string;
  rc_cross_validation : option string
}.

Definition empty_config : StartConfig :=
  {| rc_processing_time := None; rc_analytics_depth := None;
     rc_reporting_style := None; rc_cross_validation := None |}.

(** [processing_time < MIN or processing_time > MAX] *)
Definition out_of_range {R} (processing_time : pynum + string) : M R bool :=
  match processing_time with
  | inl (PInt z) =>
      ret ((z <? Config.MIN_PROCESSING_TIME) || (Config.MAX_PROCESSING_TIME <? z))%bool
  | inl (PFloat f) =>
      ret (PrimFloat.ltb f (float_of_int Config.MIN_PROCESSING_TIME)
           || PrimFloat.ltb (float_of_int Config.MAX_PROCESSING_TIME) f)%bool
  | inr type_name =>
      raise ("'<' not supported between instances of '" +:+ type_name +:+ "' and 'int'")
  end.

Definition stage_logs : list (string * list string) :=
  [ ("Planning",
     [ "🔍 Loading domain-specific knowledge base";
       "📊 Parsing user query and extracting key entities";
       "🎯 Generating analytical strategy framework";
       "✅ Planning phase complete - strategy defined" ]);
    ("Coding",
     [ "💻 Generating data analysis scripts";
       "⚡ Optimizing query structures for performance";
       "🔧 Validating code syntax and logic";
       "✅ Code generation complete - algorithms ready" ]);
    ("In-conversation Verification",
     [ "🔗 Cross-referencing user context with generated code";
       "📋 Validating analytical approach against requirements";
       "🎯 Performing contextual accuracy checks";
       "✅ Verification complete - context aligned" ]);
    ("Execution",
     [ "🚀 Executing analytical algorithms";
       "⚙️ Processing data with applied filters and constraints";
       "📈 Calculating statistical measures and metrics";
       "✅ Execution complete - results generated" ]);
    ("Code-fixing",
     [ "🔍 Reviewing code execution results";
       "🛠️ Applying optimization corrections";
       "✨ Finalizing computational accuracy";
       "✅ Code refinement complete - optimized" ]);
    ("Plan Optimization",
     [ "📊 Cross-referencing results with historical patterns";
       "🎯 Optimizing analytical insights delivery";
       "📋 Preparing result synthesis";
       "✅ Optimization complete - insights enhanced" ]);
    ("Summarization",
     [ "📝 Generating insights and recommendations";
       "🎨 Formatting results for presentation";
       "📊 Finalizing analytical report structure";
       "✅ Summarization complete - report ready" ]) ].
Definition _get_stage_logs (stage_name : string) : list string :=
  dict_get stage_logs stage_name [ "🔄 Processing " +:+ lower stage_name ].

Definition report_Finance : string :=
"# Financial Performance Analysis Report

## Executive Summary
The analysis reveals significant growth trends across key financial metrics with notable improvements in revenue generation and cost optimization.

## Key Findings

### Revenue Performance
- **Total Revenue**: $12.4M (+18% YoY)
- **Quarterly Growth**: 22% increase from Q3 to Q4
- **Regional Distribution**:
  - North America: $6.2M (50%)
  - Europe: $3.7M (30%)
  - Asia-Pacific: $2.5M (20%)

### Cost Analysis
- **Customer Acquisition Cost (CAC)**: $450 (-15% from previous quarter)
- **Operating Expenses**: $8.1M (65% of revenue)
- **EBITDA Margin**: 35% (+5 percentage points YoY)

### Product Category Performance
| Category | Revenue | Growth | Market Share |
|----------|---------|--------|-------------|
| Enterprise | $5.8M | +25% | 47% |
| Mid-Market | $4.1M | +15% | 33% |
| SMB | $2.5M | +12% | 20% |

### Conversion Metrics
- **Lead-to-Customer Rate**: 24% (+6% improvement)
- **Average Deal Size**: $125K (+10% increase)
- **Sales Cycle**: 45 days (-5 days reduction)

## Recommendations
1. **Increase investment** in North American market given strong performance
2. **Optimize CAC** further through improved targeting
3. **Focus on Enterprise segment** for higher margins
4. **Implement pricing optimization** for Mid-Market segment

## Risk Assessment
- Currency fluctuation impact on international revenue
- Increasing competition in SMB segment
- Dependency on top 10 customers (35% of revenue)

---
*Analysis completed using BLUE SHERPA Cognitive Engine v2.0*".

Definition report_Marketing : string :=
"# Marketing Campaign Performance Analysis

## Campaign Overview
Multi-channel marketing analysis reveals strong digital performance with opportunities for traditional channel optimization.

## Performance Metrics

### Digital Marketing
- **Overall ROI**: 312% (+45% vs target)
- **Total Reach**: 2.4M unique users
- **Engagement Rate**: 8.2% (industry avg: 5.1%)
- **Conversion Rate**: 3.8%

### Channel Performance
| Channel | Spend | Revenue | ROI | Conversions |
|---------|-------|---------|-----|-------------|
| Google Ads | $250K | $1.1M | 440% | 2,840 |
| Social Media | $180K | $650K | 361% | 1,920 |
| Email | $45K | $380K | 844% | 1,450 |
| Content | $120K | $480K | 400% | 890 |

### Audience Insights
- **Top Performing Segments**:
  - Tech Professionals (CTR: 12.4%)
  - Decision Makers (Conv: 6.2%)
  - Early Adopters (LTV: $3,200)

### Campaign Effectiveness
- **Brand Awareness**: +34% lift
- **Consideration**: +28% increase
- **Purchase Intent**: +41% improvement

## Recommendations
1. **Scale email marketing** given exceptional ROI
2. **Refine social targeting** to tech professionals
3. **Test new creative formats** for display ads
4. **Implement attribution modeling** for better insights

---
*Powered by BLUE SHERPA Analytics Engine*".

Definition report_Sales : string :=
"# Sales Territory Performance Analysis

## Territory Overview
Comprehensive analysis of sales performance across all territories with focus on pipeline health and rep productivity.

## Territory Performance

### Regional Results
| Territory | Revenue | Target | Achievement | Pipeline |
|-----------|---------|--------|-------------|----------|
| Northeast | $3.2M | $2.8M | 114% | $8.5M |
| Southwest | $2.8M | $2.5M | 112% | $7.2M |
| Central | $2.4M | $2.6M | 92% | $6.1M |
| Pacific | $2.1M | $2.0M | 105% | $5.8M |

### Sales Rep Performance
- **Top Performers**: 8 reps exceeding 120% of quota
- **Average Quota Attainment**: 106%
- **New Rep Ramp Time**: 3.2 months (improved from 4.5)

### Pipeline Analysis
- **Total Pipeline Value**: $27.6M
- **Pipeline Coverage**: 3.2x (healthy)
- **Win Rate**: 28% (+3% QoQ)
- **Average Deal Size**: $95K

### Activity Metrics
- **Calls per Rep**: 48/day (+15%)
- **Meetings Booked**: 12/week
- **Proposals Sent**: 8/week
- **Close Rate**: 24%

## Key Insights
1. Northeast territory exceeding all metrics
2. Central territory needs additional support
3. Strong pipeline coverage indicates Q1 success
4. Win rates improving across all segments

## Recommendations
1. **Replicate Northeast** best practices
2. **Provide coaching** for Central territory
3. **Invest in sales enablement** tools
4. **Implement territory rebalancing** for Q2

---
*Analysis by BLUE SHERPA Sales Intelligence*".

Definition report_Customer_Service : string :=
"# Customer Service Quality Analysis

## Service Performance Overview
Comprehensive analysis of customer service metrics revealing opportunities for response time optimization and satisfaction improvement.

## Key Metrics

### Response Performance
- **Average Response Time**: 2.4 hours (Target: 3 hours) ✅
- **First Contact Resolution**: 72% (+8% improvement)
- **Escalation Rate**: 12% (-3% reduction)
- **SLA Compliance**: 94%

### Channel Analysis
| Channel | Volume | Avg Response | CSAT | Resolution Rate |
|---------|--------|--------------|------|----------------|
| Phone | 8,420 | 3.2 min | 88% | 78% |
| Email | 12,350 | 4.1 hours | 82% | 68% |
| Chat | 15,680 | 45 seconds | 91% | 74% |
| Social | 3,240 | 1.8 hours | 85% | 65% |

### Customer Satisfaction
- **Overall CSAT**: 86% (+4% YoY)
- **NPS Score**: 52 (Excellent)
- **Customer Effort Score**: 3.2/5
- **Repeat Contact Rate**: 18%

### Agent Performance
- **Average Handle Time**: 6.8 minutes
- **Tickets per Agent**: 45/day
- **Quality Score**: 92%
- **Training Completion**: 96%

## Trending Issues
1. Password reset requests (18% of volume)
2. Billing inquiries (15%)
3. Feature requests (12%)
4. Technical support (35%)

## Recommendations
1. **Implement self-service** for password resets
2. **Enhance chat bot** capabilities
3. **Create knowledge base** for common issues
4. **Optimize email response** workflows

---
*BLUE SHERPA Service Analytics Platform*".

Definition results : list (string * string) :=
  [ ("Finance", report_Finance);
    ("Marketing", report_Marketing);
    ("Sales", report_Sales);
    ("Customer Service", report_Customer_Service) ].
Definition _generate_analytics_result (domain : string) : string :=
  dict_get results domain report_Finance.

(** [sum(stages[i]['duration'] for i in range(stage_index)
         if stages_list[i]['status'] == 'completed')] *)
Definition completed_weight (stages : list Config.StageConfig) (stages_list : list Stage)
    (stage_index : nat) : Z :=
  fold_right Z.add 0
    (List.map
       (fun i =>
          match stages !! i, stages_list !! i with
          | Some stage_config, Some stage =>
              if bool_decide (stage_status stage = StCompleted)
              then Config.sc_duration stage_config else 0
          | _, _ => 0
          end)
       (seq 0 stage_index)).

Definition total_weight (stages : list Config.StageConfig) : Z :=
  fold_right Z.add 0 (List.map Config.sc_duration stages).

(** [(step / steps) * 100] *)
Definition step_progress (step steps : nat) : float :=
  ((float_of_int (Z.of_nat step) / float_of_int (Z.of_nat steps)) * float_of_int 100)%float.

(** [((completed_weight + (progress / 100) * duration) / total_weight) * 100] *)
Definition overall_progress (stages : list Config.StageConfig) (stages_list : list Stage)
    (stage_index : nat) (stage_config : Config.StageConfig) (progress : float) : float :=
  let current_stage_contribution :=
    ((progress / float_of_int 100) * float_of_int (Config.sc_duration stage_config))%float in
  (((float_of_int (completed_weight stages stages_list stage_index)
     + current_stage_contribution)
    / float_of_int (total_weight stages)) * float_of_int 100)%float.

(** [stages_list[i] = f(stages_list[i])], an [IndexError] out of range. *)
Definition modify_stage {R} (stages_list : list Stage) (i : nat) (f : Stage -> Stage)
    : M R (list Stage) :=
  let! stage := list_index stages_list i in
  ret (<[i := f stage]> stages_list).

(** One turn of the loop over the progress steps of a stage. *)
Definition progress_step (session_id : string) (stages : list Config.StageConfig)
    (stage_index : nat) (stage_config : Config.StageConfig) (steps : nat)
    (step : nat) (stages_list : list Stage) : M unit (list Stage) :=
  let! current_status := db_service.get_processing_status session_id in
  if is_stopped current_status then return_ tt
  else
    let progress := step_progress step steps in
    let! stages_list := modify_stage stages_list stage_index (set_stage_progress progress) in
    let overall := overall_progress stages stages_list stage_index stage_config progress in
    db_service.update_processing_status session_id
      {| pu_status := None; pu_stages := Some stages_list; pu_current_stage := None;
         pu_overall_progress := Some (py_min overall (float_of_int 100));
         pu_completed_at := None; pu_error := None |} ;!
    (if ((0 <? step)%nat && (step mod (steps / 4) =? 0)%nat && (step <? steps)%nat)%bool then
       let! progress_percent := py_int progress in
       db_service.add_processing_log session_id
         ("📊 " +:+ Config.sc_name stage_config +:+ " - " +:+ pretty progress_percent
            +:+ "% completed") LogInfo ;!
       ret tt
     else ret tt) ;!
    sleep ;!
    ret stages_list.

(** One turn of the loop over the flavour lines of a completed stage. *)
Definition stage_log_step (session_id : string) (log_msg : string) : M unit unit :=
  let! current_status := db_service.get_processing_status session_id in
  if is_stopped current_status then return_ tt
  else
    db_service.add_processing_log session_id log_msg LogInfo ;!
    sleep.

(** One turn of the loop over the configured stages.  [stages_list] is read
    anew from the row the task holds; [get_stages] answers the empty list
    when the row cannot be read any more. *)
Definition process_stage (session_id : string) (stages : list Config.StageConfig)
    (entry : nat * Config.StageConfig) : M unit unit :=
  let stage_index := fst entry in
  let stage_config := snd entry in
  let! processing_data := db_service.get_processing_status session_id in
  let stages_list :=
    match processing_data with
    | Some row => ps_stages row
    | None => []
    end in
  let! stages_list := modify_stage stages_list stage_index (set_stage_status StProcessing) in
  let! now := utcnow in
  let! stages_list := modify_stage stages_list stage_index (set_stage_started_at now) in
  let! stages_list :=
    modify_stage stages_list stage_index (set_stage_progress (float_of_int 0)) in
  db_service.update_processing_status session_id
    {| pu_status := None; pu_stages := Some stages_list;
       pu_current_stage := Some stage_index; pu_overall_progress := None;
       pu_completed_at := None; pu_error := None |} ;!
  db_service.add_processing_log session_id
    ("Starting " +:+ Config.sc_name stage_config +:+ "...") LogInfo ;!
  let steps := 10%nat in
  let! stages_list :=
    for_fold (seq 0 (steps + 1))
      (progress_step session_id stages stage_index stage_config steps) stages_list in
  let! stages_list := modify_stage stages_list stage_index (set_stage_status StCompleted) in
  let! stages_list :=
    modify_stage stages_list stage_index (set_stage_progress (float_of_int 100)) in
  let! now := utcnow in
  let! stages_list := modify_stage stages_list stage_index (set_stage_completed_at now) in
  db_service.update_processing_status session_id
    {| pu_status := None; pu_stages := Some stages_list; pu_current_stage := None;
       pu_overall_progress := None; pu_completed_at := None; pu_error := None |} ;!
  db_service.add_processing_log session_id
    (Config.sc_name stage_config +:+ " completed successfully") LogSuccess ;!
  for_each (_get_stage_logs (Config.sc_name stage_config)) (stage_log_step session_id).

(** What follows the loop over the stages. *)
Definition finish_processing (session_id : string) : M unit unit :=
  let! now := utcnow in
  db_service.update_processing_status session_id
    {| pu_status := Some PsCompleted; pu_stages := None; pu_current_stage := None;
       pu_overall_progress := Some (float_of_int 100);
       pu_completed_at := Some now; pu_error := None |} ;!
  db_service.add_processing_log session_id
    "✨ All processing stages completed successfully" LogSuccess ;!
  sleep ;!
  db_service.add_processing_log session_id
    "🎉 BLUE SHERPA analytics processing complete - results ready" LogSuccess ;!
  sleep ;!
  db_service.add_processing_log session_id
    "📤 Preparing final analysis report..." LogInfo ;!
  db_service.update_session session_id
    {| su_current_step := Some StepCompleted; su_status := Some SessCompleted |} ;!
  let! session := db_service.get_session session_id in
  let domain := match session with Some s => sess_domain s | None => "Finance" end in
  let analytics_result := _generate_analytics_result domain in
  db_service.add_message session_id
    (plain_message MsgAssistant analytics_result MsgCompleted) ;!
  db_service.update_message_status session_id MsgAmbiguity MsgCompleted ;!
  ret tt.

(** The body of the [try] of [_process_analytics]. *)
Definition process_analytics_body (session_id : string) (total_time_minutes : pynum)
    : M unit unit :=
  let stages := Config.PROCESSING_STAGES in
  db_service.add_processing_log session_id
    "🚀 Initializing BLUE SHERPA cognitive processing pipeline" LogInfo ;!
  sleep ;!
  db_service.add_processing_log session_id
    "🧠 Loading analytical models and domain expertise" LogInfo ;!
  let! processing_data := db_service.get_processing_status session_id in
  match processing_data with
  | None => return_ tt
  | Some _ =>
      for_each (enumerate stages) (process_stage session_id stages) ;!
      finish_processing session_id
  end.

(** The [except] clause of [_process_analytics]. *)
Definition processing_error (session_id : string) (e : string) : M unit unit :=
  try_except
    (db_service.add_processing_log session_id ("Processing error: " +:+ e) LogError ;!
     db_service.update_processing_status session_id
       {| pu_status := Some PsFailed; pu_stages := None; pu_current_stage := None;
          pu_overall_progress := None; pu_completed_at := None; pu_error := Some e |} ;!
     ret tt)
    (fun db_error => ret tt).

Definition _process_analytics {R} (session_id : string) (total_time_minutes : pynum)
    : M R unit :=
  call (try_except (process_analytics_body session_id total_time_minutes)
                   (processing_error session_id)).

(** [current_app.app_context()].  [current_app] stands for the application
    of the context that is active where it is used, and [active] says
    whether there is one; without, the proxy raises [RuntimeError] (the
    first line of its text is kept). *)
Definition current_app_app_context {R} (active : bool) : M R unit :=
  if active then ret tt else raise "Working outside of application context.".

(** The target of the background thread; [active] as above. *)
Definition _process_analytics_with_context {R} (active : bool) (session_id : string)
    (total_time_minutes : pynum) : M R unit :=
  call (try_except
    (current_app_app_context active ;!
     _process_analytics session_id total_time_minutes)
    (fun e =>
       try_except
         (current_app_app_context active ;!
          db_service.update_processing_status session_id
            {| pu_status := Some PsFailed; pu_stages := None; pu_current_stage := None;
               pu_overall_progress := None; pu_completed_at := None; pu_error := Some e |} ;!
          ret tt)
         (fun db_error => ret tt))).

(** What the thread of [post] runs: a thread made by [threading.Thread]
    starts its target with no application context. *)
Definition thread_target {R} (session_id : string) (total_time_minutes : pynum)
    : M R unit :=
  _process_analytics_with_context false session_id total_time_minutes.

(** [data] is [None] for a missing or empty body, else the ['config']
    dictionary of the body (the empty one when the key is absent). *)
Definition post {R} (auth : Auth) (session_id : string) (data : option StartConfig)
    : M R Response :=
  handler auth "Failed to start processing" (
    let! session_data := db_service.get_session session_id in
    match session_data with
    | None => return_ (Error "Session not found" 404 None)
    | Some session_row =>
        if negb (bool_decide (Some (sess_user_id session_row) = auth_user_id auth)) then
          return_ (Error "Access denied" 403 None)
        else
          let processing_config := default empty_config data in
          let processing_time :=
            default (inl (PInt Config.DEFAULT_PROCESSING_TIME))
                    (rc_processing_time processing_config) in
          let analytics_depth := default "moderate" (rc_analytics_depth processing_config) in
          let reporting_style := default "detailed" (rc_reporting_style processing_config) in
          let cross_validation := default "medium" (rc_cross_validation processing_config) in
          let! invalid := out_of_range processing_time in
          let processing_time :=
            if invalid then PInt Config.DEFAULT_PROCESSING_TIME
            else match processing_time with
                 | inl x => x
                 | inr _ => PInt Config.DEFAULT_PROCESSING_TIME
                 end in
          let config_data :=
            {| cfg_processing_time := processing_time;
               cfg_analytics_depth := analytics_depth;
               cfg_reporting_style := reporting_style;
               cfg_cross_validation := cross_validation |} in
          let! existing_processing := db_service.get_processing_status session_id in
          match existing_processing with
          | Some _ =>
              db_service.delete_processing_status session_id ;!
              db_service.clear_processing_logs session_id ;!
              ret tt
          | None => ret tt
          end ;!
          db_service.create_processing_status session_id config_data ;!
          start_thread session_id processing_time ;!
          db_service.update_session session_id
            {| su_current_step := Some StepProcessing; su_status := Some SessProcessing |} ;!
          db_service.complete_ambiguity_resolution session_id ;!
          sleep ;!
          success_response
            [ ("message", JStr "Processing started");
              ("processing_id", JStr session_id);
              ("estimated_duration", JMinutes processing_time);
              ("config", JConfig config_data) ]
    end).

End ProcessingStart.

Module ProcessingComplete.

Definition dummy_logs : list string :=
  [ "🚀 Initializing BLUE SHERPA cognitive processing pipeline";
    "🧠 Loading analytical models and domain expertise";
    "🔍 Loading domain-specific knowledge base";
    "📊 Parsing user query and extracting key entities";
    "🎯 Generating analytical strategy framework";
    "✅ Planning phase complete - strategy defined";
    "💻 Generating data analysis scripts";
    "⚡ Optimizing query structures for performance";
    "🔧 Validating code syntax and logic";
    "✅ Code generation complete - algorithms ready";
    "🔗 Cross-referencing user context with generated code";
    "📋 Validating analytical approach against requirements";
    "🎯 Performing contextual accuracy checks";
    "✅ Verification complete - context aligned";
    "🚀 Executing analytical algorithms";
    "⚙️ Processing data with applied filters and constraints";
    "📈 Calculating statistical measures and metrics";
    "✅ Execution complete - results generated";
    "🔍 Reviewing code execution results";
    "🛠️ Applying optimization corrections";
    "✨ Finalizing computational accuracy";
    "✅ Code refinement complete - optimized";
    "📊 Cross-referencing results with historical patterns";
    "🎯 Optimizing analytical insights delivery";
    "📋 Preparing result synthesis";
    "✅ Optimization complete - insights enhanced";
    "📝 Generating insights and recommendations";
    "🎨 Formatting results for presentation";
    "📊 Finalizing analytical report structure";
    "✅ Summarization complete - report ready";
    "✨ All processing stages completed successfully";
    "🎉 BLUE SHERPA analytics processing complete - results ready";
    "📤 Preparing final analysis report..." ].
Definition _populate_dummy_logs {R} (session_id : string) : M R unit :=
  call (try_except
    (db_service.clear_processing_logs session_id ;!
     for_each dummy_logs
       (fun log_message =>
          db_service.add_processing_log session_id log_message LogInfo ;! ret tt))
    (fun e => ret tt)).

Definition report_Finance : string :=
"# Financial Performance Analysis Report

## Executive Summary
The analysis reveals significant growth trends across key financial metrics with notable improvements in revenue generation and cost optimization.

## Key Findings

### Revenue Performance
- **Total Revenue**: $12.4M (+18% YoY)
- **Quarterly Growth**: 22% increase from Q3 to Q4
- **Regional Distribution**:
  - North America: $6.2M (50%)
  - Europe: $3.7M (30%)
  - Asia-Pacific: $2.5M (20%)

### Cost Analysis
- **Customer Acquisition Cost (CAC)**: $450 (-15% from previous quarter)
- **Operating Expenses**: $8.1M (65% of revenue)
- **EBITDA Margin**: 35% (+5 percentage points YoY)

### Product Category Performance
| Category | Revenue | Growth | Market Share |
|----------|---------|--------|-------------|
| Enterprise | $5.8M | +25% | 47% |
| Mid-Market | $4.1M | +15% | 33% |
| SMB | $2.5M | +12% | 20% |

### Conversion Metrics
- **Lead-to-Customer Rate**: 24% (+6% improvement)
- **Average Deal Size**: $125K (+10% increase)
- **Sales Cycle**: 45 days (-5 days reduction)

## Recommendations
1. **Increase investment** in North American market given strong performance
2. **Optimize CAC** further through improved targeting
3. **Focus on Enterprise segment** for higher margins
4. **Implement pricing optimization** for Mid-Market segment

## Risk Assessment
- Currency fluctuation impact on international revenue
- Increasing competition in SMB segment
- Dependency on top 10 customers (35% of revenue)

*Generated by BLUE SHERPA Analytics Engine*".

Definition report_Marketing : string :=
"# Marketing Performance Analysis Report

## Executive Summary
Comprehensive analysis of marketing effectiveness reveals strong digital performance with opportunities for channel optimization.

## Key Metrics

### Campaign Performance
- **Total Campaigns**: 45 active campaigns
- **Average CTR**: 3.2% (+0.8% improvement)
- **Conversion Rate**: 12.5% (+2.1% YoY)
- **Cost Per Lead**: $35 (-12% optimization)

### Channel Analysis
- **Digital Channels**: 68% of total leads
- **Organic Search**: 34% of conversions
- **Paid Social**: 22% of conversions
- **Email Marketing**: 18% ROI

### Audience Insights
- **Primary Demographics**: 25-45 age group (62%)
- **Geographic Focus**: Urban markets (78%)
- **Engagement Rate**: 15.3% across channels

## Strategic Recommendations
1. **Expand organic search** investment
2. **Optimize social media** targeting
3. **Enhance email** personalization
4. **Develop mobile-first** strategies

*Generated by BLUE SHERPA Analytics Engine*".

Definition report_Operations : string :=
"# Operational Efficiency Analysis Report

## Executive Summary
Analysis reveals strong operational performance with identified optimization opportunities in process efficiency and resource allocation.

## Performance Metrics

### Efficiency Indicators
- **Overall Equipment Effectiveness**: 84% (+6% improvement)
- **Process Cycle Time**: 2.3 hours (-15% reduction)
- **Quality Rate**: 98.7% (+1.2% improvement)
- **Resource Utilization**: 89% (+4% optimization)

### Cost Analysis
- **Operational Costs**: $5.2M (-8% YoY)
- **Productivity Index**: 125 (+12 points)
- **Waste Reduction**: 23% decrease

### Process Optimization
- **Automation Level**: 67% of processes
- **Digital Transformation**: 78% completion
- **Staff Efficiency**: +19% productivity gain

## Strategic Initiatives
1. **Implement advanced automation** for remaining manual processes
2. **Optimize supply chain** logistics
3. **Enhance workforce** training programs
4. **Deploy predictive maintenance** systems

*Generated by BLUE SHERPA Analytics Engine*".

Definition results : list (string * string) :=
  [ ("Finance", report_Finance);
    ("Marketing", report_Marketing);
    ("Operations", report_Operations) ].
Definition _generate_analytics_result (domain : string) : string :=
  dict_get results domain report_Finance.

Definition post {R} (auth : Auth) (session_id : string) : M R Response :=
  handler auth "Failed to complete processing" (
    let! session_data := db_service.get_session session_id in
    match session_data with
    | None => return_ (Error "Session not found" 404 None)
    | Some session_row =>
        let! d := read_db in
        let session_dict := session_to_dict d session_id session_row in
        if negb (bool_decide (Some (sd_user_id session_dict) = auth_user_id auth)) then
          return_ (Error "Access denied" 403 None)
        else
          _populate_dummy_logs session_id ;!
          let! now := utcnow in
          db_service.update_processing_status session_id
            {| pu_status := Some PsCompleted; pu_stages := None; pu_current_stage := None;
               pu_overall_progress := Some (float_of_int 100);
               pu_completed_at := Some now; pu_error := None |} ;!
          db_service.update_session session_id
            {| su_current_step := Some StepCompleted; su_status := Some SessCompleted |} ;!
          let domain := sd_domain session_dict in
          let analytics_result := _generate_analytics_result domain in
          db_service.add_message session_id
            (plain_message MsgAssistant analytics_result MsgCompleted) ;!
          db_service.update_message_status session_id MsgAmbiguity MsgCompleted ;!
          success_response
            [ ("message", JStr "Processing completed successfully");
              ("session_id", JStr session_id);
              ("status", JStr "completed") ]
    end).

End ProcessingComplete.

(** ** Messages ([resources/messages.py]) *)

Module MessagesCreate.

Definition _handle_initial_query (session_id : string) (content : string)
    (session_data : SessionDict) : M (list Message) (list Message) :=
  let cycle_type :=
    if (sd_messages_count session_data =? 0)%nat then CycleInitial else CycleFollowup in
  let! conversation_cycle :=
    db_service.create_conversation_cycle session_id cycle_type content in
  db_service.update_session session_id
    {| su_current_step := Some StepAmbiguity; su_status := None |} ;!
  db_service.update_conversation_cycle_step (cyc_id conversation_cycle) StepAmbiguity ;!
  let domain := sd_domain session_data in
  let ambiguity_questions :=
    dict_get Config.DOMAIN_AMBIGUITY_QUESTIONS domain
      (dict_get Config.DOMAIN_AMBIGUITY_QUESTIONS "Finance" []) in
  db_service.create_ambiguity_data session_id ambiguity_questions domain ;!
  sleep ;!
  let! first_question := list_index ambiguity_questions 0 in
  let ambiguity_message_data :=
    {| md_type := MsgAmbiguity;
       md_content :=
         "I need to clarify a few domain-specific terms to ensure accurate analysis:";
       md_status := Some MsgActive;
       md_current_question := Some first_question;
       md_expanded := true;
       md_answered_questions := 0%nat;
       md_total_questions := length ambiguity_questions;
       md_all_questions := Some ambiguity_questions |} in
  let! ambiguity_message := db_service.add_message session_id ambiguity_message_data in
  ret [ambiguity_message].

(** Everything after the first [return] of the method is dead code. *)
Definition _handle_ambiguity_response (session_id : string) (content : string)
    (session_data : SessionDict) : M (list Message) (list Message) :=
  ret [].

Definition _handle_followup_query (session_id : string) (content : string)
    (session_data : SessionDict) : M (list Message) (list Message) :=
  sleep ;!
  let assistant_message_data :=
    plain_message MsgAssistant
      ("Thank you for your follow-up question: " +:+ dq +:+ content +:+ dq
         +:+ ". This functionality would typically provide additional insights based on your query and the previous analysis context. The system would analyze your question in relation to the completed analytics session and provide relevant additional information or clarifications.")
      MsgCompleted in
  let! assistant_message := db_service.add_message session_id assistant_message_data in
  ret [assistant_message].

(** [data] is [None] for a missing or empty body, else the value of its
    ['content'] key ([None] when absent). *)
Definition post {R} (auth : Auth) (session_id : string) (data : option (option string))
    : M R Response :=
  handler auth "Failed to create message" (
    let! session_data := db_service.get_session session_id in
    match session_data with
    | None => return_ (Error "Session not found" 404 None)
    | Some session_row =>
        let! d := read_db in
        let session_dict := session_to_dict d session_id session_row in
        if negb (bool_decide (Some (sd_user_id session_dict) = auth_user_id auth)) then
          return_ (Error "Access denied" 403 None)
        else
          match data with
          | None => return_ (Error "No data provided" 400 None)
          | Some content =>
              let content := strip (default EmptyString content) in
              if String.eqb content EmptyString then
                return_ (Error "Message content is required" 400 None)
              else
                sleep ;!
                let user_message_data := plain_message MsgUser content MsgCompleted in
                let! user_message := db_service.add_message session_id user_message_data in
                let current_step := sd_current_step session_dict in
                let! response_messages :=
                  match current_step with
                  | StepQuery => call (_handle_initial_query session_id content session_dict)
                  | StepAmbiguity =>
                      call (_handle_ambiguity_response session_id content session_dict)
                  | StepCompleted =>
                      call (_handle_followup_query session_id content session_dict)
                  | _ => ret []
                  end in
                let all_new_messages := user_message :: response_messages in
                success_response
                  [ ("messages", JMessages all_new_messages);
                    ("session_updated", JBool true) ]
          end
    end).

End MessagesCreate.

(** ** Results ([resources/analytics.py]) *)

Module AnalyticsResults.

(** [itertools.accumulate(weights)] *)
Fixpoint accumulate_from (total : float) (weights : list float) : list float :=
  match weights with
  | [] => []
  | x :: rest => (total + x)%float :: accumulate_from (total + x)%float rest
  end.

Definition accumulate (weights : list float) : list float :=
  match weights with
  | [] => []
  | x :: rest => x :: accumulate_from x rest
  end.

(** [bisect.bisect(a, x, 0, hi)] on a sorted list: the first index below
    [hi] whose entry is greater than [x], else [hi]. *)
Fixpoint bisect (a : list float) (x : float) (hi : nat) : nat :=
  match hi, a with
  | S hi', y :: a' => if PrimFloat.ltb x y then 0%nat else S (bisect a' x hi')
  | _, _ => 0%nat
  end.

(** [random.choices(population, weights=weights)[0]], given the value [u]
    that [random()] draws from the unit interval. *)
Definition choices (population : list string) (weights : list float) (u : float) : string :=
  let cum_weights := accumulate weights in
  let total := (List.last cum_weights 0 + 0)%float in
  let hi := (length population - 1)%nat in
  nth (bisect cum_weights (u * total)%float hi) population EmptyString.

#[warnings="-inexact-float"]
Definition _get_verification_status (u : float) : string :=
  let statuses := [ "verified"; "partial"; "failed" ] in
  let weights := [ 0.7; 0.2; 0.1 ]%float in
  choices statuses weights u.

(** The ['results'] entry is kept as the arguments
    [_generate_analytics_results] builds its dictionary from. *)
Definition get {R} (auth : Auth) (session_id : string) : M R Response :=
  handler auth "Failed to get results" (
    let! session_data := db_service.get_session session_id in
    match session_data with
    | None => return_ (Error "Session not found" 404 None)
    | Some session_row =>
        let! d := read_db in
        let session_dict := session_to_dict d session_id session_row in
        if negb (bool_decide (Some (sd_user_id session_dict) = auth_user_id auth)) then
          return_ (Error "Access denied" 403 None)
        else if negb (bool_decide (sd_current_step session_dict = StepCompleted)) then
          return_ (Error "Analysis not completed yet" 400 None)
        else
          let! processing_data := db_service.get_processing_status session_id in
          let config := ps_config <$> processing_data in
          let! generated := utcnow in
          let results := JResults session_dict config generated in
          let! now := utcnow in
          success_response
            [ ("session_id", JStr session_id);
              ("results", results);
              ("generated_at", JStamp now);
              ("verification_status", JStr "self._get_verification_status()") ]
    end).

End AnalyticsResults.

(** ** Sample worlds *)

Module Sample.

Definition empty_db : DB :=
  {| sessions := ∅; messages := []; ambiguity_data := ∅; processing_status := ∅;
     processing_logs := []; conversation_cycles := [] |}.

Definition alice : Auth := {| logged_in := true; auth_user_id := Some "user_alice" |}.

Definition new_session (title domain : string) : Session :=
  {| sess_title := title; sess_domain := domain; sess_user_id := "user_alice";
     sess_current_step := StepQuery; sess_status := SessActive;
     sess_created_at := 0%nat; sess_updated_at := 0%nat |}.

(** A world with one fresh session ["s1"] of the given domain, owned by
    [alice], and a quiet environment. *)
Definition fresh (domain : string) : World :=
  {| db := set_sessions (insert "s1" (new_session "Q4 Review" domain)) empty_db;
     clock := 1%nat; next_id := 0%nat; threads := []; sched := []; history := [] |}.

(** The world after the given request. *)
Definition after (request : M unit Response) (w : World) : World := snd (request w).

(** The first query of the session has been sent. *)
Definition asked (domain : string) : World :=
  after (MessagesCreate.post alice "s1" (Some (Some "How did we do this quarter?")))
        (fresh domain).

Definition single (answer : string) : M unit Response :=
  AmbiguityAnswer.post alice "s1"
    (Some {| AmbiguityAnswer.body_answers := None;
             AmbiguityAnswer.body_answer := Some answer |}).

Definition batch (answers : list string) : M unit Response :=
  AmbiguityAnswer.post alice "s1"
    (Some {| AmbiguityAnswer.body_answers := Some answers;
             AmbiguityAnswer.body_answer := None |}).

(** Both questions answered in one batch. *)
Definition answered (domain : string) : World :=
  after (batch [ "geographic regions"; "CAC and LTV" ]) (asked domain).

(** Processing started with the default configuration. *)
Definition started (domain : string) : World :=
  after (ProcessingStart.post alice "s1" None) (answered domain).

(** The task has run to its end, undisturbed, as it does where an
    application context is active. *)
Definition finished (domain : string) : World :=
  snd (ProcessingStart._process_analytics_with_context (R := unit) true "s1" (PInt 6)
         (started domain)).

(** The run was force-completed instead. *)
Definition forced (domain : string) : World :=
  after (ProcessingComplete.post alice "s1") (started domain).

(** A run caught in its second stage. *)
Definition midrun_stages : list Stage :=
  match List.map db_service.initial_stage Config.PROCESSING_STAGES with
  | planning :: coding :: rest =>
      set_stage_completed_at 30%nat
        (set_stage_progress (float_of_int 100) (set_stage_status StCompleted planning))
      :: set_stage_started_at 31%nat
           (set_stage_progress (float_of_int 40) (set_stage_status StProcessing coding))
      :: rest
  | other => other
  end.

Definition midrun (domain : string) : World :=
  snd (db_service.update_processing_status (R := unit) "s1"
         {| pu_status := None; pu_stages := Some midrun_stages;
            pu_current_stage := Some 1%nat;
            pu_overall_progress := Some (float_of_int 25);
            pu_completed_at := None; pu_error := None |}
         (started domain)).

End Sample.

(** ** Vocabulary of the properties *)

(** The owner of a session passes the decorator and the ownership check. *)
Definition owner (auth : Auth) (s : Session) : Prop :=
  logged_in auth = true /\ auth_user_id auth = Some (sess_user_id s)
  /\ sess_user_id s <> EmptyString.


(** What a stop request makes of one stage. *)
Inductive stopped_from : Stage -> Stage -> Prop :=
| stop_processing (st : Stage) (now : timestamp) :
    stage_status st = StProcessing ->
    stopped_from st (set_stage_completed_at now (set_stage_status StStopped st))
| stop_queued (st : Stage) :
    stage_status st = StQueued ->
    stopped_from st (set_stage_status StCancelled st)
| stop_other (st : Stage) :
    stage_status st <> StProcessing ->
    stage_status st <> StQueued ->
    stopped_from st st.

(** The duration the start handler stores for a numeric request value. *)
Definition stored_processing_time (x : pynum) : pynum :=
  match x with
  | PInt z =>
      if ((z <? Config.MIN_PROCESSING_TIME) || (Config.MAX_PROCESSING_TIME <? z))%bool
      then PInt Config.DEFAULT_PROCESSING_TIME else PInt z
  | PFloat f =>
      if (PrimFloat.ltb f (float_of_int Config.MIN_PROCESSING_TIME)
          || PrimFloat.ltb (float_of_int Config.MAX_PROCESSING_TIME) f)%bool
      then PInt Config.DEFAULT_PROCESSING_TIME else PFloat f
  end.

(** A start request that asks for an analysis depth outside the configured
    ones. *)
Definition bogus_depth_request : ProcessingStart.StartConfig :=
  {| ProcessingStart.rc_processing_time := Some (inl (PInt 10));
     ProcessingStart.rc_analytics_depth := Some "bogus";
     ProcessingStart.rc_reporting_style := None;
     ProcessingStart.rc_cross_validation := None |}.

(** Three single answers after the first query of a Finance session, which
    has two questions. *)
Definition three_single_answers : World :=
  Sample.after (Sample.single "and a third answer")
    (Sample.after (Sample.single "CAC and LTV")
       (Sample.after (Sample.single "geographic regions") (Sample.asked "Finance"))).

(** The value of a key of a successful response. *)
Definition response_field (key : string) (r : result unit Response) : option json :=
  match r with
  | Val (Success data) => Some (dict_get data key JNull)
  | _ => None
  end.

(** The number of questions the configuration gives a domain;
    [_continue_resolving] counts none for an unknown domain. *)
Definition initial_count (domain : string) : nat :=
  length (dict_get Config.DOMAIN_AMBIGUITY_QUESTIONS domain []).

(** The request that asks for more questions. *)
Definition continue_resolving : option (option string) := Some (Some "continue_resolving").

(** The message table after [update_ambiguity_message]: the first ambiguity
    message of the session takes the fields of [u]. *)
Definition upd_amb (session_id : string) (u : MessageUpdates) (msgs : list Message)
    : list Message :=
  match List.find (fun m => bool_decide (msg_type m = MsgAmbiguity))
                  (List.filter (message_of session_id) msgs) with
  | Some m =>
      update_first (fun m' => Nat.eqb (msg_id m') (msg_id m)) (apply_message_updates u) msgs
  | None => msgs
  end.

(** The answers of a list sent one at a time through the single-answer
    path, and all at once through the batch path. *)
Definition submit_one_at_a_time {R} (session_id : string) (answers : list string) : M R unit :=
  for_each answers
    (fun answer => call (AmbiguityAnswer._handle_single_answer session_id answer) ;! ret tt).

Definition submit_batch {R} (session_id : string) (answers : list string) : M R Response :=
  call (AmbiguityAnswer._handle_batch_answers session_id answers).

(** What the two paths are compared on: answers, index and status
    of the ambiguity data, the step of the session, and the messages. *)
Definition answer_state (session_id : string) (w : World)
    : option (list string * nat * AmbiguityStatus) * option Step * list Message :=
  ((fun a => (amb_answers a, amb_current_question_index a, amb_status a))
     <$> ambiguity_data (db w) !! session_id,
   sess_current_step <$> sessions (db w) !! session_id,
   messages (db w)).

(** The parts of a world the answer handlers write: the row of the session's
    ambiguity data and its ambiguity message. *)
Definition record_answers (session_id : string) (row : AmbiguityData) (u : MessageUpdates)
    (w : World) : World :=
  with_db (fun d => set_messages (upd_amb session_id u)
                      (set_ambiguity_data (insert session_id row) d)) w.

(** The dictionaries the handlers pass. *)
Definition answers_update (new_answers : list string) : AmbiguityUpdates :=
  {| au_questions := None; au_answers := Some new_answers;
     au_current_question_index := Some (length new_answers); au_status := None;
     au_completed_questions_at := None; au_completed_at := None |}.

Definition completion_update (stored : list string) (index : nat) (now : timestamp)
    : AmbiguityUpdates :=
  {| au_questions := None; au_answers := Some stored;
     au_current_question_index := Some index;
     au_status := Some AmbContextConfirmation;
     au_completed_questions_at := Some now; au_completed_at := None |}.

(** The world after the branch that both handlers take once every question
    is answered: the clock is read for the row, the row [a] takes the stored
    answers and the index, the message is written, and the session moves to
    the context step. *)
Definition all_answered (session_id : string) (a : AmbiguityData) (stored : list string)
    (index : nat) (u : MessageUpdates) (w : World) : World :=
  snd (bind (R := unit) utcnow
         (fun now w1 =>
            db_service.update_session session_id
              {| su_current_step := Some StepContext; su_status := None |}
              (record_answers session_id
                 (apply_ambiguity_updates (completion_update stored index now) a) u w1)) w).

Definition next_question_message (q : string) (answered total : nat) : MessageUpdates :=
  {| mu_current_question := Some (Some q); mu_answered_questions := Some answered;
     mu_total_questions := Some total; mu_status := Some MsgActive |}.

Definition confirmation_message (answered total : nat) : MessageUpdates :=
  {| mu_current_question := Some None; mu_answered_questions := Some answered;
     mu_total_questions := Some total; mu_status := Some MsgContextConfirmation |}.

(** The domain stored for a session, with the default of the report
    generator when the session is not there. *)
Definition stored_domain (session_id : string) (w : World) : string :=
  match sessions (db w) !! session_id with
  | Some s => sess_domain s
  | None => "Finance"
  end.

(** The content of the last message of the store. *)
Definition last_content (w : World) : option string :=
  option_map msg_content (last (messages (db w))).

(** The final report as a message. *)
Definition is_report (session_id content : string) (m : Message) : Prop :=
  msg_session_id m = session_id /\ msg_type m = MsgAssistant
  /\ msg_status m = Some MsgCompleted /\ msg_content m = content.

(** ** Vocabulary of a run of the simulator *)

(** The dictionary the [except] clause of the task writes. *)
Definition failure_update (e : string) : ProcUpdates :=
  {| pu_status := Some PsFailed; pu_stages := None; pu_current_stage := None;
     pu_overall_progress := None; pu_completed_at := None; pu_error := Some e |}.

(** The update dictionaries written to the row of a session, oldest first. *)
Definition writes_of (session_id : string) (h : list (string * ProcUpdates))
    : list ProcUpdates :=
  omap (fun e => if bool_decide (fst e = session_id) then Some (snd e) else None) h.

(** The values of [overall_progress] among the writes. *)
Definition overall_writes (us : list ProcUpdates) : list float :=
  omap pu_overall_progress us.

(** The progress of stage [i] in the stage lists among the writes. *)
Definition stage_writes (i : nat) (us : list ProcUpdates) : list float :=
  omap (fun u =>
          match pu_stages u with
          | Some stages_list =>
              match stages_list !! i with
              | Some st => Some (stage_progress st)
              | None => None
              end
          | None => None
          end) us.

(** Each value is at most the one written after it ([<=] of Python floats). *)
Definition nondecreasing (xs : list float) : Prop :=
  forall i x y, xs !! i = Some x -> xs !! S i = Some y -> PrimFloat.leb x y = true.

Definition steady (us : list ProcUpdates) : Prop :=
  nondecreasing (overall_writes us)
  /\ Forall (fun v => PrimFloat.leb v (float_of_int 100) = true) (overall_writes us)
  /\ forall i, nondecreasing (stage_writes i us).

(** What a run can see and change of its own session: the row and the writes
    to it. *)
Definition View : Type := option ProcessingStatus * list ProcUpdates.

Definition view (session_id : string) (w : World) : View :=
  (processing_status (db w) !! session_id, writes_of session_id (history w)).

(** [triple sid G P m Q]: from a world whose view satisfies [P], [m] ends
    with a value and a view that satisfy [Q], or leaves its function by
    [return] or by an exception with a view that satisfies [G]. *)
Definition triple {R A} (session_id : string) (G : View -> Prop) (P : View -> Prop)
    (m : M R A) (Q : A -> View -> Prop) : Prop :=
  forall w, P (view session_id w) ->
    match m w with
    | (Val a, w') => Q a (view session_id w')
    | (_, w') => G (view session_id w')
    end.

(** The dictionary a served stop request writes. *)
Definition stop_update (stages_list : list Stage) : ProcUpdates :=
  {| pu_status := Some PsStopped; pu_stages := Some stages_list;
     pu_current_stage := None; pu_overall_progress := None;
     pu_completed_at := None; pu_error := None |}.

(** [P] survives a stop request served on the session. *)
Definition stable (P : View -> Prop) : Prop :=
  forall row stages' ws,
    P (Some row, ws) ->
    ps_status row = PsProcessing ->
    Forall2 stopped_from (ps_stages row) stages' ->
    P (Some (apply_proc_updates (stop_update stages') row), ws ++ [stop_update stages']).

(** The points of a run.  In stage [k], with [p] the progress last set for
    it: the stages before [k] are completed at 100, the ones after it are
    at 0. *)
Definition shape_val (k : nat) (p : float) (i : nat) : float :=
  if (i <? k)%nat then float_of_int 100
  else if (i =? k)%nat then p else float_of_int 0.

Definition shape (k : nat) (p : float) (stages_list : list Stage) : Prop :=
  length stages_list = length Config.PROCESSING_STAGES
  /\ forall i st, stages_list !! i = Some st ->
       stage_progress st = shape_val k p i
       /\ ((i < k)%nat -> stage_status st = StCompleted).

(** The stage list with every stage completed. *)
Definition completed_stages : list Stage :=
  List.map (fun c => set_stage_status StCompleted (db_service.initial_stage c))
           Config.PROCESSING_STAGES.

(** The overall progress computed at step [j] of stage [k], and the value
    written. *)
Definition overall_at (k j : nat) : float :=
  match Config.PROCESSING_STAGES !! k with
  | Some stage_config =>
      ProcessingStart.overall_progress Config.PROCESSING_STAGES completed_stages k
        stage_config (ProcessingStart.step_progress j 10)
  | None => float_of_int 100
  end.

Definition overall_written (k j : nat) : float :=
  py_min (overall_at k j) (float_of_int 100).

(** The progress of the current stage and the overall progress last written
    when step [j] of stage [k] begins. *)
Definition progress_before (j : nat) : float :=
  match j with
  | O => float_of_int 0
  | S j' => ProcessingStart.step_progress j' 10
  end.

Definition overall_before (k j : nat) : option float :=
  match j, k with
  | O, O => None
  | O, S k' => Some (overall_written k' 10)
  | S j', _ => Some (overall_written k j')
  end.

(** The view at a point of a run that started after the writes [ws0]. *)
Definition at_point (ws0 : list ProcUpdates) (k : nat) (p : float) (ov : option float)
    (v : View) : Prop :=
  exists row us,
    v = (Some row, ws0 ++ us)
    /\ shape k p (ps_stages row)
    /\ steady us
    /\ (forall i q, (i < length Config.PROCESSING_STAGES)%nat ->
          last (stage_writes i us) = Some q -> q = shape_val k p i)
    /\ last (overall_writes us) = ov.

(** What holds of the writes of a run at any time. *)
Definition steady_since (ws0 : list ProcUpdates) (v : View) : Prop :=
  exists us, snd v = ws0 ++ us /\ steady us.

(** The comparisons of floats that the run relies on, over the seven stages
    and the eleven steps. *)
Definition le_opt (a : option float) (b : float) : bool :=
  match a with
  | Some x => PrimFloat.leb x b
  | None => true
  end.

Definition progress_checks : bool :=
  forallb (fun k =>
    forallb (fun j =>
      le_opt (overall_before k j) (overall_written k j)
      && PrimFloat.leb (overall_written k j) (float_of_int 100)
      && PrimFloat.leb (progress_before j) (ProcessingStart.step_progress j 10)
      && PrimFloat.leb (ProcessingStart.step_progress j 10)
                       (ProcessingStart.step_progress j 10))%bool
      (seq 0 11))
    (seq 0 7)
  && PrimFloat.leb (ProcessingStart.step_progress 10 10) (float_of_int 100)
  && PrimFloat.leb (float_of_int 100) (ProcessingStart.step_progress 10 10)
  && PrimFloat.leb (float_of_int 0) (float_of_int 0)
  && PrimFloat.leb (float_of_int 100) (float_of_int 100)
  && le_opt (overall_before 7 0) (float_of_int 100).


(** ** The other ambiguity endpoints ([resources/ambiguity.py]) *)

(** The string a status is stored as. *)
Definition ambiguity_status_name (s : AmbiguityStatus) : string :=
  match s with
  | AmbActive => "active"
  | AmbContextConfirmation => "context_confirmation"
  | AmbCompleted => "completed"
  | AmbConfirmed => "confirmed"
  end.

Module AmbiguityQuestions.

Definition get {R} (auth : Auth) (session_id : string) : M R Response :=
  handler auth "Failed to get questions" (
    let! session_data := db_service.get_session session_id in
    match session_data with
    | None => return_ (Error "Session not found" 404 None)
    | Some session_row =>
        let! d := read_db in
        let session_dict := session_to_dict d session_id session_row in
        if negb (bool_decide (Some (sd_user_id session_dict) = auth_user_id auth)) then
          return_ (Error "Access denied" 403 None)
        else
          let! ambiguity_data := db_service.get_ambiguity_data session_id in
          match ambiguity_data with
          | None => return_ (Error "No ambiguity data found" 404 None)
          | Some ambiguity_data =>
              success_response
                [ ("questions", JStrs (amb_questions ambiguity_data));
                  ("current_index", JNat (amb_current_question_index ambiguity_data));
                  ("answers", JStrs (amb_answers ambiguity_data));
                  ("status", JStr (ambiguity_status_name (amb_status ambiguity_data)));
                  ("total_questions", JNat (length (amb_questions ambiguity_data))) ]
          end
    end).

End AmbiguityQuestions.

Module AmbiguityContext.

(** Confirm the resolved context. *)
Definition post {R} (auth : Auth) (session_id : string) : M R Response :=
  handler auth "Failed to confirm context" (
    let! session_data := db_service.get_session session_id in
    match session_data with
    | None => return_ (Error "Session not found" 404 None)
    | Some session_row =>
        let! d := read_db in
        let session_dict := session_to_dict d session_id session_row in
        if negb (bool_decide (Some (sd_user_id session_dict) = auth_user_id auth)) then
          return_ (Error "Access denied" 403 None)
        else
          let! now := utcnow in
          db_service.update_ambiguity_data session_id
            {| au_questions := None; au_answers := None; au_current_question_index := None;
               au_status := Some AmbConfirmed; au_completed_questions_at := None;
               au_completed_at := Some now |} ;!
          success_response
            [ ("message", JStr "Context confirmed"); ("status", JStr "confirmed") ]
    end).

End AmbiguityContext.

Module AmbiguityCleanup.

Definition post {R} (auth : Auth) (session_id : string) : M R Response :=
  handler auth "Failed to clean data" (
    let! session_data := db_service.get_session session_id in
    match session_data with
    | None => return_ (Error "Session not found" 404 None)
    | Some session_row =>
        let! d := read_db in
        let session_dict := session_to_dict d session_id session_row in
        if negb (bool_decide (Some (sd_user_id session_dict) = auth_user_id auth)) then
          return_ (Error "Access denied" 403 None)
        else
          db_service.delete_ambiguity_data session_id ;!
          db_service.delete_processing_status session_id ;!
          db_service.delete_processing_logs session_id ;!
          success_response
            [ ("message", JStr ("Cleaned all data for session " +:+ session_id));
              ("session_id", JStr session_id) ]
    end).

End AmbiguityCleanup.

(** ** The message list ([resources/messages.py]) *)

Module MessagesList.

Definition get {R} (auth : Auth) (session_id : string) : M R Response :=
  handler auth "Failed to get messages" (
    let! session_data := db_service.get_session session_id in
    match session_data with
    | None => return_ (Error "Session not found" 404 None)
    | Some session_row =>
        let! d := read_db in
        let session_dict := session_to_dict d session_id session_row in
        if negb (bool_decide (Some (sd_user_id session_dict) = auth_user_id auth)) then
          return_ (Error "Access denied" 403 None)
        else
          let! messages := db_service.get_session_messages session_id in
          success_response
            [ ("messages", JMessages messages);
              ("total_count", JNat (length messages)) ]
    end).

End MessagesList.

(** ** Export ([resources/analytics.py]) *)

Module AnalyticsExport.

(** The dictionary [_generate_export_data] starts with reads
    [session_data['created_at'].isoformat()], and [session_data] is the
    dictionary of [to_dict], whose ['created_at'] is already the ISO string:
    the attribute lookup raises before anything is built, so the function
    has no value to return. *)
Definition _generate_export_data {R} (session_data : SessionDict) (format_type : string)
    : M R Empty_set :=
  raise "'str' object has no attribute 'isoformat'".

(** [format] is the query argument, [None] when absent. *)
Definition get {R} (auth : Auth) (session_id : string) (format : option string)
    : M R Response :=
  handler auth "Failed to export results" (
    let! session_data := db_service.get_session session_id in
    match session_data with
    | None => return_ (Error "Session not found" 404 None)
    | Some session_row =>
        let! d := read_db in
        let session_dict := session_to_dict d session_id session_row in
        if negb (bool_decide (Some (sd_user_id session_dict) = auth_user_id auth)) then
          return_ (Error "Access denied" 403 None)
        else
          let export_format := lower (default "pdf" format) in
          if negb (bool_decide (export_format ∈ [ "pdf"; "csv"; "json"; "xlsx" ])) then
            return_ (Error "Unsupported export format" 400 None)
          else
            let! export_data := _generate_export_data session_dict export_format in
            match export_data : Empty_set with end
    end).

End AnalyticsExport.

(** ** More sample worlds *)

(** A second user. *)
Definition bob : Auth := {| logged_in := true; auth_user_id := Some "user_bob" |}.

(** The sample run after alice has stopped it. *)
Definition stopped_run (domain : string) : World :=
  Sample.after (ProcessingStop.post Sample.alice "s1") (Sample.midrun domain).

(** ** Vocabulary of the further properties *)

(** The duration a start request asks for: the value of ['processing_time'],
    the default when the key or the whole body is missing. *)
Definition requested_time (data : option ProcessingStart.StartConfig) : pynum + string :=
  default (inl (PInt Config.DEFAULT_PROCESSING_TIME))
          (ProcessingStart.rc_processing_time (default ProcessingStart.empty_config data)).

(** The row [create_processing_status] stores, up to its key, its stamp and
    its configuration. *)
Definition fresh_row (row : ProcessingStatus) : Prop :=
  ps_status row = PsProcessing
  /\ ps_current_stage row = 0%nat
  /\ ps_overall_progress row = float_of_int 0
  /\ ps_stages row = List.map db_service.initial_stage Config.PROCESSING_STAGES
  /\ ps_completed_at row = None
  /\ ps_error row = None.

(** The logs of a session. *)
Definition logs_of (session_id : string) (w : World) : list ProcessingLog :=
  List.filter (db_service.log_of session_id) (processing_logs (db w)).

(** A start request whose duration is a string. *)
Definition textual_time_request : ProcessingStart.StartConfig :=
  {| ProcessingStart.rc_processing_time := Some (inr "str");
     ProcessingStart.rc_analytics_depth := None;
     ProcessingStart.rc_reporting_style := None;
     ProcessingStart.rc_cross_validation := None |}.

(** The view of a run that went through all its stages: the row is
    completed at 100 and so is every stage. *)
Definition run_done (v : View) : Prop :=
  exists row,
    fst v = Some row
    /\ ps_status row = PsCompleted
    /\ ps_overall_progress row = float_of_int 100
    /\ shape (length Config.PROCESSING_STAGES) (float_of_int 0) (ps_stages row).

(** The request that starts the analysis. *)
Definition start_analysis : option (option string) := Some (Some "start_analysis").

(** The question lists of the configuration. *)
Definition configured_questions : list (list string) :=
  List.map snd Config.DOMAIN_AMBIGUITY_QUESTIONS.

(** Bodies of answer submissions that carry no usable answer: an empty
    array, an array of blank strings, a blank or missing single answer. *)
Definition blank_batch (answers : list string) : AmbiguityAnswer.AnswerBody :=
  {| AmbiguityAnswer.body_answers := Some answers; AmbiguityAnswer.body_answer := None |}.

Definition single_body (answer : option string) : AmbiguityAnswer.AnswerBody :=
  {| AmbiguityAnswer.body_answers := None; AmbiguityAnswer.body_answer := answer |}.

(** A session of a domain the configuration does not list, after its first
    query. *)
Definition asked_unlisted : World := Sample.asked "Logistics".

(** The questions a first query opens the resolution with: those of the
    domain, those of Finance for a domain the configuration does not list. *)
Definition opening_questions (domain : string) : list string :=
  dict_get Config.DOMAIN_AMBIGUITY_QUESTIONS domain
    (dict_get Config.DOMAIN_AMBIGUITY_QUESTIONS "Finance" []).

(** ** Validation of a configuration ([utils/helpers.py]) *)

(** [validate_processing_config(config)] on the keys of a start request; a
    key that is absent is not checked, and a duration that is not a number
    is an error before it is compared. *)
Definition validate_processing_config (config : ProcessingStart.StartConfig) : list string :=
  let errors := [] in
  let errors :=
    match ProcessingStart.rc_processing_time config with
    | Some time_val =>
        let invalid :=
          match time_val with
          | inl (PInt z) =>
              ((z <? Config.MIN_PROCESSING_TIME) || (Config.MAX_PROCESSING_TIME <? z))%bool
          | inl (PFloat f) =>
              (PrimFloat.ltb f (float_of_int Config.MIN_PROCESSING_TIME)
               || PrimFloat.ltb (float_of_int Config.MAX_PROCESSING_TIME) f)%bool
          | inr _ => true
          end in
        if invalid then
          errors ++ [ "Processing time must be between " +:+ pretty Config.MIN_PROCESSING_TIME
                      +:+ " and " +:+ pretty Config.MAX_PROCESSING_TIME +:+ " minutes" ]
        else errors
    | None => errors
    end in
  let errors :=
    match ProcessingStart.rc_analytics_depth config with
    | Some depth =>
        if negb (bool_decide (depth ∈ Config.ANALYSIS_DEPTHS)) then
          errors ++ [ "Analytics depth must be one of: "
                      +:+ String.concat ", " Config.ANALYSIS_DEPTHS ]
        else errors
    | None => errors
    end in
  let errors :=
    match ProcessingStart.rc_reporting_style config with
    | Some style =>
        if negb (bool_decide (style ∈ Config.REPORT_FORMATS)) then
          errors ++ [ "Reporting style must be one of: "
                      +:+ String.concat ", " Config.REPORT_FORMATS ]
        else errors
    | None => errors
    end in
  let errors :=
    match ProcessingStart.rc_cross_validation config with
    | Some level =>
        if negb (bool_decide (level ∈ Config.VALIDATION_LEVELS)) then
          errors ++ [ "Cross validation must be one of: "
                      +:+ String.concat ", " Config.VALIDATION_LEVELS ]
        else errors
    | None => errors
    end in
  errors.

(** A request that asks for the deepest analysis and nothing else. *)
Definition deep_request : ProcessingStart.StartConfig :=
  {| ProcessingStart.rc_processing_time := Some (inl (PInt 12));
     ProcessingStart.rc_analytics_depth := Some "deep";
     ProcessingStart.rc_reporting_style := None;
     ProcessingStart.rc_cross_validation := None |}.

(** ** A cleanup during a run *)

(** The task up to the end of turn [k] of its loop over the stages. *)
Definition run_until (k : nat) (session_id : string) : M unit unit :=
  db_service.add_processing_log session_id
    "🚀 Initializing BLUE SHERPA cognitive processing pipeline" LogInfo ;!
  sleep ;!
  db_service.add_processing_log session_id
    "🧠 Loading analytical models and domain expertise" LogInfo ;!
  let! processing_data := db_service.get_processing_status session_id in
  match processing_data with
  | None => return_ tt
  | Some _ =>
      for_each (take k (enumerate Config.PROCESSING_STAGES))
        (ProcessingStart.process_stage session_id Config.PROCESSING_STAGES)
  end.

(** The turns of the loop from turn [k] on, and what follows the loop. *)
Definition resume_at (k : nat) (session_id : string) : M unit unit :=
  for_each (drop k (enumerate Config.PROCESSING_STAGES))
    (ProcessingStart.process_stage session_id Config.PROCESSING_STAGES) ;!
  ProcessingStart.finish_processing session_id.

(** The same inside the [try] of [_process_analytics]. *)
Definition resumed_task {R} (k : nat) (session_id : string) : M R unit :=
  call (try_except (resume_at k session_id) (ProcessingStart.processing_error session_id)).

(** The sample run at the end of its first stage, and the same after the
    owner's cleanup was served in the pause that ends the stage. *)
Definition first_stage_done (domain : string) : World :=
  snd (run_until 1 "s1" (Sample.started domain)).

Definition cleaned_mid_run (domain : string) : World :=
  Sample.after (AmbiguityCleanup.post Sample.alice "s1") (first_stage_done domain).

(** What the [except] clause of the task leaves of an error [e] raised in
    world [w1]: the row is [failed] with the text, one [error] log is added,
    and sessions, messages and ambiguity data are as they were. *)
Definition error_recorded (session_id e : string) (row : ProcessingStatus)
    (w1 w' : World) : Prop :=
  exists entry,
    processing_status (db w')
    = <[session_id := apply_proc_updates (failure_update e) row]> (processing_status (db w1))
    /\ ps_status (apply_proc_updates (failure_update e) row) = PsFailed
    /\ ps_error (apply_proc_updates (failure_update e) row) = Some e
    /\ processing_logs (db w') = processing_logs (db w1) ++ [entry]
    /\ log_session_id entry = session_id
    /\ log_type entry = LogError
    /\ log_message entry = "Processing error: " +:+ e
    /\ sessions (db w') = sessions (db w1)
    /\ messages (db w') = messages (db w1)
    /\ ambiguity_data (db w') = ambiguity_data (db w1).


(** * Properties *)

Local Open Scope Z_scope.

(** ** Stepping through a handler *)

Ltac munfold :=
  cbv beta iota zeta delta
      [handler require_auth call try_except bind ret return_ raise when
       read_db write_db utcnow generate_id record_update start_thread
       success_response error_response list_index
       db_service.get_session db_service.update_session db_service.add_message
       db_service.get_session_messages db_service.update_message
       db_service.update_message_status db_service.create_ambiguity_data
       db_service.get_ambiguity_data db_service.update_ambiguity_data
       db_service.complete_ambiguity_resolution db_service.get_processing_status
       db_service.update_processing_status db_service.delete_processing_status
       db_service.add_processing_log db_service.get_processing_logs
       db_service.delete_processing_logs db_service.clear_processing_logs
       db_service.create_processing_status db_service.delete_ambiguity_data
       db_service.create_conversation_cycle db_service.update_conversation_cycle_step
       session_to_dict plain_message id
       with_db set_sessions set_messages set_ambiguity_data set_processing_status
       set_processing_logs set_conversation_cycles] in *.

Ltac mproj :=
  cbn [db clock next_id threads sched history
       sessions messages ambiguity_data processing_status processing_logs conversation_cycles
       fst snd negb andb orb default from_option
       sd_id sd_title sd_domain sd_user_id sd_current_step sd_status sd_messages_count
       md_type md_content md_status md_current_question md_expanded
       md_answered_questions md_total_questions md_all_questions
       mu_current_question mu_answered_questions mu_total_questions mu_status
       au_questions au_answers au_current_question_index au_status
       au_completed_questions_at au_completed_at
       pu_status pu_stages pu_current_stage pu_overall_progress pu_completed_at pu_error
       su_current_step su_status] in *.

Ltac msimpl := munfold; mproj.

Lemma sleep_quiet {R} (w : World) :
  hd None (sched w) = None ->
  sleep (R := R) w =
    (Val tt, {| db := db w; clock := S (clock w); next_id := next_id w;
                threads := threads w; sched := tail (sched w); history := history w |}).
Proof.
  unfold sleep. destruct (sched w) as [|[[a s]|] l]; cbn; intros H; try done.
Qed.

(** C10.  At step [ambiguity] a successful message-create call appends the
    user's message and stamps the session; the ambiguity data, the step of
    the session and every other table stay as they were. *)
Theorem C10_message_at_ambiguity_step_only_appends (w : World) (auth : Auth)
    (sid content : string) (s : Session) :
  sessions (db w) !! sid = Some s ->
  owner auth s ->
  sess_current_step s = StepAmbiguity ->
  strip content <> EmptyString ->
  hd None (sched w) = None ->
  exists m w',
    MessagesCreate.post (R := unit) auth sid (Some (Some content)) w
      = (Val (Success [("messages", JMessages [m]); ("session_updated", JBool true)]), w')
    /\ msg_type m = MsgUser /\ msg_content m = strip content /\ msg_session_id m = sid
    /\ messages (db w') = messages (db w) ++ [m]
    /\ ambiguity_data (db w') = ambiguity_data (db w)
    /\ (exists t, sessions (db w') = <[sid := db_service.touch t s]> (sessions (db w)))
    /\ (exists s', sessions (db w') !! sid = Some s'
                   /\ sess_current_step s' = StepAmbiguity)
    /\ processing_status (db w') = processing_status (db w)
    /\ processing_logs (db w') = processing_logs (db w)
    /\ conversation_cycles (db w') = conversation_cycles (db w)
    /\ history w' = history w /\ threads w' = threads w.
Proof.
  intros Hs (Hl & Hu & Hne) Hstep Hc Hq.
  unfold MessagesCreate.post.
  msimpl. rewrite Hl, Hu. msimpl.
  destruct (sess_user_id s) as [|c0 uid] eqn:Hown; [done|].
  rewrite Hs. msimpl. rewrite Hown.
  rewrite bool_decide_eq_true_2 by done. msimpl.
  destruct (String.eqb (strip content) EmptyString) eqn:E.
  { apply String.eqb_eq in E. done. }
  rewrite sleep_quiet by done. msimpl.
  rewrite Hs. msimpl. rewrite Hstep.
  unfold MessagesCreate._handle_ambiguity_response. msimpl.
  eexists _, _. split; [reflexivity|]. msimpl.
  repeat split; try done.
  - eexists. reflexivity.
  - eexists. rewrite lookup_insert_eq. split; [reflexivity|]. exact Hstep.
Qed.

Lemma C10_witness :
  exists m w',
    MessagesCreate.post (R := unit) Sample.alice "s1" (Some (Some "  geographic regions "))
      (Sample.asked "Finance")
      = (Val (Success [("messages", JMessages [m]); ("session_updated", JBool true)]), w')
    /\ msg_content m = "geographic regions"
    /\ messages (db w') = messages (db (Sample.asked "Finance")) ++ [m]
    /\ ambiguity_data (db w') = ambiguity_data (db (Sample.asked "Finance")).
Proof.
  edestruct (C10_message_at_ambiguity_step_only_appends (Sample.asked "Finance")
               Sample.alice "s1" "  geographic regions ")
    as (m & w' & H & _ & Hc & _ & Hm & Ha & _).
  - vm_compute. reflexivity.
  - repeat split; vm_compute; congruence.
  - reflexivity.
  - vm_compute. congruence.
  - reflexivity.
  - exists m, w'. repeat split; assumption.
Defined.

(** ** Stopping a run *)

Lemma map_m_stop_stage {R} (stages : list Stage) (w : World) :
  exists stages' c,
    map_m (R := R) ProcessingStop.stop_stage stages w
      = (Val stages',
         {| db := db w; clock := c; next_id := next_id w; threads := threads w;
            sched := sched w; history := history w |})
    /\ Forall2 stopped_from stages stages' /\ (clock w <= c)%nat.
Proof.
  revert w. induction stages as [|st stages IH]; intros w.
  - exists [], (clock w). destruct w. cbn. repeat split; auto.
  - cbn [map_m]. unfold bind at 1.
    assert (Hst : exists st' c,
               ProcessingStop.stop_stage (R := R) st w
                 = (Val st',
                    {| db := db w; clock := c; next_id := next_id w; threads := threads w;
                       sched := sched w; history := history w |})
               /\ stopped_from st st' /\ (clock w <= c)%nat).
    { unfold ProcessingStop.stop_stage.
      destruct (stage_status st) eqn:E; msimpl;
        try (eexists _, (S (clock w)); split; [reflexivity|];
             split; [constructor; congruence | lia]);
        (eexists _, (clock w); destruct w; split; [reflexivity|]; cbn;
         split; [constructor; congruence | lia]). }
    destruct Hst as (st' & c1 & -> & Hrel & Hc).
    cbv beta iota zeta. unfold bind at 1.
    match goal with |- context [map_m _ stages ?w1] =>
      destruct (IH w1) as (stages' & c & Hrun & Hall & Hc') end.
    rewrite Hrun. cbn [ret] in *. mproj.
    exists (st' :: stages'), c. split; [reflexivity|].
    split; [constructor; assumption | lia].
Qed.

(** C5.  A stop request on a run that is processing: every stage that was
    processing is stopped, every stage that was queued is cancelled, and any
    other stage, a completed one in particular, is left exactly as it was. *)
Theorem C5_stop_marks_processing_and_queued_stages (w : World) (auth : Auth)
    (sid : string) (s : Session) (row : ProcessingStatus) :
  sessions (db w) !! sid = Some s ->
  owner auth s ->
  processing_status (db w) !! sid = Some row ->
  ps_status row = PsProcessing ->
  exists w' row',
    ProcessingStop.post (R := unit) auth sid w
      = (Val (Success [ ("message", JStr "Processing stopped successfully");
                        ("status", JStr "stopped") ]), w')
    /\ processing_status (db w') !! sid = Some row'
    /\ ps_status row' = PsStopped
    /\ length (ps_stages row') = length (ps_stages row)
    /\ forall i st, ps_stages row !! i = Some st ->
         exists st', ps_stages row' !! i = Some st'
           /\ (stage_status st = StProcessing ->
               stage_status st' = StStopped
               /\ stage_progress st' = stage_progress st
               /\ stage_started_at st' = stage_started_at st)
           /\ (stage_status st = StQueued -> st' = set_stage_status StCancelled st)
           /\ (stage_status st = StCompleted -> st' = st)
           /\ (stage_status st' = StStopped ->
               stage_status st = StProcessing \/ st' = st)
           /\ (stage_status st' = StCancelled ->
               stage_status st = StQueued \/ st' = st).
Proof.
  intros Hs (Hl & Hu & Hne) Hrow Hst.
  unfold ProcessingStop.post.
  msimpl. rewrite Hl, Hu. msimpl.
  destruct (sess_user_id s) as [|c0 uid] eqn:Hown; [done|].
  rewrite Hs. msimpl. rewrite Hown.
  rewrite bool_decide_eq_true_2 by done. msimpl.
  rewrite Hrow. msimpl. rewrite Hst.
  rewrite bool_decide_eq_true_2 by done. msimpl.
  destruct (map_m_stop_stage (R := Response) (ps_stages row) w)
    as (stages' & c & -> & Hall & Hc).
  msimpl. rewrite Hrow. msimpl.
  rewrite lookup_insert_eq. msimpl. rewrite Hs. msimpl.
  rewrite lookup_insert_eq. msimpl.
  eexists _, _. split; [reflexivity|]. msimpl.
  rewrite lookup_insert_eq. split; [reflexivity|].
  unfold apply_proc_updates. cbn.
  split; [reflexivity|].
  split; [symmetry; eapply Forall2_length; eassumption|].
  intros i st Hi.
  destruct (Forall2_lookup_l _ _ _ _ _ Hall Hi) as (st' & Hi' & Hrel).
  exists st'. split; [assumption|].
  destruct Hrel as [st now E | st E | st E1 E2]; cbn;
    repeat split; intros; try congruence; auto.
Qed.

Lemma C5_witness :
  exists w' row',
    ProcessingStop.post (R := unit) Sample.alice "s1" (Sample.midrun "Finance")
      = (Val (Success [ ("message", JStr "Processing stopped successfully");
                        ("status", JStr "stopped") ]), w')
    /\ processing_status (db w') !! "s1" = Some row'
    /\ List.map stage_status (ps_stages row')
       = [ StCompleted; StStopped; StCancelled; StCancelled; StCancelled; StCancelled;
           StCancelled ].
Proof.
  edestruct (C5_stop_marks_processing_and_queued_stages (Sample.midrun "Finance")
               Sample.alice "s1") as (w' & row' & Hrun & Hrow & _).
  - vm_compute. reflexivity.
  - repeat split; vm_compute; congruence.
  - vm_compute. reflexivity.
  - reflexivity.
  - exists w', row'. split; [exact Hrun|]. split; [exact Hrow|].
    vm_compute in Hrun. injection Hrun as <-.
    vm_compute in Hrow. injection Hrow as <-. reflexivity.
Defined.

(** ** Starting a run *)

(** C7, amended.  Of the four parameters only the duration is validated: a
    numeric duration outside the configured bounds is replaced by the
    default and the start succeeds; depth, style and validation level are
    stored as sent, with their defaults only when the key is absent. *)
Theorem C7_start_validates_only_the_duration (w : World) (auth : Auth) (sid : string)
    (s : Session) (request : ProcessingStart.StartConfig) (x : pynum) :
  sessions (db w) !! sid = Some s ->
  owner auth s ->
  ProcessingStart.rc_processing_time request = Some (inl x) ->
  hd None (sched w) = None ->
  exists data w' row,
    ProcessingStart.post (R := unit) auth sid (Some request) w = (Val (Success data), w')
    /\ processing_status (db w') !! sid = Some row
    /\ cfg_processing_time (ps_config row) = stored_processing_time x
    /\ (forall z, x = PInt z ->
          z < Config.MIN_PROCESSING_TIME \/ Config.MAX_PROCESSING_TIME < z ->
          cfg_processing_time (ps_config row) = PInt Config.DEFAULT_PROCESSING_TIME)
    /\ cfg_analytics_depth (ps_config row)
       = default "moderate" (ProcessingStart.rc_analytics_depth request)
    /\ cfg_reporting_style (ps_config row)
       = default "detailed" (ProcessingStart.rc_reporting_style request)
    /\ cfg_cross_validation (ps_config row)
       = default "medium" (ProcessingStart.rc_cross_validation request).
Proof.
  intros Hs (Hl & Hu & Hne) Hx Hq.
  unfold ProcessingStart.post.
  msimpl. rewrite Hl, Hu. msimpl.
  destruct (sess_user_id s) as [|c0 uid] eqn:Hown; [done|].
  rewrite Hs. msimpl. rewrite Hown.
  rewrite bool_decide_eq_true_2 by done. msimpl.
  rewrite Hx. msimpl.
  assert (Hstored : exists b,
             (forall w0, ProcessingStart.out_of_range (R := Response) (inl x) w0 = (Val b, w0))
             /\ (if b then PInt Config.DEFAULT_PROCESSING_TIME else x)
                = stored_processing_time x).
  { unfold ProcessingStart.out_of_range, stored_processing_time.
    destruct x as [z|f]; msimpl; eexists; (split; [intros w0; reflexivity|]);
      destruct (_ || _)%bool; reflexivity. }
  destruct Hstored as (b & Hrun & Hb).
  rewrite Hrun. msimpl. rewrite Hb.
  assert (Hpost : forall z, x = PInt z ->
            z < Config.MIN_PROCESSING_TIME \/ Config.MAX_PROCESSING_TIME < z ->
            stored_processing_time x = PInt Config.DEFAULT_PROCESSING_TIME).
  { intros z -> Hz. unfold stored_processing_time.
    destruct Hz as [Hz|Hz].
    - apply Z.ltb_lt in Hz. rewrite Hz. reflexivity.
    - apply Z.ltb_lt in Hz. rewrite Hz, orb_true_r. reflexivity. }
  destruct (processing_status (db w) !! sid) as [old|] eqn:Hold;
    destruct (ambiguity_data (db w) !! sid) as [amb|] eqn:Hamb;
    repeat (msimpl; progress rewrite ?lookup_delete_eq, ?Hold, ?Hs, ?Hamb);
    rewrite sleep_quiet by done; msimpl;
    eexists _, _, _; (split; [reflexivity|]); msimpl;
    rewrite lookup_insert_eq; (split; [reflexivity|]); cbn;
    repeat split; auto.
Qed.

Lemma C7_witness :
  exists data w' row,
    ProcessingStart.post (R := unit) Sample.alice "s1"
      (Some {| ProcessingStart.rc_processing_time := Some (inl (PInt 1));
               ProcessingStart.rc_analytics_depth := None;
               ProcessingStart.rc_reporting_style := None;
               ProcessingStart.rc_cross_validation := None |})
      (Sample.answered "Finance") = (Val (Success data), w')
    /\ processing_status (db w') !! "s1" = Some row
    /\ cfg_processing_time (ps_config row) = PInt 6.
Proof.
  edestruct C7_start_validates_only_the_duration
    with (w := Sample.answered "Finance") (auth := Sample.alice) (sid := "s1")
         (request := {| ProcessingStart.rc_processing_time := Some (inl (PInt 1));
                        ProcessingStart.rc_analytics_depth := None;
                        ProcessingStart.rc_reporting_style := None;
                        ProcessingStart.rc_cross_validation := None |})
    as (data & w' & row & Hrun & Hrow & Ht & _).
  - vm_compute. reflexivity.
  - repeat split; vm_compute; congruence.
  - reflexivity.
  - reflexivity.
  - exists data, w', row. split; [exact Hrun|]. split; [exact Hrow|]. exact Ht.
Defined.

(** C7, the enums are not checked: an analysis depth that is none of the
    configured ones is accepted and stored as it is. *)
Lemma C7_unknown_depth_is_stored :
  exists data row,
    fst (ProcessingStart.post (R := unit) Sample.alice "s1" (Some bogus_depth_request)
           (Sample.answered "Finance")) = Val (Success data)
    /\ processing_status
         (db (Sample.after (ProcessingStart.post Sample.alice "s1" (Some bogus_depth_request))
                (Sample.answered "Finance"))) !! "s1" = Some row
    /\ cfg_analytics_depth (ps_config row) = "bogus"
    /\ ~ In (cfg_analytics_depth (ps_config row)) Config.ANALYSIS_DEPTHS.
Proof.
  eexists _, _. split; [vm_compute; reflexivity|].
  split; [vm_compute; reflexivity|].
  split; [reflexivity|].
  cbn. intros [H|[H|[H|[]]]]; discriminate H.
Qed.

(** ** Answers to the ambiguity questions *)

(** Both submission paths leave the index equal to the number of answers. *)
Lemma single_answer_index (w : World) (sid answer : string) (data : list (string * json))
    (w' : World) :
  AmbiguityAnswer._handle_single_answer sid answer w = (Val (Success data), w') ->
  exists row, ambiguity_data (db w') !! sid = Some row
    /\ amb_current_question_index row = length (amb_answers row).
Proof.
  unfold AmbiguityAnswer._handle_single_answer. msimpl.
  destruct (ambiguity_data (db w) !! sid) as [a|] eqn:Ha; msimpl; [|discriminate].
  destruct (length (amb_answers a ++ [answer]) <? length (amb_questions a))%nat eqn:E; msimpl.
  - destruct (amb_questions a !! length (amb_answers a ++ [answer])); msimpl; [|discriminate].
    rewrite Ha. msimpl.
    unfold AmbiguityAnswer._update_ambiguity_message, update_ambiguity_message. msimpl.
    destruct (List.find _ _); msimpl; intros [= <- <-]; msimpl;
      rewrite lookup_insert_eq; eexists; (split; [reflexivity|]); reflexivity.
  - rewrite Ha. msimpl.
    unfold AmbiguityAnswer._update_ambiguity_message, update_ambiguity_message. msimpl.
    destruct (List.find _ _); msimpl;
      destruct (sessions (db w) !! sid); msimpl; intros [= <- <-]; msimpl;
      rewrite lookup_insert_eq; eexists; (split; [reflexivity|]); reflexivity.
Qed.

(** The batch path also keeps the answers within the questions. *)
Lemma batch_answers_index_and_bound (w : World) (sid : string) (answers : list string)
    (data : list (string * json)) (w' : World) :
  AmbiguityAnswer._handle_batch_answers sid answers w = (Val (Success data), w') ->
  exists row, ambiguity_data (db w') !! sid = Some row
    /\ amb_current_question_index row = length (amb_answers row)
    /\ (length (amb_answers row) <= length (amb_questions row))%nat.
Proof.
  unfold AmbiguityAnswer._handle_batch_answers. msimpl.
  destruct (ambiguity_data (db w) !! sid) as [a|] eqn:Ha; msimpl; [|discriminate].
  destruct (length (amb_questions a) <=? length (amb_answers a ++ answers))%nat eqn:E; msimpl.
  - apply Nat.leb_le in E. rewrite Ha. msimpl.
    unfold AmbiguityAnswer._update_ambiguity_message, update_ambiguity_message. msimpl.
    destruct (List.find _ _); msimpl;
      destruct (sessions (db w) !! sid); msimpl; intros [= <- <-]; msimpl;
      rewrite lookup_insert_eq; eexists; (split; [reflexivity|]); cbn;
      rewrite length_take; split; lia.
  - apply Nat.leb_gt in E.
    destruct (amb_questions a !! length (amb_answers a ++ answers)); msimpl; [|discriminate].
    rewrite Ha. msimpl.
    unfold AmbiguityAnswer._update_ambiguity_message, update_ambiguity_message. msimpl.
    destruct (List.find _ _); msimpl; intros [= <- <-]; msimpl;
      rewrite lookup_insert_eq; eexists; (split; [reflexivity|]); cbn; split; lia.
Qed.

(** C1.  The single-answer path has no guard on the number of questions: a
    third answer to the two Finance questions is accepted and stored, and
    the answers outnumber the questions. *)
Theorem C1_single_answers_exceed_the_questions :
  exists data row,
    fst (Sample.single "and a third answer"
           (Sample.after (Sample.single "CAC and LTV")
              (Sample.after (Sample.single "geographic regions") (Sample.asked "Finance"))))
      = Val (Success data)
    /\ ambiguity_data (db three_single_answers) !! "s1" = Some row
    /\ length (amb_questions row) = 2%nat
    /\ length (amb_answers row) = 3%nat
    /\ amb_current_question_index row = 3%nat
    /\ ~ (length (amb_answers row) <= length (amb_questions row))%nat.
Proof.
  eexists _, _. split; [vm_compute; reflexivity|].
  split; [vm_compute; reflexivity|].
  cbn. repeat split; lia.
Qed.

(** ** The verification status of the results *)

Lemma bisect_le (a : list float) (x : float) (hi : nat) :
  (AnalyticsResults.bisect a x hi <= hi)%nat.
Proof.
  revert a. induction hi as [|hi IH]; intros [|y a]; cbn; try lia.
  destruct (PrimFloat.ltb x y); [lia|]. specialize (IH a). lia.
Qed.

(** The helper draws one of the three statuses whatever [random()] gives. *)
Lemma verification_status_draw (u : float) :
  In (AnalyticsResults._get_verification_status u) [ "verified"; "partial"; "failed" ].
Proof.
  unfold AnalyticsResults._get_verification_status, AnalyticsResults.choices.
  cbn [length Nat.sub].
  pose proof (bisect_le
    (AnalyticsResults.accumulate
       [0x1.6666666666666p-1%float; 0x1.999999999999ap-3%float; 0x1.999999999999ap-4%float])
    (u * (List.last (AnalyticsResults.accumulate
       [0x1.6666666666666p-1%float; 0x1.999999999999ap-3%float; 0x1.999999999999ap-4%float])
       0 + 0))%float 2) as H.
  destruct (AnalyticsResults.bisect _ _ 2) as [|[|[|n]]]; cbn; auto; lia.
Qed.

(** C8.  The results endpoint never draws: on a completed session it
    answers the text of the call, which is none of the three statuses. *)
Theorem C8_results_return_the_quoted_call :
  response_field "verification_status"
    (fst (AnalyticsResults.get Sample.alice "s1" (Sample.forced "Finance")))
    = Some (JStr "self._get_verification_status()")
  /\ response_field "verification_status"
       (fst (AnalyticsResults.get Sample.alice "s1" (Sample.finished "Marketing")))
     = Some (JStr "self._get_verification_status()")
  /\ ~ In "self._get_verification_status()" [ "verified"; "partial"; "failed" ]
  /\ forall u, In (AnalyticsResults._get_verification_status u)
                  [ "verified"; "partial"; "failed" ].
Proof.
  split; [vm_compute; reflexivity|].
  split; [vm_compute; reflexivity|].
  split; [|exact verification_status_draw].
  cbn. intros [H|[H|[H|[]]]]; discriminate H.
Qed.

(** ** Extending the questions *)

Lemma fromkeys_step_elem (l d : list string) (x : string) :
  x ∈ fold_left (fun d k => if bool_decide (k ∈ d) then d else d ++ [k]) l d
  <-> x ∈ d \/ x ∈ l.
Proof.
  revert d. induction l as [|k l IH]; intros d; cbn.
  - rewrite elem_of_nil. tauto.
  - rewrite IH, elem_of_cons. case_bool_decide as Hk.
    + split; [tauto|]. intros [H|[->|H]]; auto.
    + rewrite elem_of_app, list_elem_of_singleton. tauto.
Qed.

Lemma fromkeys_step_nodup (l d : list string) :
  NoDup d ->
  NoDup (fold_left (fun d k => if bool_decide (k ∈ d) then d else d ++ [k]) l d).
Proof.
  revert d. induction l as [|k l IH]; intros d Hd; cbn; [assumption|].
  apply IH. case_bool_decide as Hk; [assumption|].
  apply NoDup_app. split; [assumption|]. split.
  - intros x Hx Hx'. apply list_elem_of_singleton in Hx'. congruence.
  - apply NoDup_singleton.
Qed.

Lemma fromkeys_step_id (l d : list string) :
  NoDup (d ++ l) ->
  fold_left (fun d k => if bool_decide (k ∈ d) then d else d ++ [k]) l d = d ++ l.
Proof.
  revert d. induction l as [|k l IH]; intros d Hd; cbn.
  - rewrite app_nil_r. reflexivity.
  - apply NoDup_app in Hd as Hd'. destruct Hd' as (_ & Hdis & _).
    rewrite bool_decide_eq_false_2.
    + rewrite IH; rewrite <- app_assoc; [reflexivity | exact Hd].
    + intros Hk. apply (Hdis k Hk). left.
Qed.

Lemma dict_fromkeys_nodup (l : list string) : NoDup (dict_fromkeys l).
Proof. apply fromkeys_step_nodup, NoDup_nil_2. Qed.

Lemma dict_fromkeys_id (l : list string) : NoDup l -> dict_fromkeys l = l.
Proof. intros H. unfold dict_fromkeys. rewrite fromkeys_step_id; auto. Qed.

Lemma dict_fromkeys_idemp (l : list string) :
  dict_fromkeys (dict_fromkeys l) = dict_fromkeys l.
Proof. apply dict_fromkeys_id, dict_fromkeys_nodup. Qed.

Lemma dict_fromkeys_same_length (l : list string) :
  length (dict_fromkeys l) = length l -> dict_fromkeys l = l.
Proof.
  intros H. apply dict_fromkeys_id.
  assert (Hsub : forall x, x ∈ dict_fromkeys l -> x ∈ l).
  { intros x Hx. apply fromkeys_step_elem in Hx as [Hx|Hx]; [|exact Hx].
    apply elem_of_nil in Hx. destruct Hx. }
  apply NoDup_submseteq in Hsub; [|apply dict_fromkeys_nodup].
  assert (Hperm : dict_fromkeys l ≡ₚ l).
  { apply submseteq_length_Permutation; [exact Hsub | lia]. }
  rewrite <- Hperm. apply dict_fromkeys_nodup.
Qed.

Lemma filter_not_in_nodup (c add : list string) :
  NoDup c -> NoDup add ->
  NoDup (c ++ List.filter (fun q => negb (bool_decide (q ∈ c))) add).
Proof.
  intros Hc Hadd. apply NoDup_app. split; [assumption|]. split.
  - intros x Hx Hf. apply list_elem_of_In, filter_In in Hf. destruct Hf as (_ & Hf).
    apply negb_true_iff, bool_decide_eq_false in Hf. auto.
  - apply NoDup_ListNoDup, List.NoDup_filter, NoDup_ListNoDup, Hadd.
Qed.

Lemma extend_questions_nodup (c add : list string) (n : nat) :
  NoDup c -> NoDup add -> NoDup (AmbiguityResolve.extend_questions c add n).
Proof.
  intros Hc Hadd. unfold AmbiguityResolve.extend_questions.
  destruct (length c <=? n)%nat; [apply filter_not_in_nodup|]; assumption.
Qed.

Lemma filter_none {A} (f : A -> bool) (l : list A) :
  (forall x, In x l -> f x = false) -> List.filter f l = [].
Proof.
  induction l as [|x l IH]; intros H; cbn; [reflexivity|].
  rewrite (H x) by (left; reflexivity). apply IH. intros y Hy. apply H. right. exact Hy.
Qed.

Lemma extend_questions_idemp (c add : list string) (n : nat) :
  AmbiguityResolve.extend_questions (AmbiguityResolve.extend_questions c add n) add n
  = AmbiguityResolve.extend_questions c add n.
Proof.
  unfold AmbiguityResolve.extend_questions.
  destruct (length c <=? n)%nat eqn:E.
  - destruct (length (c ++ _) <=? n)%nat; [|reflexivity].
    match goal with |- _ ++ List.filter ?f add = _ => rewrite (filter_none f add) end;
      [apply app_nil_r|].
    intros q Hq. apply negb_false_iff, bool_decide_eq_true.
    destruct (decide (q ∈ c)) as [Hc|Hc]; apply elem_of_app; [left; exact Hc|right].
    apply list_elem_of_In, filter_In. split; [exact Hq|].
    apply negb_true_iff, bool_decide_eq_false. exact Hc.
  - rewrite E. reflexivity.
Qed.

Lemma with_db_insert_id (w : World) (sid : string) (a : AmbiguityData) :
  ambiguity_data (db w) !! sid = Some a ->
  with_db (set_ambiguity_data (insert sid a)) w = w.
Proof.
  intros H. destruct w as [[] ? ? ? ? ?]. cbn in *.
  unfold with_db, set_ambiguity_data. cbn. rewrite insert_id by exact H. reflexivity.
Qed.

Lemma clean_duplicate_questions_run {R} (w : World) (sid domain : string)
    (a : AmbiguityData) :
  ambiguity_data (db w) !! sid = Some a ->
  exists a',
    AmbiguityResolve._clean_duplicate_questions (R := R) sid domain w
      = (Val tt, with_db (set_ambiguity_data (insert sid a')) w)
    /\ dict_fromkeys (amb_questions a') = dict_fromkeys (amb_questions a)
    /\ amb_answers a' = amb_answers a
    /\ (NoDup (amb_questions a) -> a' = a).
Proof.
  intros Ha. unfold AmbiguityResolve._clean_duplicate_questions. msimpl.
  rewrite Ha. msimpl.
  destruct (length (amb_questions a) =? 0)%nat eqn:E0; msimpl.
  { exists a. split; [|auto].
    f_equal. symmetry. exact (with_db_insert_id w sid a Ha). }
  destruct (length (dict_fromkeys (amb_questions a)) =? length (amb_questions a))%nat eqn:E;
    msimpl.
  { exists a. split; [|auto].
    f_equal. symmetry. exact (with_db_insert_id w sid a Ha). }
  rewrite Ha. msimpl.
  eexists. split; [reflexivity|]. cbn.
  split; [apply dict_fromkeys_idemp|]. split; [reflexivity|].
  intros Hnd. apply Nat.eqb_neq in E. rewrite dict_fromkeys_id in E by exact Hnd.
  congruence.
Qed.

(** What one call of the extension does to the questions. *)
Lemma continue_resolving_run (w : World) (auth : Auth) (sid : string) (s : Session)
    (a : AmbiguityData) :
  sessions (db w) !! sid = Some s ->
  owner auth s ->
  ambiguity_data (db w) !! sid = Some a ->
  exists data w' s' a',
    AmbiguityResolve.post (R := unit) auth sid continue_resolving w = (Val (Success data), w')
    /\ sessions (db w') !! sid = Some s'
    /\ sess_domain s' = sess_domain s /\ sess_user_id s' = sess_user_id s
    /\ ambiguity_data (db w') !! sid = Some a'
    /\ amb_questions a'
       = AmbiguityResolve.extend_questions (dict_fromkeys (amb_questions a))
           Config.ADDITIONAL_QUESTIONS (initial_count (sess_domain s))
    /\ amb_answers a' = amb_answers a
    /\ dict_get data "total_questions" JNull = JNat (length (amb_questions a')).
Proof.
  intros Hs (Hl & Hu & Hne) Ha.
  unfold AmbiguityResolve.post, continue_resolving.
  msimpl. rewrite Hl, Hu. msimpl.
  destruct (sess_user_id s) as [|c0 uid] eqn:Hown; [done|].
  rewrite Hs. msimpl. rewrite Hown.
  rewrite bool_decide_eq_true_2 by done. msimpl.
  rewrite bool_decide_eq_false_2 by discriminate.
  rewrite bool_decide_eq_true_2 by reflexivity.
  unfold AmbiguityResolve._continue_resolving. msimpl.
  destruct (clean_duplicate_questions_run (R := Response) w sid (sess_domain s) a Ha)
    as (a1 & -> & Hq & Hans & _).
  repeat (msimpl; progress rewrite ?lookup_insert_eq, ?Hs).
  rewrite ?Hq, ?Hans. fold (initial_count (sess_domain s)). mproj.
  set (ext := AmbiguityResolve.extend_questions (dict_fromkeys (amb_questions a))
                Config.ADDITIONAL_QUESTIONS (initial_count (sess_domain s))).
  assert (Hq' : exists q : string,
            forall w1 : World,
              (if (length (amb_answers a) <? length ext)%nat
               then list_index (R := Response) ext (length (amb_answers a))
               else ret "What additional analysis details would you like to specify?")
                w1 = (Val q, w1)).
  { destruct (length (amb_answers a) <? length ext)%nat eqn:E.
    - apply Nat.ltb_lt, lookup_lt_is_Some in E. destruct E as (q & E).
      exists q. intros w1. unfold list_index. rewrite E. reflexivity.
    - eexists. intros w1. reflexivity. }
  destruct Hq' as (q & Hq').
  unfold list_index in Hq'. unfold ret in Hq'. rewrite Hq'. msimpl.
  unfold AmbiguityResolve._update_ambiguity_message, update_ambiguity_message. msimpl.
  destruct (List.find _ _); msimpl;
    eexists _, _, _, _; (split; [reflexivity|]); msimpl;
    rewrite !lookup_insert_eq; repeat split; cbn; try reflexivity; assumption.
Qed.

(** C2.  Asking for more questions twice in a row: the second call leaves
    the question list of the first, and that list has no duplicate. *)
Theorem C2_continue_resolving_is_idempotent (w : World) (auth : Auth) (sid : string)
    (s : Session) (a : AmbiguityData) :
  sessions (db w) !! sid = Some s ->
  owner auth s ->
  ambiguity_data (db w) !! sid = Some a ->
  exists data1 w1 a1 data2 w2 a2,
    AmbiguityResolve.post (R := unit) auth sid continue_resolving w = (Val (Success data1), w1)
    /\ AmbiguityResolve.post (R := unit) auth sid continue_resolving w1
       = (Val (Success data2), w2)
    /\ ambiguity_data (db w1) !! sid = Some a1
    /\ ambiguity_data (db w2) !! sid = Some a2
    /\ amb_questions a2 = amb_questions a1
    /\ NoDup (amb_questions a1)
    /\ dict_get data2 "total_questions" JNull = dict_get data1 "total_questions" JNull.
Proof.
  intros Hs Hown Ha.
  destruct (continue_resolving_run w auth sid s a Hs Hown Ha)
    as (data1 & w1 & s1 & a1 & Hrun1 & Hs1 & Hdom & Hu1 & Ha1 & Hq1 & _ & Hn1).
  assert (Hown1 : owner auth s1).
  { destruct Hown as (? & ? & ?). repeat split; congruence. }
  destruct (continue_resolving_run w1 auth sid s1 a1 Hs1 Hown1 Ha1)
    as (data2 & w2 & s2 & a2 & Hrun2 & _ & _ & _ & Ha2 & Hq2 & _ & Hn2).
  assert (Hnd : NoDup (amb_questions a1)).
  { rewrite Hq1. apply extend_questions_nodup; [apply dict_fromkeys_nodup|].
    apply (bool_decide_unpack _). vm_compute. exact I. }
  assert (Hsame : amb_questions a2 = amb_questions a1).
  { rewrite Hq2, Hdom, dict_fromkeys_id by exact Hnd.
    rewrite Hq1. apply extend_questions_idemp. }
  exists data1, w1, a1, data2, w2, a2. repeat split; try assumption.
  congruence.
Qed.

Lemma C2_witness :
  exists w1 a1 w2 a2,
    w1 = Sample.after (AmbiguityResolve.post Sample.alice "s1" continue_resolving)
           (Sample.answered "Finance")
    /\ w2 = Sample.after (AmbiguityResolve.post Sample.alice "s1" continue_resolving) w1
    /\ ambiguity_data (db w1) !! "s1" = Some a1
    /\ ambiguity_data (db w2) !! "s1" = Some a2
    /\ amb_questions a2 = amb_questions a1
    /\ length (amb_questions a1) = 5%nat.
Proof.
  edestruct C2_continue_resolving_is_idempotent
    with (w := Sample.answered "Finance") (auth := Sample.alice) (sid := "s1")
    as (data1 & w1 & a1 & data2 & w2 & a2 & H1 & H2 & Ha1 & Ha2 & Hq & _).
  - vm_compute. reflexivity.
  - repeat split; vm_compute; congruence.
  - vm_compute. reflexivity.
  - exists w1, a1, w2, a2. unfold Sample.after. rewrite H1. cbn [snd]. rewrite H2. cbn [snd].
    repeat split; try assumption.
    vm_compute in H1. injection H1 as _ <-.
    vm_compute in Ha1. injection Ha1 as <-. reflexivity.
Defined.

(** ** One batch against one answer at a time *)

Lemma update_ambiguity_message_run {R} (sid : string) (u : MessageUpdates)
    (st : MessageStatus) (w : World) :
  mu_status u = Some st ->
  update_ambiguity_message (R := R) sid u w
  = (Val tt, with_db (set_messages (upd_amb sid u)) w).
Proof.
  intros Hu. unfold update_ambiguity_message, upd_amb. msimpl.
  destruct (List.find _ _) as [m|]; msimpl.
  - rewrite Hu. destruct (mu_current_question u), (mu_answered_questions u),
      (mu_total_questions u); reflexivity.
  - destruct w as [[] ? ? ? ? ?]. reflexivity.
Qed.

Lemma update_first_ext {A} (p : A -> bool) (f g : A -> A) (l : list A) :
  (forall x, f x = g x) -> update_first p f l = update_first p g l.
Proof.
  intros H. induction l as [|x l IH]; cbn; [reflexivity|].
  destruct (p x); congruence.
Qed.

Lemma update_first_twice {A} (p : A -> bool) (f g : A -> A) (l : list A) :
  (forall x, p (f x) = p x) ->
  update_first p g (update_first p f l) = update_first p (fun x => g (f x)) l.
Proof.
  intros H. induction l as [|x l IH]; cbn; [reflexivity|].
  destruct (p x) eqn:E; cbn.
  - rewrite H, E. reflexivity.
  - rewrite E, IH. reflexivity.
Qed.

(** An update keeps the message that [update_ambiguity_message] finds. *)
Lemma find_ambiguity_update_first (sid : string) (p : Message -> bool) (u : MessageUpdates)
    (l : list Message) :
  msg_id <$> List.find (fun m => bool_decide (msg_type m = MsgAmbiguity))
               (List.filter (message_of sid)
                  (update_first p (apply_message_updates u) l))
  = msg_id <$> List.find (fun m => bool_decide (msg_type m = MsgAmbiguity))
                 (List.filter (message_of sid) l).
Proof.
  induction l as [|x l IH]; cbn; [reflexivity|].
  destruct (p x); cbn.
  - unfold message_of at 1 3. cbn.
    destruct (String.eqb (msg_session_id x) sid); cbn; [|reflexivity].
    destruct (bool_decide (msg_type x = MsgAmbiguity)); reflexivity.
  - destruct (message_of sid x); cbn; [|exact IH].
    destruct (bool_decide (msg_type x = MsgAmbiguity)); [reflexivity | exact IH].
Qed.

(** A later update that sets every field overrides an earlier one. *)
Lemma upd_amb_twice (sid : string) (u1 u2 : MessageUpdates) (l : list Message) :
  is_Some (mu_current_question u2) -> is_Some (mu_answered_questions u2) ->
  is_Some (mu_total_questions u2) -> is_Some (mu_status u2) ->
  upd_amb sid u2 (upd_amb sid u1 l) = upd_amb sid u2 l.
Proof.
  intros [q Hq] [n Hn] [t Ht] [s Hs].
  unfold upd_amb at 2.
  destruct (List.find _ (List.filter (message_of sid) l)) as [m|] eqn:Hm; [|reflexivity].
  unfold upd_amb.
  pose proof (find_ambiguity_update_first sid
                (fun m' => Nat.eqb (msg_id m') (msg_id m)) u1 l) as Hfind.
  rewrite Hm in Hfind. cbn in Hfind.
  destruct (List.find _ (List.filter _ (update_first _ _ l))) as [m'|]; [|discriminate].
  injection Hfind as ->. rewrite Hm.
  rewrite update_first_twice by reflexivity.
  apply update_first_ext. intros x.
  unfold apply_message_updates. cbn. rewrite Hq, Hn, Ht, Hs. reflexivity.
Qed.

Lemma single_answer_more (w : World) (sid x : string) (a : AmbiguityData) :
  ambiguity_data (db w) !! sid = Some a ->
  (S (length (amb_answers a)) < length (amb_questions a))%nat ->
  exists q data,
    AmbiguityAnswer._handle_single_answer sid x w
    = (Val (Success data),
       record_answers sid
         (apply_ambiguity_updates (answers_update (amb_answers a ++ [x])) a)
         (next_question_message q (S (length (amb_answers a))) (length (amb_questions a)))
         w).
Proof.
  intros Ha Hlt. unfold AmbiguityAnswer._handle_single_answer. msimpl.
  rewrite Ha. msimpl.
  rewrite length_app, Nat.add_1_r.
  destruct (S (length (amb_answers a)) <? length (amb_questions a))%nat eqn:E;
    [|apply Nat.ltb_ge in E; lia].
  msimpl. destruct (lookup_lt_is_Some_2 _ _ Hlt) as (q & Hq). rewrite Hq.
  msimpl. rewrite Ha. msimpl.
  unfold AmbiguityAnswer._update_ambiguity_message.
  erewrite update_ambiguity_message_run by reflexivity.
  exists q. eexists. f_equal.
  unfold record_answers, answers_update, next_question_message. msimpl.
  rewrite ?length_app, ?Nat.add_1_r. reflexivity.
Qed.

Lemma single_answer_last (w : World) (sid x : string) (a : AmbiguityData) :
  ambiguity_data (db w) !! sid = Some a ->
  (length (amb_questions a) <= S (length (amb_answers a)))%nat ->
  exists data,
    AmbiguityAnswer._handle_single_answer sid x w
    = (Val (Success data),
       all_answered sid a (amb_answers a ++ [x]) (S (length (amb_answers a)))
         (confirmation_message (S (length (amb_answers a))) (length (amb_questions a)))
         w).
Proof.
  intros Ha Hle. unfold AmbiguityAnswer._handle_single_answer. msimpl.
  rewrite Ha. msimpl.
  rewrite length_app, Nat.add_1_r.
  destruct (S (length (amb_answers a)) <? length (amb_questions a))%nat eqn:E;
    [apply Nat.ltb_lt in E; lia|].
  msimpl. rewrite Ha. msimpl.
  unfold AmbiguityAnswer._update_ambiguity_message.
  erewrite update_ambiguity_message_run by reflexivity.
  unfold all_answered, record_answers, completion_update, confirmation_message.
  msimpl. rewrite ?length_app, ?Nat.add_1_r.
  destruct (sessions (db w) !! sid); msimpl; eexists; reflexivity.
Qed.

Lemma batch_answers_full (w : World) (sid : string) (answers : list string)
    (a : AmbiguityData) :
  ambiguity_data (db w) !! sid = Some a ->
  (length (amb_questions a) <= length (amb_answers a ++ answers))%nat ->
  exists data,
    AmbiguityAnswer._handle_batch_answers sid answers w
    = (Val (Success data),
       all_answered sid a (take (length (amb_questions a)) (amb_answers a ++ answers))
         (length (amb_questions a))
         (confirmation_message (length (amb_questions a)) (length (amb_questions a)))
         w).
Proof.
  intros Ha Hle. unfold AmbiguityAnswer._handle_batch_answers. msimpl.
  rewrite Ha. msimpl.
  destruct (length (amb_questions a) <=? length (amb_answers a ++ answers))%nat eqn:E;
    [|apply Nat.leb_gt in E; lia].
  msimpl. rewrite Ha. msimpl.
  unfold AmbiguityAnswer._update_ambiguity_message.
  erewrite update_ambiguity_message_run by reflexivity.
  unfold all_answered, record_answers, completion_update, confirmation_message.
  msimpl.
  destruct (sessions (db w) !! sid); msimpl; eexists; reflexivity.
Qed.

(** Once every question is answered, what was recorded on the way is
    overwritten. *)
Lemma all_answered_absorb (sid : string) (a : AmbiguityData) (stored new_answers : list string)
    (index : nat) (u : MessageUpdates) (n m : nat) (w : World) :
  all_answered sid (apply_ambiguity_updates (answers_update new_answers) a) stored index
    (confirmation_message n m)
    (record_answers sid (apply_ambiguity_updates (answers_update new_answers) a) u w)
  = all_answered sid a stored index (confirmation_message n m) w.
Proof.
  unfold all_answered, record_answers. msimpl.
  rewrite upd_amb_twice by (cbn; eauto).
  rewrite insert_insert_eq.
  destruct (sessions (db w) !! sid); reflexivity.
Qed.

Lemma bind_val {R A B} (m : M R A) (k : A -> M R B) (w w' : World) (a : A) :
  m w = (Val a, w') -> bind m k w = k a w'.
Proof. intros H. unfold bind. rewrite H. reflexivity. Qed.

Lemma call_val {R A} (body : M A A) (w w' : World) (a : A) :
  body w = (Val a, w') -> call (R := R) body w = (Val a, w').
Proof. intros H. unfold call. rewrite H. reflexivity. Qed.

Lemma submit_one_at_a_time_run (sid : string) (rest : list string) :
  forall (w : World) (a : AmbiguityData),
    rest <> [] ->
    ambiguity_data (db w) !! sid = Some a ->
    (length (amb_answers a) + length rest = length (amb_questions a))%nat ->
    submit_one_at_a_time (R := unit) sid rest w
    = (Val tt,
       all_answered sid a (amb_answers a ++ rest) (length (amb_questions a))
         (confirmation_message (length (amb_questions a)) (length (amb_questions a)))
         w).
Proof.
  induction rest as [|x rest IH]; intros w a Hne Ha Hlen; [done|].
  unfold submit_one_at_a_time. cbn [for_each]. fold (submit_one_at_a_time (R := unit) sid rest).
  destruct rest as [|y rest].
  - cbn in Hlen.
    destruct (single_answer_last w sid x a Ha) as (data & Hrun); [lia|].
    erewrite bind_val;
      [|erewrite bind_val; [reflexivity | apply call_val; exact Hrun]].
    cbn [ret submit_one_at_a_time for_each].
    replace (S (length (amb_answers a))) with (length (amb_questions a)) by lia.
    reflexivity.
  - cbn in Hlen.
    destruct (single_answer_more w sid x a Ha) as (q & data & Hrun); [lia|].
    erewrite bind_val;
      [|erewrite bind_val; [reflexivity | apply call_val; exact Hrun]].
    pose (a' := apply_ambiguity_updates (answers_update (amb_answers a ++ [x])) a).
    assert (Hans : amb_answers a' = amb_answers a ++ [x]) by reflexivity.
    assert (Hqs : amb_questions a' = amb_questions a) by reflexivity.
    fold a'.
    rewrite (IH _ a'); [| discriminate | | ].
    + rewrite Hans, Hqs, <- app_assoc. cbn [app].
      apply f_equal. apply all_answered_absorb.
    + unfold record_answers. msimpl. apply lookup_insert_eq.
    + rewrite Hans, Hqs, length_app. cbn. lia.
Qed.

(** C3.  From no answers, the full batch reaches the confirmation state in
    one call, and it is the state the same answers reach one at a time:
    answers, index and status of the ambiguity data, the step of the session
    and every field of the messages are the same. *)
Theorem C3_full_batch_equals_single_answers (w : World) (sid : string)
    (a : AmbiguityData) (answers : list string) :
  ambiguity_data (db w) !! sid = Some a ->
  amb_answers a = [] ->
  amb_questions a <> [] ->
  length answers = length (amb_questions a) ->
  exists data wb ws,
    submit_batch (R := unit) sid answers w = (Val (Success data), wb)
    /\ submit_one_at_a_time (R := unit) sid answers w = (Val tt, ws)
    /\ (exists row, ambiguity_data (db wb) !! sid = Some row
          /\ amb_answers row = answers
          /\ amb_current_question_index row = length answers
          /\ amb_status row = AmbContextConfirmation)
    /\ (forall s, sessions (db w) !! sid = Some s ->
          exists s', sessions (db wb) !! sid = Some s'
                     /\ sess_current_step s' = StepContext)
    /\ answer_state sid ws = answer_state sid wb.
Proof.
  intros Ha Hnone Hq Hlen.
  assert (Hne : answers <> []).
  { destruct answers; [|discriminate]. destruct (amb_questions a); [done|discriminate]. }
  destruct (batch_answers_full w sid answers a Ha) as (data & Hb).
  { rewrite Hnone. cbn. lia. }
  pose proof (submit_one_at_a_time_run sid answers w a Hne Ha) as Hs.
  rewrite Hnone in Hs, Hb. cbn [app length] in Hs, Hb.
  rewrite <- Hlen, firstn_all in Hb. rewrite <- Hlen in Hs.
  specialize (Hs eq_refl).
  eexists data, _, _. split; [unfold submit_batch, call; rewrite Hb; reflexivity|].
  split; [exact Hs|].
  split; [|split; [|reflexivity]].
  - unfold all_answered, record_answers. msimpl.
    destruct (sessions (db w) !! sid); msimpl; rewrite lookup_insert_eq;
      eexists; (split; [reflexivity|]); cbn; auto.
  - intros s Hsess. unfold all_answered, record_answers. msimpl.
    rewrite Hsess. msimpl. rewrite lookup_insert_eq.
    eexists. split; reflexivity.
Qed.

Lemma C3_witness :
  exists data wb ws,
    submit_batch (R := unit) "s1" [ "geographic regions"; "CAC and LTV" ]
      (Sample.asked "Finance") = (Val (Success data), wb)
    /\ submit_one_at_a_time (R := unit) "s1" [ "geographic regions"; "CAC and LTV" ]
         (Sample.asked "Finance") = (Val tt, ws)
    /\ answer_state "s1" ws = answer_state "s1" wb.
Proof.
  edestruct C3_full_batch_equals_single_answers
    with (w := Sample.asked "Finance") (sid := "s1")
         (answers := [ "geographic regions"; "CAC and LTV" ])
    as (data & wb & ws & Hb & Hs & _ & _ & Heq).
  - vm_compute. reflexivity.
  - reflexivity.
  - vm_compute. discriminate.
  - reflexivity.
  - exists data, wb, ws. repeat split; assumption.
Defined.


(** ** Reasoning about a run of the simulator *)

Lemma triple_ret {R A} sid G (P : View -> Prop) (Q : A -> View -> Prop) (a : A) :
  (forall v, P v -> Q a v) -> triple (R := R) sid G P (ret a) Q.
Proof. intros H w Hw. cbn. auto. Qed.

Lemma triple_return {R A} sid G (P : View -> Prop) (Q : A -> View -> Prop) (r : R) :
  (forall v, P v -> G v) -> triple sid G P (return_ r) Q.
Proof. intros H w Hw. cbn. auto. Qed.

Lemma triple_raise {R A} sid G (P : View -> Prop) (Q : A -> View -> Prop) (e : string) :
  (forall v, P v -> G v) -> triple (R := R) sid G P (raise e) Q.
Proof. intros H w Hw. cbn. auto. Qed.

Lemma triple_bind {R A B} sid G (P : View -> Prop) (Q : A -> View -> Prop)
    (Q' : B -> View -> Prop) (m : M R A) (k : A -> M R B) :
  triple sid G P m Q ->
  (forall a, triple sid G (Q a) (k a) Q') ->
  triple sid G P (bind m k) Q'.
Proof.
  intros Hm Hk w Hw. unfold bind. specialize (Hm w Hw).
  destruct (m w) as [[a|r|e] w1]; auto. apply Hk, Hm.
Qed.

Lemma triple_conseq {R A} sid G (P P' : View -> Prop) (Q Q' : A -> View -> Prop)
    (m : M R A) :
  triple sid G P m Q ->
  (forall v, P' v -> P v) ->
  (forall a v, Q a v -> Q' a v) ->
  triple sid G P' m Q'.
Proof.
  intros Hm HP HQ w Hw. specialize (Hm w (HP _ Hw)).
  destruct (m w) as [[a|r|e] w1]; auto.
Qed.

Lemma triple_pure {R A} sid G (P : View -> Prop) (Q : A -> View -> Prop) (m : M R A)
    (phi : Prop) :
  (forall v, P v -> phi) ->
  (phi -> triple sid G P m Q) ->
  triple sid G P m Q.
Proof. intros H1 H2 w Hw. apply H2; eauto. Qed.

Lemma triple_for_fold {R X T} sid G (I : nat -> T -> View -> Prop)
    (body : X -> T -> M R T) (xs : list X) :
  forall (n : nat) (s : T),
    (forall j x s, xs !! j = Some x ->
       triple sid G (I (n + j)%nat s) (body x s) (I (S (n + j))%nat)) ->
    triple sid G (I n s) (for_fold xs body s) (I (n + length xs)%nat).
Proof.
  induction xs as [|x xs IH]; intros n s H.
  - cbn [for_fold length]. apply triple_ret. intros v Hv.
    replace (n + 0)%nat with n by lia. exact Hv.
  - cbn [for_fold length]. eapply triple_bind.
    + specialize (H 0%nat x s eq_refl). replace (n + 0)%nat with n in H by lia. exact H.
    + intros s'. eapply triple_conseq; [apply (IH (S n) s')| auto |].
      * intros j y s0 Hj. specialize (H (S j) y s0 Hj).
        replace (n + S j)%nat with (S n + j)%nat in H by lia. exact H.
      * intros a v Hv. replace (n + S (length xs))%nat with (S n + length xs)%nat by lia.
        exact Hv.
Qed.

Lemma triple_for_each {R X} sid G (I : nat -> View -> Prop)
    (body : X -> M R unit) (xs : list X) :
  forall (n : nat),
    (forall j x, xs !! j = Some x ->
       triple sid G (I (n + j)%nat) (body x) (fun _ => I (S (n + j))%nat)) ->
    triple sid G (I n) (for_each xs body) (fun _ => I (n + length xs)%nat).
Proof.
  induction xs as [|x xs IH]; intros n H.
  - cbn [for_each length]. apply triple_ret. intros v Hv.
    replace (n + 0)%nat with n by lia. exact Hv.
  - cbn [for_each length]. eapply triple_bind.
    + specialize (H 0%nat x eq_refl). replace (n + 0)%nat with n in H by lia. exact H.
    + intros u. eapply triple_conseq; [apply (IH (S n))| auto |].
      * intros j y Hj. specialize (H (S j) y Hj).
        replace (n + S j)%nat with (S n + j)%nat in H by lia. exact H.
      * intros a v Hv. replace (n + S (length xs))%nat with (S n + length xs)%nat by lia.
        exact Hv.
Qed.

(** What does not write to the row keeps the view. *)
Lemma triple_quiet {R A} sid G (P : View -> Prop) (m : M R A) :
  (forall w, exists a w', m w = (Val a, w') /\ view sid w' = view sid w) ->
  triple sid G P m (fun _ => P).
Proof.
  intros H w Hw. destruct (H w) as (a & w' & -> & ->). exact Hw.
Qed.

Lemma triple_utcnow {R} sid G (P : View -> Prop) :
  triple (R := R) sid G P utcnow (fun _ => P).
Proof. apply triple_quiet. intros w. eexists _, _. split; reflexivity. Qed.

Lemma triple_add_processing_log {R} sid G (P : View -> Prop) sid' msg ty :
  triple (R := R) sid G P (db_service.add_processing_log sid' msg ty) (fun _ => P).
Proof.
  apply triple_quiet. intros w. unfold view. msimpl.
  destruct (processing_status (db w) !! sid'); msimpl; eexists _, _; split; reflexivity.
Qed.

Lemma triple_get_processing_status {R} sid G (P : View -> Prop) :
  triple (R := R) sid G P (db_service.get_processing_status sid)
    (fun r v => P v /\ r = fst v).
Proof. intros w Hw. msimpl. split; [exact Hw | reflexivity]. Qed.

Lemma triple_modify_stage {R} sid G (P : View -> Prop) (stages_list : list Stage)
    (i : nat) (f : Stage -> Stage) :
  (forall v, P v -> G v) ->
  triple (R := R) sid G P (ProcessingStart.modify_stage stages_list i f)
    (fun l v => P v /\ exists st, stages_list !! i = Some st /\ l = <[i := f st]> stages_list).
Proof.
  intros HG w Hw. unfold ProcessingStart.modify_stage. msimpl.
  destruct (stages_list !! i) as [st|]; cbn; eauto.
Qed.

Lemma triple_py_int {R} sid G (P : View -> Prop) (x : float) :
  (forall v, P v -> G v) ->
  triple (R := R) sid G P (py_int x) (fun _ => P).
Proof.
  intros HG w Hw. unfold py_int.
  destruct (Prim2SF x); cbn; auto.
Qed.

Lemma writes_of_app sid h1 h2 :
  writes_of sid (h1 ++ h2) = writes_of sid h1 ++ writes_of sid h2.
Proof. apply omap_app. Qed.

Lemma triple_update_processing_status {R} sid G (Q : option ProcessingStatus -> View -> Prop)
    (u : ProcUpdates) :
  triple (R := R) sid G
    (fun v => match fst v with
              | Some row =>
                  Q (Some (apply_proc_updates u row))
                    (Some (apply_proc_updates u row), snd v ++ [u])
              | None => Q None v
              end)
    (db_service.update_processing_status sid u) Q.
Proof.
  intros w Hw. unfold view in *. msimpl.
  destruct (processing_status (db w) !! sid) as [row|] eqn:E; msimpl.
  - rewrite lookup_insert_eq, writes_of_app. cbn.
    rewrite bool_decide_eq_true_2 by reflexivity. exact Hw.
  - rewrite E. exact Hw.
Qed.

(** What a stop request of the environment does to the view of a session. *)
Lemma stop_post_view (auth : Auth) (sid' sid : string) (w : World) :
  view sid (snd (ProcessingStop.post (R := unit) auth sid' w)) = view sid w
  \/ exists row stages',
       processing_status (db w) !! sid = Some row
       /\ ps_status row = PsProcessing
       /\ Forall2 stopped_from (ps_stages row) stages'
       /\ view sid (snd (ProcessingStop.post (R := unit) auth sid' w))
          = (Some (apply_proc_updates (stop_update stages') row),
             writes_of sid (history w) ++ [stop_update stages']).
Proof.
  unfold ProcessingStop.post, view. msimpl.
  destruct (logged_in auth); msimpl; [|left; reflexivity].
  destruct (auth_user_id auth) as [[|c0 uid]|]; msimpl; try (left; reflexivity).
  destruct (sessions (db w) !! sid') as [s|] eqn:Hs; msimpl; [|left; reflexivity].
  destruct (bool_decide (Some (sess_user_id s) = Some (String c0 uid)));
    msimpl; [|left; reflexivity].
  destruct (processing_status (db w) !! sid') as [row|] eqn:Hrow; msimpl;
    [|left; reflexivity].
  destruct (bool_decide (ps_status row = PsProcessing)) eqn:Hst; msimpl;
    [|left; reflexivity].
  apply bool_decide_eq_true_1 in Hst.
  destruct (map_m_stop_stage (R := Response) (ps_stages row) w)
    as (stages' & c & -> & Hall & Hc).
  msimpl. rewrite Hrow. msimpl.
  rewrite lookup_insert_eq. msimpl. rewrite Hs. msimpl.
  rewrite lookup_insert_eq. msimpl.
  rewrite writes_of_app. cbn.
  destruct (decide (sid' = sid)) as [->|Hne].
  - right. exists row, stages'. rewrite lookup_insert_eq.
    rewrite bool_decide_eq_true_2 by reflexivity.
    repeat split; auto.
  - left. rewrite lookup_insert_ne by done.
    rewrite bool_decide_eq_false_2 by done. rewrite app_nil_r. reflexivity.
Qed.

Lemma triple_sleep {R} sid G (P : View -> Prop) :
  stable P -> triple (R := R) sid G P sleep (fun _ => P).
Proof.
  intros HP w Hw. unfold sleep.
  set (w1 := {| db := db w; clock := S (clock w); next_id := next_id w;
                threads := threads w; sched := tail (sched w); history := history w |}).
  assert (Hw1 : P (view sid w1)) by exact Hw.
  destruct (sched w) as [|[[auth sid']|] rest]; try exact Hw1.
  destruct (stop_post_view auth sid' sid w1) as [-> | (row & stages' & Hrow & Hst & Hall & ->)].
  - exact Hw1.
  - apply HP; auto. unfold view in Hw1. rewrite Hrow in Hw1. exact Hw1.
Qed.

Lemma triple_update_session {R} sid G (P : View -> Prop) sid' u :
  triple (R := R) sid G P (db_service.update_session sid' u) (fun _ => P).
Proof.
  apply triple_quiet. intros w. unfold view. msimpl.
  destruct (sessions (db w) !! sid'); msimpl; eexists _, _; split; reflexivity.
Qed.

Lemma triple_get_session {R} sid G (P : View -> Prop) sid' :
  triple (R := R) sid G P (db_service.get_session sid') (fun _ => P).
Proof. apply triple_quiet. intros w. msimpl. eexists _, _; split; reflexivity. Qed.

Lemma triple_add_message {R} sid G (P : View -> Prop) sid' data :
  triple (R := R) sid G P (db_service.add_message sid' data) (fun _ => P).
Proof.
  apply triple_quiet. intros w. unfold view. msimpl.
  destruct (sessions (db w) !! sid'); msimpl; eexists _, _; split; reflexivity.
Qed.

Lemma triple_update_message_status {R} sid G (P : View -> Prop) sid' ty st :
  triple (R := R) sid G P (db_service.update_message_status sid' ty st) (fun _ => P).
Proof.
  apply triple_quiet. intros w. unfold view. msimpl.
  match goal with |- context [existsb ?p ?l] => destruct (existsb p l) end;
    msimpl; eexists _, _; split; reflexivity.
Qed.

(** ** Exceptions of the task *)

Lemma processing_error_run (sid e : string) (w : World) (row : ProcessingStatus) :
  processing_status (db w) !! sid = Some row ->
  exists w',
    ProcessingStart.processing_error sid e w = (Val tt, w')
    /\ error_recorded sid e row w w'.
Proof.
  intros Hrow. unfold ProcessingStart.processing_error, error_recorded. msimpl.
  rewrite Hrow. msimpl. rewrite Hrow. msimpl.
  eexists. split; [reflexivity|]. msimpl. eexists. repeat split; reflexivity.
Qed.

Lemma processing_error_lost (sid e : string) (w : World) :
  processing_status (db w) !! sid = None ->
  exists w',
    ProcessingStart.processing_error sid e w = (Val tt, w') /\ db w' = db w.
Proof.
  intros Hrow. unfold ProcessingStart.processing_error. msimpl.
  rewrite Hrow. msimpl. rewrite Hrow. msimpl.
  eexists. split; reflexivity.
Qed.

Lemma process_analytics_val {R} (sid : string) (t : pynum) (w : World) :
  exists w', ProcessingStart._process_analytics (R := R) sid t w = (Val tt, w').
Proof.
  unfold ProcessingStart._process_analytics, call, try_except.
  destruct (ProcessingStart.process_analytics_body sid t w) as [[[]|[]|e] w1]; eauto.
  destruct (processing_status (db w1) !! sid) as [row|] eqn:Hrow.
  - destruct (processing_error_run sid e w1 row Hrow) as (w' & -> & _). eauto.
  - destruct (processing_error_lost sid e w1 Hrow) as (w' & -> & _). eauto.
Qed.

Lemma bind_assoc {R A B C} (m : M R A) (k : A -> M R B) (h : B -> M R C) (w : World) :
  bind (bind m k) h w = bind m (fun a => bind (k a) h) w.
Proof. unfold bind. destruct (m w) as [[a|r|e] w1]; reflexivity. Qed.

Lemma bind_ext {R A B} (m : M R A) (k k' : A -> M R B) (w : World) :
  (forall a w1, k a w1 = k' a w1) -> bind m k w = bind m k' w.
Proof. intros H. unfold bind. destruct (m w) as [[a|r|e] w1]; auto. Qed.

Lemma for_each_app {R X} (xs ys : list X) (f : X -> M R unit) (w : World) :
  for_each (xs ++ ys) f w = (for_each xs f ;! for_each ys f) w.
Proof.
  revert w. induction xs as [|x xs IH]; intros w; cbn [app for_each].
  - reflexivity.
  - rewrite bind_assoc. apply bind_ext. intros _ w1. apply IH.
Qed.

(** The task is its first [k] turns followed by the rest. *)
Lemma body_split (k : nat) (sid : string) (t : pynum) (w : World) :
  ProcessingStart.process_analytics_body sid t w = (run_until k sid ;! resume_at k sid) w.
Proof.
  unfold ProcessingStart.process_analytics_body, run_until, resume_at. cbv zeta.
  rewrite !bind_assoc. apply bind_ext. intros _ w1.
  rewrite !bind_assoc. apply bind_ext. intros _ w2.
  rewrite !bind_assoc. apply bind_ext. intros _ w3.
  rewrite !bind_assoc. apply bind_ext. intros [row|] w4; [|reflexivity].
  rewrite <- (take_drop k (enumerate Config.PROCESSING_STAGES)) at 1.
  rewrite <- bind_assoc. unfold bind at 1 3.
  rewrite for_each_app. reflexivity.
Qed.

(** C6.  The task never raises to its caller, but the error it meets is
    not always recorded.  In the thread that [post] starts no application
    context is active: [current_app.app_context()] raises at the task
    boundary and so does the recovery, and the task ends with the world as
    it was: the row still [processing], no log, no status [failed].  Where
    a context is active, the [except] clause of [_process_analytics]
    records an error (status [failed] with the text, one [error] log,
    sessions, messages and ambiguity data untouched) only when the row is
    still there; when it is gone the database is left as it was.  So it is
    when a cleanup is served between the first and the second stage of the
    sample run: the second turn of the loop raises [IndexError], and the
    task ends with no row and no log. *)
Theorem C6_errors_of_the_thread_leave_no_trace :
  (forall (active : bool) sid t w, exists w',
      ProcessingStart._process_analytics_with_context (R := unit) active sid t w
      = (Val tt, w'))
  /\ (forall sid t w, ProcessingStart.thread_target (R := unit) sid t w = (Val tt, w))
  /\ (exists row,
        processing_status
          (db (snd (ProcessingStart.thread_target (R := unit) "s1" (PInt 6)
                      (Sample.started "Finance")))) !! "s1" = Some row
        /\ ps_status row = PsProcessing /\ ps_error row = None
        /\ processing_logs
             (db (snd (ProcessingStart.thread_target (R := unit) "s1" (PInt 6)
                         (Sample.started "Finance")))) = [])
  /\ (forall sid e w1, exists w',
        ProcessingStart.processing_error sid e w1 = (Val tt, w')
        /\ match processing_status (db w1) !! sid with
           | Some row => error_recorded sid e row w1 w'
           | None => db w' = db w1
           end)
  /\ (forall k sid t w,
        ProcessingStart.process_analytics_body sid t w
        = (run_until k sid ;! resume_at k sid) w)
  /\ fst (run_until 1 "s1" (Sample.started "Finance")) = Val tt
  /\ fst (AmbiguityCleanup.post (R := unit) Sample.alice "s1" (first_stage_done "Finance"))
     = Val (Success [ ("message", JStr "Cleaned all data for session s1");
                      ("session_id", JStr "s1") ])
  /\ fst (resume_at 1 "s1" (cleaned_mid_run "Finance")) = Raise "list index out of range"
  /\ fst (resumed_task (R := unit) 1 "s1" (cleaned_mid_run "Finance")) = Val tt
  /\ processing_status
       (db (snd (resumed_task (R := unit) 1 "s1" (cleaned_mid_run "Finance")))) !! "s1"
     = None
  /\ processing_logs
       (db (snd (resumed_task (R := unit) 1 "s1" (cleaned_mid_run "Finance")))) = [].
Proof.
  split.
  { intros active sid t w.
    unfold ProcessingStart._process_analytics_with_context,
      ProcessingStart.current_app_app_context.
    destruct active.
    - destruct (process_analytics_val (R := unit) sid t w) as (w' & Hrun).
      exists w'. unfold call, try_except, bind, ret. rewrite Hrun. reflexivity.
    - exists w. reflexivity. }
  split; [reflexivity|].
  split.
  { eexists. split; [vm_compute; reflexivity|]. repeat split. }
  split.
  { intros sid e w1. destruct (processing_status (db w1) !! sid) as [row|] eqn:Hrow.
    - apply processing_error_run. exact Hrow.
    - apply processing_error_lost. exact Hrow. }
  split; [exact body_split|].
  repeat split; vm_compute; reflexivity.
Qed.

(** ** The final report *)

Lemma bind_val_inv {R A B} (m : M R A) (k : A -> M R B) (w w' : World) (b : B) :
  bind m k w = (Val b, w') ->
  exists a w1, m w = (Val a, w1) /\ k a w1 = (Val b, w').
Proof.
  unfold bind. destruct (m w) as [[a|r|e] w1]; intros H; try discriminate.
  exists a, w1. split; [reflexivity | exact H].
Qed.

Lemma last_update_first {A} (p : A -> bool) (f : A -> A) (l : list A) (x : A) :
  p x = false -> last (update_first p f (l ++ [x])) = Some x.
Proof.
  intros Hx. induction l as [|y l IH]; cbn.
  - rewrite Hx. reflexivity.
  - destruct (p y).
    + change (f y :: l ++ [x]) with ((f y :: l) ++ [x]). apply last_snoc.
    + destruct (update_first p f (l ++ [x])) eqn:E; [discriminate|exact IH].
Qed.

Lemma add_message_run {R} (sid : string) (data : MessageData) (w : World) :
  exists m w1,
    db_service.add_message (R := R) sid data w = (Val m, w1)
    /\ messages (db w1) = messages (db w) ++ [m]
    /\ msg_session_id m = sid /\ msg_type m = md_type data
    /\ msg_status m = md_status data /\ msg_content m = md_content data
    /\ stored_domain sid w1 = stored_domain sid w.
Proof.
  unfold stored_domain. msimpl.
  destruct (sessions (db w) !! sid) as [s|] eqn:Hs; msimpl;
    eexists _, _; (split; [reflexivity|]); msimpl;
    rewrite ?lookup_insert_eq, ?Hs; repeat split; reflexivity.
Qed.

Lemma update_message_status_run {R} (sid : string) (ty : MessageType)
    (st : MessageStatus) (w : World) :
  exists b w2,
    db_service.update_message_status (R := R) sid ty st w = (Val b, w2)
    /\ sessions (db w2) = sessions (db w)
    /\ forall l x,
         messages (db w) = l ++ [x] -> msg_type x <> ty ->
         last (messages (db w2)) = Some x.
Proof.
  msimpl.
  match goal with |- context [existsb ?p ?l] => destruct (existsb p l) eqn:E end;
    msimpl; eexists _, _; (split; [reflexivity|]); msimpl;
    (split; [reflexivity|]); intros l x -> Hx.
  - apply last_update_first. rewrite bool_decide_eq_false_2 by exact Hx.
    apply andb_false_r.
  - apply last_snoc.
Qed.

(** The two calls that store the report. *)
Lemma report_stored {R} (sid content : string) (w : World) :
  exists m w1 b w2,
    db_service.add_message (R := R) sid (plain_message MsgAssistant content MsgCompleted) w
      = (Val m, w1)
    /\ db_service.update_message_status (R := R) sid MsgAmbiguity MsgCompleted w1
       = (Val b, w2)
    /\ last (messages (db w2)) = Some m
    /\ is_report sid content m
    /\ stored_domain sid w2 = stored_domain sid w.
Proof.
  destruct (add_message_run (R := R) sid (plain_message MsgAssistant content MsgCompleted) w)
    as (m & w1 & Hadd & Hmsgs & Hsid & Hty & Hst & Hc & Hdom).
  destruct (update_message_status_run (R := R) sid MsgAmbiguity MsgCompleted w1)
    as (b & w2 & Hupd & Hsess & Hlast).
  exists m, w1, b, w2. split; [exact Hadd|]. split; [exact Hupd|].
  split; [apply (Hlast _ _ Hmsgs); rewrite Hty; discriminate|].
  split; [repeat split; assumption|].
  unfold stored_domain in *. rewrite Hsess. exact Hdom.
Qed.

Lemma populate_dummy_logs_run {R} (sid : string) (w : World) :
  exists w',
    ProcessingComplete._populate_dummy_logs (R := R) sid w = (Val tt, w')
    /\ sessions (db w') = sessions (db w)
    /\ messages (db w') = messages (db w)
    /\ processing_status (db w') = processing_status (db w).
Proof.
  unfold ProcessingComplete._populate_dummy_logs.
  assert (Hloop : forall (logs : list string) (w0 : World),
             exists w',
               for_each (R := unit) logs
                 (fun log_message =>
                    db_service.add_processing_log sid log_message LogInfo ;! ret tt) w0
               = (Val tt, w')
               /\ sessions (db w') = sessions (db w0)
               /\ messages (db w') = messages (db w0)
               /\ processing_status (db w') = processing_status (db w0)).
  { induction logs as [|l logs IH]; intros w0.
    - exists w0. repeat split; reflexivity.
    - cbn [for_each]. unfold bind at 1.
      assert (Hstep : exists w1,
                 (db_service.add_processing_log (R := unit) sid l LogInfo ;! ret tt) w0
                 = (Val tt, w1)
                 /\ sessions (db w1) = sessions (db w0)
                 /\ messages (db w1) = messages (db w0)
                 /\ processing_status (db w1) = processing_status (db w0)).
      { msimpl. destruct (processing_status (db w0) !! sid); msimpl;
          eexists; repeat split; reflexivity. }
      destruct Hstep as (w1 & -> & Hs & Hm & Hp).
      destruct (IH w1) as (w' & -> & Hs' & Hm' & Hp').
      exists w'. repeat split; congruence. }
  unfold call, try_except, bind at 1.
  unfold db_service.clear_processing_logs, db_service.delete_processing_logs. msimpl.
  match goal with |- context [for_each _ _ ?w0] =>
    destruct (Hloop ProcessingComplete.dummy_logs w0) as (w' & -> & Hs & Hm & Hp) end.
  exists w'. repeat split; assumption.
Qed.

Lemma complete_post_run (w : World) (auth : Auth) (sid : string) (s : Session) :
  sessions (db w) !! sid = Some s ->
  owner auth s ->
  exists data w' m,
    ProcessingComplete.post (R := unit) auth sid w = (Val (Success data), w')
    /\ last (messages (db w')) = Some m
    /\ is_report sid (ProcessingComplete._generate_analytics_result (sess_domain s)) m.
Proof.
  intros Hs (Hl & Hu & Hne).
  unfold ProcessingComplete.post.
  msimpl. rewrite Hl, Hu. msimpl.
  destruct (sess_user_id s) as [|c0 uid] eqn:Hown; [done|].
  rewrite Hs. msimpl. rewrite Hown.
  rewrite bool_decide_eq_true_2 by done. msimpl.
  destruct (populate_dummy_logs_run (R := Response) sid w) as (w1 & -> & Hs1 & Hm1 & Hp1).
  msimpl.
  destruct (processing_status (db w1) !! sid) as [row|]; msimpl;
    rewrite Hs1, Hs; msimpl; rewrite lookup_insert_eq; msimpl;
    match goal with |- context [existsb ?p ?l] => destruct (existsb p l) eqn:E end;
    msimpl; eexists _, _, _; (split; [reflexivity|]); msimpl;
    rewrite ?last_snoc;
    try (rewrite last_update_first by (cbn; apply andb_false_r));
    repeat split; reflexivity.
Qed.

Lemma get_session_run {R} (sid : string) (w : World) :
  db_service.get_session (R := R) sid w = (Val (sessions (db w) !! sid), w).
Proof. reflexivity. Qed.

Lemma finish_processing_report (sid : string) (w w' : World) :
  ProcessingStart.finish_processing sid w = (Val tt, w') ->
  exists m,
    last (messages (db w')) = Some m
    /\ is_report sid (ProcessingStart._generate_analytics_result (stored_domain sid w')) m.
Proof.
  unfold ProcessingStart.finish_processing. intros H.
  do 8 (apply bind_val_inv in H as (? & ? & _ & H)).
  apply bind_val_inv in H as (session & w8 & Hget & H).
  rewrite get_session_run in Hget.
  injection Hget as <- <-. cbv zeta in H.
  match type of H with
  | bind (db_service.add_message _ (plain_message _ ?c _)) _ ?w0 = _ =>
      destruct (report_stored (R := unit) sid c w0)
        as (m & w1 & b & w2 & Hadd & Hupd & Hlast & Hrep & Hdom)
  end.
  erewrite bind_val in H by exact Hadd.
  erewrite bind_val in H by exact Hupd.
  injection H as <-.
  exists m. split; [exact Hlast|].
  rewrite Hdom. exact Hrep.
Qed.

Lemma natural_completion_report (sid : string) (t : pynum) (w w' : World) :
  ProcessingStart.process_analytics_body sid t w = (Val tt, w') ->
  exists m,
    last (messages (db w')) = Some m
    /\ is_report sid (ProcessingStart._generate_analytics_result (stored_domain sid w')) m.
Proof.
  unfold ProcessingStart.process_analytics_body. cbv zeta. intros H.
  do 4 (apply bind_val_inv in H as (? & ? & _ & H)).
  match type of H with (match ?r with _ => _ end) _ = _ => destruct r end;
    [|discriminate].
  apply bind_val_inv in H as (? & ? & _ & H).
  eapply finish_processing_report. exact H.
Qed.

Lemma dict_get_cases {V} (d : list (string * V)) (key : string) (default : V) :
  In (dict_get d key default) (default :: List.map snd d).
Proof.
  induction d as [|[k v] d IH]; cbn [dict_get List.map snd].
  - left. reflexivity.
  - destruct (String.eqb k key); [right; left; reflexivity|].
    destruct IH as [IH|IH]; [left; exact IH | right; right; exact IH].
Qed.

Lemma dict_get_default {V} (d : list (string * V)) (key : string) (default : V) :
  ~ In key (List.map fst d) -> dict_get d key default = default.
Proof.
  induction d as [|[k v] d IH]; cbn [dict_get List.map fst In]; intros H; [reflexivity|].
  destruct (String.eqb_spec k key) as [->|_]; [exfalso; apply H; left; reflexivity|].
  apply IH. intros Hin. apply H. right. exact Hin.
Qed.

Lemma generators_differ (domain : string) :
  ProcessingComplete._generate_analytics_result domain
  <> ProcessingStart._generate_analytics_result domain.
Proof.
  intros Heq.
  pose proof (dict_get_cases ProcessingComplete.results domain
                ProcessingComplete.report_Finance) as Hc.
  pose proof (dict_get_cases ProcessingStart.results domain
                ProcessingStart.report_Finance) as Hs.
  fold (ProcessingComplete._generate_analytics_result domain) in Hc.
  fold (ProcessingStart._generate_analytics_result domain) in Hs.
  rewrite Heq in Hc.
  apply (in_map (fun s => Z.of_nat (String.length s))) in Hc, Hs.
  assert (Lc : List.map (fun s => Z.of_nat (String.length s))
                 (ProcessingComplete.report_Finance
                  :: List.map snd ProcessingComplete.results)
               = [1521; 1521; 973; 1026]) by (vm_compute; reflexivity).
  assert (Ls : List.map (fun s => Z.of_nat (String.length s))
                 (ProcessingStart.report_Finance :: List.map snd ProcessingStart.results)
               = [1542; 1542; 1260; 1433; 1435]) by (vm_compute; reflexivity).
  rewrite Lc in Hc. rewrite Ls in Hs.
  set (n := Z.of_nat (String.length (ProcessingStart._generate_analytics_result domain)))
    in *.
  clearbody n. cbn [In] in Hc, Hs. lia.
Qed.

(** C9, amended.  Force-complete appends, as the last message, the report
    that its own mapping gives for the domain of the session; the timed
    loop, when it completes naturally, appends the report that its own
    mapping gives for the stored domain.  Each mapping falls back to its own
    Finance template for a domain it does not list, and for every domain the
    two reports differ. *)
Theorem C9_each_entry_point_reports_from_its_own_mapping (w : World) (auth : Auth)
    (sid : string) (s : Session) :
  sessions (db w) !! sid = Some s ->
  owner auth s ->
  (exists data w' m,
      ProcessingComplete.post (R := unit) auth sid w = (Val (Success data), w')
      /\ last (messages (db w')) = Some m
      /\ is_report sid (ProcessingComplete._generate_analytics_result (sess_domain s)) m)
  /\ (forall t w',
        ProcessingStart.process_analytics_body sid t w = (Val tt, w') ->
        exists m,
          last (messages (db w')) = Some m
          /\ is_report sid
               (ProcessingStart._generate_analytics_result (stored_domain sid w')) m)
  /\ (forall domain,
        ~ In domain [ "Finance"; "Marketing"; "Operations" ] ->
        ProcessingComplete._generate_analytics_result domain
        = ProcessingComplete.report_Finance)
  /\ (forall domain,
        ~ In domain [ "Finance"; "Marketing"; "Sales"; "Customer Service" ] ->
        ProcessingStart._generate_analytics_result domain
        = ProcessingStart.report_Finance)
  /\ (forall domain,
        ProcessingComplete._generate_analytics_result domain
        <> ProcessingStart._generate_analytics_result domain).
Proof.
  intros Hs Hown.
  split; [exact (complete_post_run w auth sid s Hs Hown)|].
  split; [intros t w'; apply natural_completion_report|].
  split; [intros domain H;
          exact (dict_get_default ProcessingComplete.results domain _ H)|].
  split; [intros domain H;
          exact (dict_get_default ProcessingStart.results domain _ H)|].
  exact generators_differ.
Qed.

Lemma C9_witness :
  exists data w' m,
    ProcessingComplete.post (R := unit) Sample.alice "s1" (Sample.started "Finance")
      = (Val (Success data), w')
    /\ last (messages (db w')) = Some m
    /\ msg_content m = ProcessingComplete.report_Finance
    /\ msg_content m <> ProcessingStart.report_Finance.
Proof.
  edestruct C9_each_entry_point_reports_from_its_own_mapping
    with (w := Sample.started "Finance") (auth := Sample.alice) (sid := "s1")
    as ((data & w' & m & Hrun & Hlast & _ & _ & _ & Hc) & _ & _ & _ & Hne).
  - vm_compute. reflexivity.
  - repeat split; vm_compute; congruence.
  - exists data, w', m. split; [exact Hrun|]. split; [exact Hlast|].
    split; [exact Hc|]. rewrite Hc. exact (Hne "Finance").
Defined.

(** C9, the two reports of one domain: for a Finance session the report
    that force-complete appends is not the one the timed loop appends. *)
Lemma C9_finance_reports_differ :
  last_content (Sample.forced "Finance") <> last_content (Sample.finished "Finance").
Proof.
  intros H.
  apply (f_equal (option_map String.length)) in H.
  vm_compute in H. discriminate.
Qed.

(** ** Progress over a run *)

Lemma nondecreasing_nil : nondecreasing [].
Proof. intros i x y H. rewrite lookup_nil in H. discriminate. Qed.

Lemma nondecreasing_snoc (xs : list float) (y : float) :
  nondecreasing xs ->
  (forall x, last xs = Some x -> PrimFloat.leb x y = true) ->
  nondecreasing (xs ++ [y]).
Proof.
  intros Hxs Hy i a b Ha Hb.
  destruct (decide (S i < length xs)%nat) as [Hlt|Hge].
  - rewrite lookup_app_l in Ha by lia. rewrite lookup_app_l in Hb by lia. eauto.
  - assert (Hi : S i = length xs).
    { apply lookup_lt_Some in Hb. rewrite length_app in Hb. cbn in Hb. lia. }
    rewrite lookup_app_l in Ha by lia.
    rewrite Hi, lookup_app_r, Nat.sub_diag in Hb by lia. injection Hb as <-.
    apply Hy. rewrite last_lookup. rewrite <- Hi. cbn. exact Ha.
Qed.

Lemma overall_writes_snoc (us : list ProcUpdates) (u : ProcUpdates) :
  overall_writes (us ++ [u])
  = overall_writes us ++ match pu_overall_progress u with Some v => [v] | None => [] end.
Proof.
  unfold overall_writes. rewrite omap_app. cbn.
  destruct (pu_overall_progress u); reflexivity.
Qed.

Lemma stage_writes_snoc (i : nat) (us : list ProcUpdates) (u : ProcUpdates) :
  stage_writes i (us ++ [u])
  = stage_writes i us
    ++ match pu_stages u with
       | Some l => match l !! i with Some st => [stage_progress st] | None => [] end
       | None => []
       end.
Proof.
  unfold stage_writes. rewrite omap_app. cbn.
  destruct (pu_stages u) as [l|]; [|reflexivity].
  destruct (l !! i); reflexivity.
Qed.

Lemma steady_nil : steady [].
Proof.
  split; [apply nondecreasing_nil|]. split; [constructor|].
  intros i. apply nondecreasing_nil.
Qed.

Lemma at_point_steady ws0 k p ov v : at_point ws0 k p ov v -> steady_since ws0 v.
Proof. intros (row & us & -> & _ & H & _). exists us. split; [reflexivity | exact H]. Qed.

(** A write of a stage list, with or without a value of the overall
    progress, at a point of the run. *)
Lemma at_point_write ws0 k p ov k' p' ov' row us u stages' :
  at_point ws0 k p ov (Some row, ws0 ++ us) ->
  pu_stages u = Some stages' ->
  shape k' p' stages' ->
  (forall i, (i < length Config.PROCESSING_STAGES)%nat ->
     PrimFloat.leb (shape_val k p i) (shape_val k' p' i) = true) ->
  match pu_overall_progress u with
  | Some v =>
      le_opt ov v = true /\ PrimFloat.leb v (float_of_int 100) = true /\ ov' = Some v
  | None => ov' = ov
  end ->
  at_point ws0 k' p' ov' (Some (apply_proc_updates u row), (ws0 ++ us) ++ [u]).
Proof.
  intros (row0 & us0 & Heq & Hshape & (Hov & Hle & Hst) & Hlast & Hlov) Hu Hs' Hmono Hover.
  injection Heq as <- Hus. apply app_inv_head in Hus. subst us0 ov.
  exists (apply_proc_updates u row), (us ++ [u]).
  split; [rewrite app_assoc; reflexivity|].
  split; [unfold apply_proc_updates; cbn; rewrite Hu; exact Hs'|].
  assert (Hsw : forall i,
             stage_writes i (us ++ [u])
             = stage_writes i us
               ++ (if decide (i < length Config.PROCESSING_STAGES)%nat
                   then [shape_val k' p' i] else [])).
  { intros i. rewrite stage_writes_snoc, Hu. destruct Hs' as (Hlen & Hval).
    destruct (stages' !! i) as [st|] eqn:E.
    - pose proof (lookup_lt_Some _ _ _ E) as Hi. rewrite Hlen in Hi.
      rewrite decide_True by exact Hi. destruct (Hval i st E) as [-> _]. reflexivity.
    - apply lookup_ge_None in E. rewrite Hlen in E.
      rewrite decide_False by lia. reflexivity. }
  split; [|split].
  - split; [|split].
    + rewrite overall_writes_snoc.
      destruct (pu_overall_progress u) as [v|]; [|rewrite app_nil_r; exact Hov].
      destruct Hover as (H1 & H2 & _). apply nondecreasing_snoc; [exact Hov|].
      intros x Hx. rewrite Hx in H1. exact H1.
    + rewrite overall_writes_snoc.
      destruct (pu_overall_progress u) as [v|]; [|rewrite app_nil_r; exact Hle].
      destruct Hover as (H1 & H2 & _). apply Forall_app. split; [exact Hle|].
      constructor; [exact H2 | constructor].
    + intros i. rewrite Hsw.
      destruct (decide (i < length Config.PROCESSING_STAGES)%nat) as [Hi|Hi];
        [|rewrite app_nil_r; apply Hst].
      apply nondecreasing_snoc; [apply Hst|].
      intros x Hx. rewrite (Hlast i x Hi Hx). apply Hmono, Hi.
  - intros i q Hi. rewrite Hsw, decide_True by exact Hi.
    rewrite last_snoc. intros [= <-]. reflexivity.
  - rewrite overall_writes_snoc.
    destruct (pu_overall_progress u) as [v|].
    + destruct Hover as (_ & _ & ->). apply last_snoc.
    + rewrite app_nil_r. subst ov'. reflexivity.
Qed.

(** A write of the overall progress alone. *)
Lemma at_point_write_overall ws0 k p ov row us u v :
  at_point ws0 k p ov (Some row, ws0 ++ us) ->
  pu_stages u = None ->
  pu_overall_progress u = Some v ->
  le_opt ov v = true ->
  PrimFloat.leb v (float_of_int 100) = true ->
  at_point ws0 k p (Some v) (Some (apply_proc_updates u row), (ws0 ++ us) ++ [u]).
Proof.
  intros (row0 & us0 & Heq & Hshape & (Hov & Hle & Hst) & Hlast & Hlov) Hu Hv H1 H2.
  injection Heq as <- Hus. apply app_inv_head in Hus. subst us0 ov.
  exists (apply_proc_updates u row), (us ++ [u]).
  split; [rewrite app_assoc; reflexivity|].
  split; [unfold apply_proc_updates; cbn; rewrite Hu; exact Hshape|].
  assert (Hsw : forall i, stage_writes i (us ++ [u]) = stage_writes i us).
  { intros i. rewrite stage_writes_snoc, Hu. apply app_nil_r. }
  assert (How : overall_writes (us ++ [u]) = overall_writes us ++ [v]).
  { rewrite overall_writes_snoc, Hv. reflexivity. }
  split; [|split].
  - split; [|split].
    + rewrite How. apply nondecreasing_snoc; [exact Hov|].
      intros x Hx. rewrite Hx in H1. exact H1.
    + rewrite How. apply Forall_app. split; [exact Hle|].
      constructor; [exact H2 | constructor].
    + intros i. rewrite Hsw. apply Hst.
  - intros i q Hi. rewrite Hsw. apply Hlast, Hi.
  - rewrite How. apply last_snoc.
Qed.

(** The comparisons of floats, by evaluation. *)
Lemma progress_checks_hold : progress_checks = true.
Proof. vm_compute. reflexivity. Qed.

Lemma checks_at (k j : nat) :
  (k < 7)%nat -> (j < 11)%nat ->
  le_opt (overall_before k j) (overall_written k j) = true
  /\ PrimFloat.leb (overall_written k j) (float_of_int 100) = true
  /\ PrimFloat.leb (progress_before j) (ProcessingStart.step_progress j 10) = true
  /\ PrimFloat.leb (ProcessingStart.step_progress j 10)
                   (ProcessingStart.step_progress j 10) = true.
Proof.
  intros Hk Hj. pose proof progress_checks_hold as H. unfold progress_checks in H.
  do 5 (apply andb_prop in H as [H _]).
  rewrite forallb_forall in H. specialize (H k).
  rewrite in_seq in H. specialize (H ltac:(lia)).
  rewrite forallb_forall in H. specialize (H j).
  rewrite in_seq in H. specialize (H ltac:(lia)).
  apply andb_prop in H as [H H4]. apply andb_prop in H as [H H3].
  apply andb_prop in H as [H1 H2]. auto.
Qed.

Lemma checks_ends :
  PrimFloat.leb (ProcessingStart.step_progress 10 10) (float_of_int 100) = true
  /\ PrimFloat.leb (float_of_int 0) (float_of_int 0) = true
  /\ PrimFloat.leb (float_of_int 100) (float_of_int 100) = true
  /\ le_opt (overall_before 7 0) (float_of_int 100) = true.
Proof. repeat split; vm_compute; reflexivity. Qed.

Lemma shape_val_refl (k : nat) (p : float) (i : nat) :
  PrimFloat.leb p p = true ->
  PrimFloat.leb (shape_val k p i) (shape_val k p i) = true.
Proof.
  intros Hp. unfold shape_val.
  destruct (i <? k)%nat; [apply checks_ends|].
  destruct (i =? k)%nat; [exact Hp | apply checks_ends].
Qed.

Lemma shape_val_step (k : nat) (p p' : float) (i : nat) :
  PrimFloat.leb p p' = true ->
  PrimFloat.leb (shape_val k p i) (shape_val k p' i) = true.
Proof.
  intros Hp. unfold shape_val.
  destruct (i <? k)%nat; [apply checks_ends|].
  destruct (i =? k)%nat; [exact Hp | apply checks_ends].
Qed.

Lemma shape_val_next (k : nat) (p : float) (i : nat) :
  PrimFloat.leb p (float_of_int 100) = true ->
  PrimFloat.leb (shape_val k p i) (shape_val (S k) (float_of_int 0) i) = true.
Proof.
  intros Hp. unfold shape_val.
  destruct (Nat.ltb_spec i k), (Nat.ltb_spec i (S k)), (Nat.eqb_spec i k),
    (Nat.eqb_spec i (S k)); try lia; try exact Hp; apply checks_ends.
Qed.

(** The stage list from one point to the next. *)
Lemma shape_insert (k : nat) (p p' : float) (l : list Stage) (st : Stage) :
  shape k p l -> stage_progress st = p' -> shape k p' (<[k := st]> l).
Proof.
  intros (Hlen & Hval) Hst. split; [rewrite length_insert; exact Hlen|].
  intros i st' Hi. destruct (decide (i = k)) as [->|Hne].
  - rewrite list_lookup_insert_eq in Hi by (apply lookup_lt_Some in Hi;
      rewrite length_insert in Hi; exact Hi).
    injection Hi as <-. split; [|lia].
    unfold shape_val. rewrite Nat.ltb_irrefl, Nat.eqb_refl. exact Hst.
  - rewrite list_lookup_insert_ne in Hi by congruence.
    destruct (Hval i st' Hi) as [H1 H2]. split; [|exact H2].
    rewrite H1. unfold shape_val. destruct (i <? k)%nat; [reflexivity|].
    rewrite (proj2 (Nat.eqb_neq i k)) by exact Hne. reflexivity.
Qed.

Lemma shape_complete (k : nat) (p : float) (l : list Stage) (st : Stage) :
  shape k p l ->
  stage_progress st = float_of_int 100 ->
  stage_status st = StCompleted ->
  shape (S k) (float_of_int 0) (<[k := st]> l).
Proof.
  intros (Hlen & Hval) Hp Hst. split; [rewrite length_insert; exact Hlen|].
  intros i st' Hi. destruct (decide (i = k)) as [->|Hne].
  - rewrite list_lookup_insert_eq in Hi by (apply lookup_lt_Some in Hi;
      rewrite length_insert in Hi; exact Hi).
    injection Hi as <-. split; [|intros _; exact Hst].
    unfold shape_val. rewrite (proj2 (Nat.ltb_lt k (S k))) by lia. exact Hp.
  - rewrite list_lookup_insert_ne in Hi by congruence.
    destruct (Hval i st' Hi) as [H1 H2]. split; [|intros H; apply H2; lia].
    rewrite H1. unfold shape_val.
    destruct (Nat.ltb_spec i k), (Nat.ltb_spec i (S k)), (Nat.eqb_spec i k),
      (Nat.eqb_spec i (S k)); try lia; reflexivity.
Qed.

Lemma shape_stopped (k : nat) (p : float) (l l' : list Stage) :
  Forall2 stopped_from l l' -> shape k p l -> shape k p l'.
Proof.
  intros Hall (Hlen & Hval). split; [rewrite <- Hlen; symmetry; eapply Forall2_length, Hall|].
  intros i st' Hi.
  destruct (Forall2_lookup_r _ _ _ _ _ Hall Hi) as (st & Hst & Hrel).
  destruct (Hval i st Hst) as [H1 H2].
  destruct Hrel as [st now E | st E | st E1 E2]; cbn; split; auto;
    intros Hlt; specialize (H2 Hlt); congruence.
Qed.

Lemma at_point_stable ws0 k p ov :
  PrimFloat.leb p p = true -> stable (at_point ws0 k p ov).
Proof.
  intros Hp row stages' ws Hv Hst Hall.
  pose proof Hv as (row0 & us & Heq & Hshape & _).
  injection Heq as <- ->.
  eapply at_point_write; [exact Hv | reflexivity | | | reflexivity].
  - eapply shape_stopped; eassumption.
  - intros i _. apply shape_val_refl, Hp.
Qed.

Lemma stage_config_lt (k : nat) (stage_config : Config.StageConfig) :
  Config.PROCESSING_STAGES !! k = Some stage_config -> (k < 7)%nat.
Proof. intros H. apply lookup_lt_Some in H. exact H. Qed.

Lemma completed_weight_shape (k : nat) (p : float) (l : list Stage) :
  shape k p l -> (k <= 7)%nat ->
  ProcessingStart.completed_weight Config.PROCESSING_STAGES l k
  = ProcessingStart.completed_weight Config.PROCESSING_STAGES completed_stages k.
Proof.
  intros (Hlen & Hval) Hk. unfold ProcessingStart.completed_weight.
  f_equal. apply map_ext_in. intros i Hi. apply in_seq in Hi.
  destruct (lookup_lt_is_Some_2 l i) as (st & Hst); [rewrite Hlen; cbn; lia|].
  rewrite Hst. destruct (Hval i st Hst) as [_ Hc]. rewrite Hc by lia.
  do 7 (destruct i as [|i]; [reflexivity|]). lia.
Qed.

Lemma overall_progress_shape (k j : nat) (p : float) (l : list Stage)
    (stage_config : Config.StageConfig) :
  shape k p l ->
  Config.PROCESSING_STAGES !! k = Some stage_config ->
  ProcessingStart.overall_progress Config.PROCESSING_STAGES l k stage_config
    (ProcessingStart.step_progress j 10)
  = overall_at k j.
Proof.
  intros Hl Hk. unfold overall_at. rewrite Hk. unfold ProcessingStart.overall_progress.
  rewrite (completed_weight_shape k p l Hl) by (apply stage_config_lt in Hk; lia).
  reflexivity.
Qed.

Lemma shape_lookup (k : nat) (p : float) (l : list Stage) (st : Stage) :
  shape k p l -> l !! k = Some st -> stage_progress st = p.
Proof.
  intros (_ & Hval) Hst. destruct (Hval k st Hst) as [-> _].
  unfold shape_val. rewrite Nat.ltb_irrefl, Nat.eqb_refl. reflexivity.
Qed.

(** One progress step of stage [k]. *)
Lemma progress_step_spec ws0 sid (k j : nat) (stage_config : Config.StageConfig)
    (l : list Stage) :
  Config.PROCESSING_STAGES !! k = Some stage_config ->
  (j < 11)%nat ->
  triple sid (steady_since ws0)
    (fun v => at_point ws0 k (progress_before j) (overall_before k j) v
              /\ shape k (progress_before j) l)
    (ProcessingStart.progress_step sid Config.PROCESSING_STAGES k stage_config 10 j l)
    (fun l' v => at_point ws0 k (progress_before (S j)) (overall_before k (S j)) v
                 /\ shape k (progress_before (S j)) l').
Proof.
  intros Hk Hj. pose proof (stage_config_lt k stage_config Hk) as Hk7.
  destruct (checks_at k j Hk7 Hj) as (C1 & C2 & C3 & C4).
  apply triple_pure with (phi := shape k (progress_before j) l); [tauto|]. intros Hl.
  apply triple_conseq with
    (P := at_point ws0 k (progress_before j) (overall_before k j))
    (Q := fun l' v => at_point ws0 k (progress_before (S j)) (overall_before k (S j)) v
                      /\ shape k (progress_before (S j)) l'); [|tauto|auto].
  set (P := at_point ws0 k (progress_before j) (overall_before k j)).
  assert (PG : forall v, P v -> steady_since ws0 v) by (intros v; apply at_point_steady).
  unfold ProcessingStart.progress_step.
  eapply triple_bind; [apply (triple_get_processing_status sid _ P)|]. intros r.
  apply triple_conseq with (P := P)
    (Q := fun l' v => at_point ws0 k (progress_before (S j)) (overall_before k (S j)) v
                      /\ shape k (progress_before (S j)) l'); [|tauto|auto].
  destruct (is_stopped r); [apply triple_return; exact PG|].
  eapply triple_bind; [apply (triple_modify_stage sid _ P); exact PG|]. intros l'.
  apply triple_pure with
    (phi := exists st, l !! k = Some st
                       /\ l' = <[k := set_stage_progress
                                        (ProcessingStart.step_progress j 10) st]> l);
    [tauto|]. intros (st & Hst & ->).
  assert (Hl' : shape k (ProcessingStart.step_progress j 10)
                  (<[k := set_stage_progress (ProcessingStart.step_progress j 10) st]> l))
    by (eapply shape_insert; [exact Hl | reflexivity]).
  rewrite (overall_progress_shape k j _ _ stage_config Hl' Hk).
  set (P' := at_point ws0 k (progress_before (S j)) (overall_before k (S j))).
  eapply triple_bind with (Q := fun _ => P').
  { eapply triple_conseq;
      [apply (triple_update_processing_status sid _ (fun _ => P')) | | auto].
    intros v [Hv _]. pose proof Hv as (row & us & -> & _). cbn [fst snd].
    eapply at_point_write; [exact Hv | reflexivity | exact Hl' | | ].
    - intros i _. apply shape_val_step, C3.
    - cbn. repeat split; assumption. }
  intros _.
  assert (PG' : forall v, P' v -> steady_since ws0 v) by (intros v; apply at_point_steady).
  eapply triple_bind with (Q := fun _ => P').
  { match goal with |- context [if ?b then _ else _] => destruct b end.
    - eapply triple_bind with (Q := fun _ => P'); [apply triple_py_int; exact PG'|].
      intros z. eapply triple_bind with (Q := fun _ => P');
        [apply triple_add_processing_log|].
      intros _. apply triple_ret. auto.
    - apply triple_ret. auto. }
  intros _.
  eapply triple_bind with (Q := fun _ => P').
  { apply triple_sleep. apply at_point_stable. exact C4. }
  intros _. apply triple_ret. intros v Hv. split; [exact Hv | exact Hl'].
Qed.

Lemma stage_log_step_spec ws0 sid (k : nat) (ov : option float) (msg : string) :
  triple sid (steady_since ws0)
    (at_point ws0 k (float_of_int 0) ov)
    (ProcessingStart.stage_log_step sid msg)
    (fun _ => at_point ws0 k (float_of_int 0) ov).
Proof.
  set (P := at_point ws0 k (float_of_int 0) ov).
  assert (PG : forall v, P v -> steady_since ws0 v) by (intros v; apply at_point_steady).
  unfold ProcessingStart.stage_log_step.
  eapply triple_bind; [apply (triple_get_processing_status sid _ P)|]. intros r.
  apply triple_conseq with (P := P) (Q := fun _ => P); [|tauto|auto].
  destruct (is_stopped r); [apply triple_return; exact PG|].
  eapply triple_bind with (Q := fun _ => P); [apply triple_add_processing_log|].
  intros _. apply triple_sleep, at_point_stable, checks_ends.
Qed.

Lemma modify_stage_shape ws0 sid (k : nat) (p p' : float) (ov : option float)
    (l : list Stage) (f : Stage -> Stage) :
  shape k p l ->
  (forall st, stage_progress st = p -> stage_progress (f st) = p') ->
  triple (R := unit) sid (steady_since ws0)
    (at_point ws0 k p ov)
    (ProcessingStart.modify_stage l k f)
    (fun l' v => at_point ws0 k p ov v
                 /\ shape k p' l'
                 /\ exists st, l !! k = Some st /\ l' !! k = Some (f st)
                               /\ l' = <[k := f st]> l).
Proof.
  intros Hl Hf.
  eapply triple_conseq;
    [apply (triple_modify_stage sid _ (at_point ws0 k p ov));
     intros v; apply at_point_steady
    | auto |].
  intros l' v (Hv & st & Hst & ->). split; [exact Hv|].
  split; [eapply shape_insert; [exact Hl|]; apply Hf; eapply shape_lookup; eassumption|].
  exists st. split; [exact Hst|]. split; [|reflexivity].
  apply list_lookup_insert_eq. eapply lookup_lt_Some, Hst.
Qed.

(** One stage of the run. *)
Lemma process_stage_spec ws0 sid (k : nat) (stage_config : Config.StageConfig) :
  Config.PROCESSING_STAGES !! k = Some stage_config ->
  triple sid (steady_since ws0)
    (at_point ws0 k (float_of_int 0) (overall_before k 0))
    (ProcessingStart.process_stage sid Config.PROCESSING_STAGES (k, stage_config))
    (fun _ => at_point ws0 (S k) (float_of_int 0) (overall_before (S k) 0)).
Proof.
  intros Hk. pose proof (stage_config_lt k stage_config Hk) as Hk7.
  destruct checks_ends as (E1 & E2 & E3 & E4).
  set (P := at_point ws0 k (float_of_int 0) (overall_before k 0)).
  set (P' := at_point ws0 (S k) (float_of_int 0) (overall_before (S k) 0)).
  assert (PG : forall v, P v -> steady_since ws0 v) by (intros v; apply at_point_steady).
  unfold ProcessingStart.process_stage. cbn [fst snd]. cbv zeta.
  eapply triple_bind; [apply (triple_get_processing_status sid _ P)|]. intros r.
  apply triple_pure with
    (phi := exists row, r = Some row /\ shape k (float_of_int 0) (ps_stages row)).
  { intros v [(row & us & -> & Hs & _) ->]. exists row. split; [reflexivity | exact Hs]. }
  intros (row & -> & Hl0).
  apply triple_conseq with (P := P) (Q := fun _ => P'); [|tauto|auto].
  (* the stage is set to processing *)
  eapply triple_bind;
    [apply (modify_stage_shape ws0 sid k _ (float_of_int 0) _ _ _ Hl0); auto|].
  intros l1. apply triple_pure with (phi := shape k (float_of_int 0) l1); [tauto|].
  intros Hl1. apply triple_conseq with (P := P) (Q := fun _ => P'); [|tauto|auto].
  eapply triple_bind with (Q := fun _ => P); [apply triple_utcnow|]. intros now.
  eapply triple_bind;
    [apply (modify_stage_shape ws0 sid k _ (float_of_int 0) _ _ _ Hl1); auto|].
  intros l2. apply triple_pure with (phi := shape k (float_of_int 0) l2); [tauto|].
  intros Hl2. apply triple_conseq with (P := P) (Q := fun _ => P'); [|tauto|auto].
  eapply triple_bind;
    [apply (modify_stage_shape ws0 sid k _ (float_of_int 0) _ _ _ Hl2); auto|].
  intros l3. apply triple_pure with (phi := shape k (float_of_int 0) l3); [tauto|].
  intros Hl3. apply triple_conseq with (P := P) (Q := fun _ => P'); [|tauto|auto].
  eapply triple_bind with (Q := fun _ => P).
  { eapply triple_conseq;
      [apply (triple_update_processing_status sid _ (fun _ => P)) | | auto].
    intros v Hv. pose proof Hv as (row' & us & -> & _). cbn [fst snd].
    eapply at_point_write; [exact Hv | reflexivity | exact Hl3 | | reflexivity].
    intros i _. apply shape_val_refl, E2. }
  intros _.
  eapply triple_bind with (Q := fun _ => P); [apply triple_add_processing_log|].
  intros _.
  (* the progress steps *)
  eapply triple_bind.
  { eapply triple_conseq;
      [apply (triple_for_fold sid (steady_since ws0)
             (fun j l v => at_point ws0 k (progress_before j) (overall_before k j) v
                           /\ shape k (progress_before j) l)
             (ProcessingStart.progress_step sid Config.PROCESSING_STAGES k stage_config 10)
             (seq 0 (10 + 1)) 0%nat l3)
      | intros v Hv; split; [exact Hv | exact Hl3]
      | intros a v H; exact H].
    intros j x l Hj. apply lookup_seq in Hj as [-> Hj]. cbn [Nat.add].
    apply progress_step_spec; [exact Hk | cbn in Hj; lia]. }
  cbn [Nat.add length]. rewrite length_seq. cbn [Nat.add].
  pose (p10 := ProcessingStart.step_progress 10 10).
  pose (P10 := at_point ws0 k p10 (overall_before (S k) 0)).
  intros l4. apply triple_pure with (phi := shape k p10 l4); [tauto|].
  intros Hl4. apply triple_conseq with (P := P10) (Q := fun _ => P'); [|tauto|auto].
  (* the stage is set to completed *)
  eapply triple_bind;
    [apply (modify_stage_shape ws0 sid k _ p10 _ _ _ Hl4); auto|].
  intros l5.
  apply triple_pure with
    (phi := shape k p10 l5
            /\ exists st, l5 !! k = Some (set_stage_status StCompleted st)); [|].
  { intros v (_ & H1 & st & _ & H2 & _). split; [exact H1|]. exists st. exact H2. }
  intros (Hl5 & st5 & Hst5).
  apply triple_conseq with (P := P10) (Q := fun _ => P'); [|tauto|auto].
  eapply triple_bind;
    [apply (modify_stage_shape ws0 sid k _ (float_of_int 100) _ _ _ Hl5);
     intros; reflexivity|].
  intros l6.
  apply triple_pure with
    (phi := exists st, l5 !! k = Some st /\ l6 !! k = Some (set_stage_progress (float_of_int 100) st)
                       /\ l6 = <[k := set_stage_progress (float_of_int 100) st]> l5); [tauto|].
  intros (st6 & Hst6 & Hl6k & Hl6).
  rewrite Hst5 in Hst6. injection Hst6 as <-.
  apply triple_conseq with (P := P10) (Q := fun _ => P'); [|tauto|auto].
  eapply triple_bind with (Q := fun _ => P10); [apply triple_utcnow|]. intros now'.
  eapply triple_bind;
    [apply (triple_modify_stage sid _ P10); intros v; apply at_point_steady|].
  intros l7.
  apply triple_pure with
    (phi := shape (S k) (float_of_int 0) l7).
  { intros v (_ & st & Hst & ->). rewrite Hl6k in Hst. injection Hst as <-.
    rewrite Hl6, list_insert_insert_eq.
    apply (shape_complete k p10 l5); [exact Hl5 | reflexivity | reflexivity]. }
  intros Hl7.
  apply triple_conseq with (P := P10) (Q := fun _ => P'); [|tauto|auto].
  eapply triple_bind with (Q := fun _ => P').
  { eapply triple_conseq;
      [apply (triple_update_processing_status sid _ (fun _ => P')) | | auto].
    intros v Hv. pose proof Hv as (row' & us & -> & _). cbn [fst snd].
    eapply at_point_write; [exact Hv | reflexivity | exact Hl7 | | reflexivity].
    intros i _. apply shape_val_next, E1. }
  intros _.
  eapply triple_bind with (Q := fun _ => P'); [apply triple_add_processing_log|].
  intros _.
  eapply triple_conseq;
    [apply (triple_for_each sid (steady_since ws0) (fun _ => P')) with (n := 0%nat)
    | auto | auto].
  intros j x _. apply stage_log_step_spec.
Qed.

Lemma finish_processing_spec ws0 sid :
  triple sid (steady_since ws0)
    (at_point ws0 7 (float_of_int 0) (overall_before 7 0))
    (ProcessingStart.finish_processing sid)
    (fun _ => steady_since ws0).
Proof.
  destruct checks_ends as (E1 & E2 & E3 & E4).
  set (P := at_point ws0 7 (float_of_int 0) (overall_before 7 0)).
  set (P' := at_point ws0 7 (float_of_int 0) (Some (float_of_int 100))).
  assert (Hst : stable P') by (apply at_point_stable; exact E2).
  unfold ProcessingStart.finish_processing.
  eapply triple_bind with (Q := fun _ => P); [apply triple_utcnow|]. intros now.
  eapply triple_bind with (Q := fun _ => P').
  { eapply triple_conseq;
      [apply (triple_update_processing_status sid _ (fun _ => P')) | | auto].
    intros v Hv. pose proof Hv as (row' & us & -> & _). cbn [fst snd].
    eapply at_point_write_overall; [exact Hv | reflexivity | reflexivity | exact E4 | exact E3]. }
  intros _.
  eapply triple_conseq with (P := P') (Q := fun _ => P');
    [| auto | intros a v; apply at_point_steady].
  repeat first
    [ apply triple_ret; solve [auto]
    | apply triple_add_processing_log
    | apply triple_update_session
    | apply triple_get_session
    | apply triple_add_message
    | apply triple_update_message_status
    | apply triple_sleep; exact Hst
    | (eapply triple_bind with (Q := fun _ => P'); [ | intros ? ]) ].
Qed.

(** The body of the task, from a row whose stages are all at progress 0. *)
Lemma process_analytics_body_spec ws0 sid (t : pynum) :
  triple sid (steady_since ws0)
    (at_point ws0 0 (float_of_int 0) None)
    (ProcessingStart.process_analytics_body sid t)
    (fun _ => steady_since ws0).
Proof.
  destruct checks_ends as (E1 & E2 & E3 & E4).
  set (P := at_point ws0 0 (float_of_int 0) None).
  assert (PG : forall v, P v -> steady_since ws0 v) by (intros v; apply at_point_steady).
  assert (Hst : stable P) by (apply at_point_stable; exact E2).
  unfold ProcessingStart.process_analytics_body. cbv zeta.
  eapply triple_bind with (Q := fun _ => P); [apply triple_add_processing_log|].
  intros _.
  eapply triple_bind with (Q := fun _ => P); [apply triple_sleep; exact Hst|].
  intros _.
  eapply triple_bind with (Q := fun _ => P); [apply triple_add_processing_log|].
  intros _.
  eapply triple_bind; [apply (triple_get_processing_status sid _ P)|]. intros r.
  apply triple_conseq with (P := P) (Q := fun _ => steady_since ws0); [|tauto|auto].
  destruct r as [row|]; [|apply triple_return; exact PG].
  eapply triple_bind; [|intros ?; apply finish_processing_spec].
  eapply triple_conseq;
    [apply (triple_for_each sid (steady_since ws0)
              (fun j => at_point ws0 j (float_of_int 0) (overall_before j 0)))
       with (n := 0%nat)
    | auto | auto].
  intros j [j' stage_config] Hj. cbn [Nat.add].
  unfold enumerate in Hj. rewrite list_lookup_imap in Hj.
  destruct (Config.PROCESSING_STAGES !! j) as [c|] eqn:Hc; [|discriminate].
  injection Hj as <- <-. apply process_stage_spec. exact Hc.
Qed.

Lemma steady_since_update ws0 (r r' : option ProcessingStatus) (ws : list ProcUpdates)
    (u : ProcUpdates) :
  steady_since ws0 (r, ws) ->
  pu_stages u = None -> pu_overall_progress u = None ->
  steady_since ws0 (r', ws ++ [u]).
Proof.
  intros (us & Hws & Ho & Hle & Hs) Hu1 Hu2. cbn in Hws. subst ws.
  exists (us ++ [u]). split; [cbn; rewrite app_assoc; reflexivity|].
  split; [|split].
  - rewrite overall_writes_snoc, Hu2, app_nil_r. exact Ho.
  - rewrite overall_writes_snoc, Hu2, app_nil_r. exact Hle.
  - intros i. rewrite stage_writes_snoc, Hu1, app_nil_r. apply Hs.
Qed.

Lemma processing_error_steady ws0 (sid e : string) (w : World) :
  steady_since ws0 (view sid w) ->
  exists w',
    ProcessingStart.processing_error sid e w = (Val tt, w')
    /\ steady_since ws0 (view sid w').
Proof.
  intros Hw. unfold ProcessingStart.processing_error, view in *. msimpl.
  destruct (processing_status (db w) !! sid) as [row|] eqn:Hrow; msimpl.
  - rewrite Hrow. msimpl. eexists. split; [reflexivity|]. msimpl.
    rewrite writes_of_app. cbn. rewrite bool_decide_eq_true_2 by reflexivity.
    eapply steady_since_update; [exact Hw | reflexivity | reflexivity].
  - rewrite Hrow. msimpl. eexists. split; [reflexivity|]. msimpl.
    destruct Hw as (us & Hws & Hs). exists us. split; assumption.
Qed.

(** C4.  A run of the simulator on a row whose stages are all at progress
    0, as the start handler creates it, whatever stop requests are served
    meanwhile, with or without an application context: among the writes to
    the row of the session, the values of the overall progress never
    decrease and never exceed 100, and the progress of every stage never
    decreases. *)
Theorem C4_progress_never_decreases (active : bool) (w : World) (sid : string)
    (t : pynum) (row : ProcessingStatus) :
  processing_status (db w) !! sid = Some row ->
  length (ps_stages row) = length Config.PROCESSING_STAGES ->
  Forall (fun st => stage_progress st = float_of_int 0) (ps_stages row) ->
  exists w' us,
    ProcessingStart._process_analytics_with_context (R := unit) active sid t w
    = (Val tt, w')
    /\ writes_of sid (history w') = writes_of sid (history w) ++ us
    /\ nondecreasing (overall_writes us)
    /\ Forall (fun v => PrimFloat.leb v (float_of_int 100) = true) (overall_writes us)
    /\ forall i, nondecreasing (stage_writes i us).
Proof.
  intros Hrow Hlen Hzero.
  destruct active; cycle 1.
  { exists w, []. rewrite app_nil_r.
    split; [reflexivity|]. split; [reflexivity|].
    split; [apply nondecreasing_nil|]. split; [constructor|].
    intros i. apply nondecreasing_nil. }
  set (ws0 := writes_of sid (history w)).
  assert (Hinit : at_point ws0 0 (float_of_int 0) None (view sid w)).
  { exists row, []. unfold view. rewrite Hrow, app_nil_r.
    split; [reflexivity|]. split; [|split; [apply steady_nil|]].
    - split; [exact Hlen|]. intros i st Hi. split; [|lia].
      rewrite Forall_lookup in Hzero. rewrite (Hzero i st Hi).
      unfold shape_val. cbn. destruct (i =? 0)%nat; reflexivity.
    - split; [|reflexivity]. intros i q _ H. discriminate. }
  pose proof (process_analytics_body_spec ws0 sid t w Hinit) as Hbody.
  assert (Hend : exists w',
             ProcessingStart._process_analytics_with_context (R := unit) true sid t w
             = (Val tt, w')
             /\ steady_since ws0 (view sid w')).
  { unfold ProcessingStart._process_analytics_with_context,
      ProcessingStart._process_analytics, ProcessingStart.current_app_app_context.
    unfold call at 1. unfold try_except at 1. unfold bind at 1. unfold ret at 1.
    unfold call, try_except.
    destruct (ProcessingStart.process_analytics_body sid t w) as [[[]|[]|e] w1].
    - exists w1. split; [reflexivity | exact Hbody].
    - exists w1. split; [reflexivity | exact Hbody].
    - destruct (processing_error_steady ws0 sid e w1 Hbody) as (w' & -> & Hw').
      exists w'. split; [reflexivity | exact Hw']. }
  destruct Hend as (w' & Hrun & us & Hws & Ho & Hle & Hs).
  exists w', us. repeat split; assumption.
Qed.

Lemma C4_witness :
  exists w' us,
    ProcessingStart._process_analytics_with_context (R := unit) true "s1" (PInt 6)
      (Sample.started "Finance") = (Val tt, w')
    /\ writes_of "s1" (history w')
       = writes_of "s1" (history (Sample.started "Finance")) ++ us
    /\ nondecreasing (overall_writes us)
    /\ Forall (fun v => PrimFloat.leb v (float_of_int 100) = true) (overall_writes us)
    /\ forall i, nondecreasing (stage_writes i us).
Proof.
  edestruct C4_progress_never_decreases
    with (active := true) (w := Sample.started "Finance") (sid := "s1") (t := PInt 6)
    as (w' & us & H).
  - vm_compute. reflexivity.
  - reflexivity.
  - vm_compute. repeat constructor.
  - exists w', us. exact H.
Defined.

(** The undisturbed run of the sample session writes the overall progress
    78 times: once for each of the 11 steps of the 7 stages, and at the
    end. *)
Example sample_run_overall_writes :
  length (overall_writes (writes_of "s1" (history (Sample.finished "Finance")))) = 78%nat.
Proof. vm_compute. reflexivity. Qed.


(** * Further properties of the handlers *)

(** ** Access *)

Ltac refuse Hl Hu Hs Hne :=
  msimpl; rewrite Hl, Hu; msimpl;
  rewrite Hs; msimpl;
  rewrite bool_decide_eq_false_2 by (intros [= E]; apply Hne; exact E);
  reflexivity.

(** X1.  A caller who is logged in but does not own the session is answered
    403 by every handler of a session, whatever the request holds, and the
    world is left as it was. *)
Theorem strangers_are_refused (w : World) (auth : Auth) (sid : string) (s : Session)
    (c : ascii) (uid : string) :
  logged_in auth = true ->
  auth_user_id auth = Some (String c uid) ->
  sessions (db w) !! sid = Some s ->
  sess_user_id s <> String c uid ->
  let denied := (Val (Error "Access denied" 403 None), w) in
  (forall data, AmbiguityResolve.post (R := unit) auth sid data w = denied)
  /\ (forall data, AmbiguityAnswer.post (R := unit) auth sid data w = denied)
  /\ AmbiguityContext.post (R := unit) auth sid w = denied
  /\ AmbiguityCleanup.post (R := unit) auth sid w = denied
  /\ AmbiguityQuestions.get (R := unit) auth sid w = denied
  /\ (forall data, MessagesCreate.post (R := unit) auth sid data w = denied)
  /\ MessagesList.get (R := unit) auth sid w = denied
  /\ (forall data, ProcessingStart.post (R := unit) auth sid data w = denied)
  /\ ProcessingStop.post (R := unit) auth sid w = denied
  /\ ProcessingComplete.post (R := unit) auth sid w = denied
  /\ AnalyticsResults.get (R := unit) auth sid w = denied
  /\ (forall format, AnalyticsExport.get (R := unit) auth sid format w = denied).
Proof.
  intros Hl Hu Hs Hne denied. subst denied.
  repeat split; intros;
    [ unfold AmbiguityResolve.post | unfold AmbiguityAnswer.post
    | unfold AmbiguityContext.post | unfold AmbiguityCleanup.post
    | unfold AmbiguityQuestions.get | unfold MessagesCreate.post
    | unfold MessagesList.get | unfold ProcessingStart.post
    | unfold ProcessingStop.post | unfold ProcessingComplete.post
    | unfold AnalyticsResults.get | unfold AnalyticsExport.get ];
    refuse Hl Hu Hs Hne.
Qed.

Lemma strangers_are_refused_witness :
  ProcessingStop.post (R := unit) bob "s1" (Sample.midrun "Finance")
  = (Val (Error "Access denied" 403 None), Sample.midrun "Finance").
Proof.
  edestruct strangers_are_refused
    with (w := Sample.midrun "Finance") (auth := bob) (sid := "s1")
    as (_ & _ & _ & _ & _ & _ & _ & _ & H & _).
  - reflexivity.
  - reflexivity.
  - vm_compute. reflexivity.
  - vm_compute. discriminate.
  - exact H.
Defined.

(** ** Stopping a run, continued *)

Ltac enter Hl Hu Hs Hown :=
  msimpl; rewrite Hl, Hu; msimpl;
  rewrite Hs; msimpl; rewrite Hown;
  rewrite bool_decide_eq_true_2 by done; msimpl.

Lemma owner_inv (auth : Auth) (s : Session) :
  owner auth s ->
  exists c uid, logged_in auth = true /\ auth_user_id auth = Some (String c uid)
                /\ sess_user_id s = String c uid.
Proof.
  intros (Hl & Hu & Hne). destruct (sess_user_id s) as [|c uid] eqn:E; [done|].
  exists c, uid. auto.
Qed.

Lemma stop_refused (w : World) (auth : Auth) (sid : string) (s : Session) :
  sessions (db w) !! sid = Some s ->
  owner auth s ->
  (processing_status (db w) !! sid = None ->
   ProcessingStop.post (R := unit) auth sid w
   = (Val (Error "No processing data found" 404 None), w))
  /\ (forall row,
        processing_status (db w) !! sid = Some row ->
        ps_status row <> PsProcessing ->
        ProcessingStop.post (R := unit) auth sid w
        = (Val (Error "Processing is not active" 400 None), w)).
Proof.
  intros Hs (c & uid & Hl & Hu & Hown)%owner_inv.
  split.
  - intros Hrow. unfold ProcessingStop.post. enter Hl Hu Hs Hown.
    rewrite Hrow. reflexivity.
  - intros row Hrow Hst. unfold ProcessingStop.post. enter Hl Hu Hs Hown.
    rewrite Hrow. msimpl. rewrite bool_decide_eq_false_2 by exact Hst. reflexivity.
Qed.

(** What a stop request that is served does, table by table. *)
Lemma stop_run (w : World) (auth : Auth) (sid : string) (s : Session)
    (row : ProcessingStatus) :
  sessions (db w) !! sid = Some s ->
  owner auth s ->
  processing_status (db w) !! sid = Some row ->
  ps_status row = PsProcessing ->
  exists w' stages' entry m t,
    ProcessingStop.post (R := unit) auth sid w
      = (Val (Success [ ("message", JStr "Processing stopped successfully");
                        ("status", JStr "stopped") ]), w')
    /\ Forall2 stopped_from (ps_stages row) stages'
    /\ processing_status (db w')
       = <[sid := apply_proc_updates (stop_update stages') row]> (processing_status (db w))
    /\ processing_logs (db w') = processing_logs (db w) ++ [entry]
    /\ (log_session_id entry = sid /\ log_type entry = LogWarning
        /\ log_message entry = "Processing was manually stopped by user")
    /\ sessions (db w')
       = <[sid := db_service.touch t
                    (apply_session_updates
                       {| su_current_step := Some StepCompleted;
                          su_status := Some SessStopped |} s)]> (sessions (db w))
    /\ messages (db w') = messages (db w) ++ [m]
    /\ (msg_session_id m = sid /\ msg_type m = MsgAssistant
        /\ msg_status m = Some MsgCompleted
        /\ msg_content m = "Analysis Stopped - Processing was manually interrupted")
    /\ ambiguity_data (db w') = ambiguity_data (db w)
    /\ conversation_cycles (db w') = conversation_cycles (db w)
    /\ history w' = history w ++ [(sid, stop_update stages')]
    /\ threads w' = threads w /\ sched w' = sched w.
Proof.
  intros Hs (c & uid & Hl & Hu & Hown)%owner_inv Hrow Hst.
  unfold ProcessingStop.post. enter Hl Hu Hs Hown.
  rewrite Hrow. msimpl. rewrite Hst.
  rewrite bool_decide_eq_true_2 by done. msimpl.
  destruct (map_m_stop_stage (R := Response) (ps_stages row) w)
    as (stages' & c1 & -> & Hall & Hc).
  msimpl. rewrite Hrow. msimpl.
  rewrite lookup_insert_eq. msimpl. rewrite Hs. msimpl.
  rewrite lookup_insert_eq. msimpl.
  eexists _, stages', _, _, _. split; [reflexivity|]. msimpl.
  rewrite insert_insert_eq.
  repeat split; try reflexivity; try exact Hall.
Qed.

(** X2.  A stop request of the owner on a session without a processing row
    is answered 404, and on a row whose status is not [processing] it is
    answered 400; in both cases the world is left as it was. *)
Theorem stop_needs_a_run_that_is_processing (w : World) (auth : Auth) (sid : string)
    (s : Session) :
  sessions (db w) !! sid = Some s ->
  owner auth s ->
  (processing_status (db w) !! sid = None ->
   ProcessingStop.post (R := unit) auth sid w
   = (Val (Error "No processing data found" 404 None), w))
  /\ (forall row,
        processing_status (db w) !! sid = Some row ->
        ps_status row <> PsProcessing ->
        ProcessingStop.post (R := unit) auth sid w
        = (Val (Error "Processing is not active" 400 None), w)).
Proof. exact (stop_refused w auth sid s). Qed.

Lemma stop_needs_a_run_that_is_processing_witness :
  ProcessingStop.post (R := unit) Sample.alice "s1" (Sample.asked "Finance")
  = (Val (Error "No processing data found" 404 None), Sample.asked "Finance").
Proof.
  edestruct stop_needs_a_run_that_is_processing
    with (w := Sample.asked "Finance") (auth := Sample.alice) (sid := "s1") as [H _].
  - vm_compute. reflexivity.
  - repeat split; vm_compute; congruence.
  - apply H. vm_compute. reflexivity.
Defined.

(** X3.  A stop request that was served cannot be repeated: the same
    request on the resulting world is answered 400 and changes nothing. *)
Theorem second_stop_is_refused (w : World) (auth : Auth) (sid : string) (s : Session)
    (row : ProcessingStatus) :
  sessions (db w) !! sid = Some s ->
  owner auth s ->
  processing_status (db w) !! sid = Some row ->
  ps_status row = PsProcessing ->
  exists data w',
    ProcessingStop.post (R := unit) auth sid w = (Val (Success data), w')
    /\ ProcessingStop.post (R := unit) auth sid w'
       = (Val (Error "Processing is not active" 400 None), w').
Proof.
  intros Hs Hown Hrow Hst.
  destruct (stop_run w auth sid s row Hs Hown Hrow Hst)
    as (w' & stages' & entry & m & t & Hrun & _ & Hps & _ & _ & Hsess & _).
  eexists _, w'. split; [exact Hrun|].
  eapply (stop_refused w' auth sid).
  - rewrite Hsess. apply lookup_insert_eq.
  - destruct Hown as (Hl & Hu & Hne). repeat split; assumption.
  - rewrite Hps. apply lookup_insert_eq.
  - cbn. discriminate.
Qed.

Lemma second_stop_is_refused_witness :
  exists data w',
    ProcessingStop.post (R := unit) Sample.alice "s1" (Sample.midrun "Finance")
      = (Val (Success data), w')
    /\ ProcessingStop.post (R := unit) Sample.alice "s1" w'
       = (Val (Error "Processing is not active" 400 None), w').
Proof.
  eapply second_stop_is_refused.
  - vm_compute. reflexivity.
  - repeat split; vm_compute; congruence.
  - vm_compute. reflexivity.
  - reflexivity.
Defined.

(** X4.  Besides the stage list, a served stop request sets the status of
    the row to [stopped] and leaves its overall progress and configuration,
    appends one warning log, moves the session to step [completed] with
    status [stopped], and appends the assistant message about the
    interruption; the ambiguity data is not touched. *)
Theorem stop_records_the_interruption (w : World) (auth : Auth) (sid : string)
    (s : Session) (row : ProcessingStatus) :
  sessions (db w) !! sid = Some s ->
  owner auth s ->
  processing_status (db w) !! sid = Some row ->
  ps_status row = PsProcessing ->
  exists data w' row' s' entry m,
    ProcessingStop.post (R := unit) auth sid w = (Val (Success data), w')
    /\ processing_status (db w') !! sid = Some row'
    /\ ps_status row' = PsStopped
    /\ ps_overall_progress row' = ps_overall_progress row
    /\ ps_config row' = ps_config row
    /\ ps_current_stage row' = ps_current_stage row
    /\ processing_logs (db w') = processing_logs (db w) ++ [entry]
    /\ log_session_id entry = sid /\ log_type entry = LogWarning
    /\ log_message entry = "Processing was manually stopped by user"
    /\ sessions (db w') !! sid = Some s'
    /\ sess_current_step s' = StepCompleted /\ sess_status s' = SessStopped
    /\ sess_domain s' = sess_domain s /\ sess_title s' = sess_title s
    /\ messages (db w') = messages (db w) ++ [m]
    /\ msg_session_id m = sid /\ msg_type m = MsgAssistant
    /\ msg_content m = "Analysis Stopped - Processing was manually interrupted"
    /\ ambiguity_data (db w') = ambiguity_data (db w).
Proof.
  intros Hs Hown Hrow Hst.
  destruct (stop_run w auth sid s row Hs Hown Hrow Hst)
    as (w' & stages' & entry & m & t & Hrun & _ & Hps & Hlogs & (L1 & L2 & L3) & Hsess
        & Hmsgs & (M1 & M2 & M3 & M4) & Hamb & _).
  eexists _, w', _, _, entry, m. split; [exact Hrun|].
  split; [rewrite Hps; apply lookup_insert_eq|].
  do 4 (split; [reflexivity|]).
  split; [exact Hlogs|]. do 3 (split; [assumption|]).
  split; [rewrite Hsess; apply lookup_insert_eq|].
  do 4 (split; [reflexivity|]).
  split; [exact Hmsgs|]. do 3 (split; [assumption|]). exact Hamb.
Qed.

Lemma stop_records_the_interruption_witness :
  exists data w' row' s' entry m,
    ProcessingStop.post (R := unit) Sample.alice "s1" (Sample.midrun "Finance")
      = (Val (Success data), w')
    /\ processing_status (db w') !! "s1" = Some row'
    /\ ps_status row' = PsStopped
    /\ sessions (db w') !! "s1" = Some s'
    /\ sess_status s' = SessStopped
    /\ processing_logs (db w') = processing_logs (db (Sample.midrun "Finance")) ++ [entry]
    /\ messages (db w') = messages (db (Sample.midrun "Finance")) ++ [m].
Proof.
  edestruct stop_records_the_interruption
    with (w := Sample.midrun "Finance") (auth := Sample.alice) (sid := "s1")
    as (data & w' & row' & s' & entry & m & H1 & H2 & H3 & _ & _ & _ & H4 & _ & _ & _
        & H5 & _ & H6 & _ & _ & H7 & _).
  - vm_compute. reflexivity.
  - repeat split; vm_compute; congruence.
  - vm_compute. reflexivity.
  - reflexivity.
  - exists data, w', row', s', entry, m. repeat split; assumption.
Defined.

(** ** Starting a run, continued *)

Lemma filter_filter_neg {A} (p : A -> bool) (l : list A) :
  List.filter p (List.filter (fun x => negb (p x)) l) = [].
Proof.
  induction l as [|x l IH]; [reflexivity|]. cbn.
  destruct (p x) eqn:E; cbn; [exact IH|]. rewrite E. exact IH.
Qed.

(** X5.  A start request of the owner with a numeric (or no) duration, on a
    session with or without an earlier run: the row of the session is
    replaced by a fresh one (status [processing], stage 0, overall progress
    0, the seven configured stages queued at progress 0, no error), the
    logs of an earlier run are gone, one background task is recorded for the
    session with the stored duration, and the session is at step
    [processing] with status [processing]. *)
Theorem start_creates_a_fresh_run (w : World) (auth : Auth) (sid : string) (s : Session)
    (data : option ProcessingStart.StartConfig) (x : pynum) :
  sessions (db w) !! sid = Some s ->
  owner auth s ->
  requested_time data = inl x ->
  hd None (sched w) = None ->
  exists reply w' row s',
    ProcessingStart.post (R := unit) auth sid data w = (Val (Success reply), w')
    /\ processing_status (db w') !! sid = Some row
    /\ fresh_row row
    /\ (is_Some (processing_status (db w) !! sid) -> logs_of sid w' = [])
    /\ (processing_status (db w) !! sid = None ->
        processing_logs (db w') = processing_logs (db w))
    /\ threads w' = threads w ++ [(sid, cfg_processing_time (ps_config row))]
    /\ sessions (db w') !! sid = Some s'
    /\ sess_current_step s' = StepProcessing /\ sess_status s' = SessProcessing
    /\ sess_domain s' = sess_domain s
    /\ messages (db w') = messages (db w)
    /\ history w' = history w.
Proof.
  intros Hs (c & uid & Hl & Hu & Hown)%owner_inv Hx Hq.
  unfold requested_time in Hx.
  destruct data as [[[[x'|ty]|] depth style level]|]; cbn in Hx; try discriminate;
    injection Hx as <-;
    unfold ProcessingStart.post; enter Hl Hu Hs Hown;
    unfold ProcessingStart.empty_config;
    cbn [from_option ProcessingStart.rc_processing_time ProcessingStart.rc_analytics_depth
         ProcessingStart.rc_reporting_style ProcessingStart.rc_cross_validation].
  all: match goal with |- context [ProcessingStart.out_of_range (inl ?x)] =>
    assert (Hstored : exists b,
             forall w0, ProcessingStart.out_of_range (R := Response) (inl x) w0 = (Val b, w0))
      by (unfold ProcessingStart.out_of_range;
          destruct x as [z|f]; msimpl; eexists; intros w0; reflexivity) end.
  all: destruct Hstored as (b & Hrun); rewrite Hrun; msimpl.
  all: unfold logs_of, fresh_row.
  all: destruct (processing_status (db w) !! sid) as [old|] eqn:Hold;
    destruct (ambiguity_data (db w) !! sid) as [amb|] eqn:Hamb;
    repeat (msimpl; progress rewrite ?lookup_delete_eq, ?Hold, ?Hs, ?Hamb);
    rewrite sleep_quiet by done; msimpl;
    eexists _, _, _, _; (split; [reflexivity|]); msimpl;
    rewrite !lookup_insert_eq; (split; [reflexivity|]); cbn;
    repeat split; auto;
    try (intros [? [=]]); try discriminate;
    exact (filter_filter_neg (db_service.log_of sid) _).
Qed.

Lemma start_creates_a_fresh_run_witness :
  exists reply w' row,
    ProcessingStart.post (R := unit) Sample.alice "s1" None (Sample.midrun "Finance")
      = (Val (Success reply), w')
    /\ processing_status (db w') !! "s1" = Some row
    /\ fresh_row row
    /\ logs_of "s1" w' = [].
Proof.
  edestruct start_creates_a_fresh_run
    with (w := Sample.midrun "Finance") (auth := Sample.alice) (sid := "s1")
         (data := @None ProcessingStart.StartConfig)
    as (reply & w' & row & s' & H1 & H2 & H3 & H4 & _).
  - vm_compute. reflexivity.
  - repeat split; vm_compute; congruence.
  - reflexivity.
  - reflexivity.
  - exists reply, w', row. split; [exact H1|]. split; [exact H2|]. split; [exact H3|].
    apply H4. vm_compute. eexists. reflexivity.
Defined.

(** X6.  A start request whose duration is not a number (the comparison
    with the bounds raises) is answered 500 with the text of the error, and
    nothing is written: no row, no task, no change of the session. *)
Theorem start_with_a_textual_duration_fails (w : World) (auth : Auth) (sid : string)
    (s : Session) (data : option ProcessingStart.StartConfig) (type_name : string) :
  sessions (db w) !! sid = Some s ->
  owner auth s ->
  requested_time data = inr type_name ->
  ProcessingStart.post (R := unit) auth sid data w
  = (Val (Error ("Failed to start processing: '<' not supported between instances of '"
                   +:+ type_name +:+ "' and 'int'") 500 None), w).
Proof.
  intros Hs (c & uid & Hl & Hu & Hown)%owner_inv Hx.
  unfold requested_time in Hx.
  destruct data as [[[[x'|ty]|] depth style level]|]; cbn in Hx; try discriminate.
  injection Hx as <-.
  unfold ProcessingStart.post. enter Hl Hu Hs Hown.
  cbn [from_option ProcessingStart.rc_processing_time].
  unfold ProcessingStart.out_of_range. msimpl. reflexivity.
Qed.

Lemma start_with_a_textual_duration_fails_witness :
  exists message,
    ProcessingStart.post (R := unit) Sample.alice "s1" (Some textual_time_request)
      (Sample.answered "Finance")
    = (Val (Error message 500 None), Sample.answered "Finance").
Proof.
  eexists.
  eapply (start_with_a_textual_duration_fails (Sample.answered "Finance") Sample.alice "s1").
  - vm_compute. reflexivity.
  - repeat split; vm_compute; congruence.
  - reflexivity.
Defined.

(** ** Force-complete, continued *)

Lemma filter_all {A} (p : A -> bool) (l : list A) :
  Forall (fun x => p x = true) l -> List.filter p l = l.
Proof.
  induction 1 as [|x l Hx _ IH]; [reflexivity|]. cbn. rewrite Hx, IH. reflexivity.
Qed.

(** The loop that stores the canned lines, on a session that has a row. *)
Lemma dummy_logs_loop (sid : string) (logs : list string) :
  forall (w : World) (row : ProcessingStatus),
    processing_status (db w) !! sid = Some row ->
    exists w' entries,
      for_each (R := unit) logs
        (fun log_message =>
           db_service.add_processing_log sid log_message LogInfo ;! ret tt) w
      = (Val tt, w')
      /\ processing_logs (db w') = processing_logs (db w) ++ entries
      /\ List.map log_message entries = logs
      /\ Forall (fun e => db_service.log_of sid e = true /\ log_type e = LogInfo) entries
      /\ sessions (db w') = sessions (db w)
      /\ messages (db w') = messages (db w)
      /\ ambiguity_data (db w') = ambiguity_data (db w)
      /\ processing_status (db w') = processing_status (db w)
      /\ history w' = history w /\ threads w' = threads w.
Proof.
  induction logs as [|l logs IH]; intros w row Hrow.
  - exists w, []. rewrite app_nil_r. repeat split; constructor.
  - cbn [for_each]. unfold bind at 1.
    assert (Hstep : exists w1 e,
               (db_service.add_processing_log (R := unit) sid l LogInfo ;! ret tt) w
               = (Val tt, w1)
               /\ processing_logs (db w1) = processing_logs (db w) ++ [e]
               /\ log_message e = l
               /\ db_service.log_of sid e = true /\ log_type e = LogInfo
               /\ sessions (db w1) = sessions (db w)
               /\ messages (db w1) = messages (db w)
               /\ ambiguity_data (db w1) = ambiguity_data (db w)
               /\ processing_status (db w1) = processing_status (db w)
               /\ history w1 = history w /\ threads w1 = threads w).
    { msimpl. rewrite Hrow. msimpl. eexists _, _. split; [reflexivity|]. msimpl.
      repeat split; try reflexivity.
      unfold db_service.log_of. cbn. apply String.eqb_refl. }
    destruct Hstep as (w1 & e & -> & Hl1 & Hm1 & Ho1 & Ht1 & Hs1 & Hg1 & Ha1 & Hp1 & Hh1 & Hd1).
    destruct (IH w1 row) as (w' & entries & -> & Hl & Hm & Hall & Hs & Hg & Ha & Hp & Hh & Hd).
    { rewrite Hp1. exact Hrow. }
    exists w', (e :: entries). split; [reflexivity|].
    split; [rewrite Hl, Hl1, <- app_assoc; reflexivity|].
    split; [cbn; rewrite Hm1, Hm; reflexivity|].
    split; [constructor; [split; assumption | exact Hall]|].
    repeat split; congruence.
Qed.

(** X7.  Force-complete on a session with a processing row: the logs of the
    session are replaced by the canned sequence, every entry of type
    [info]; the row gets status [completed] and overall progress 100, and
    its stage list is left as it was; the session is at step [completed]
    with status [completed]. *)
Theorem force_complete_rewrites_the_logs (w : World) (auth : Auth) (sid : string)
    (s : Session) (row : ProcessingStatus) :
  sessions (db w) !! sid = Some s ->
  owner auth s ->
  processing_status (db w) !! sid = Some row ->
  exists reply w' row' s',
    ProcessingComplete.post (R := unit) auth sid w = (Val (Success reply), w')
    /\ List.map log_message (logs_of sid w') = ProcessingComplete.dummy_logs
    /\ Forall (fun e => log_type e = LogInfo) (logs_of sid w')
    /\ processing_status (db w') !! sid = Some row'
    /\ ps_status row' = PsCompleted
    /\ ps_overall_progress row' = float_of_int 100
    /\ ps_stages row' = ps_stages row
    /\ ps_current_stage row' = ps_current_stage row
    /\ is_Some (ps_completed_at row')
    /\ sessions (db w') !! sid = Some s'
    /\ sess_current_step s' = StepCompleted /\ sess_status s' = SessCompleted.
Proof.
  intros Hs (c & uid & Hl & Hu & Hown)%owner_inv Hrow.
  pose proof (dummy_logs_loop sid ProcessingComplete.dummy_logs) as Hloop.
  unfold ProcessingComplete.post. enter Hl Hu Hs Hown.
  unfold ProcessingComplete._populate_dummy_logs, logs_of.
  unfold db_service.clear_processing_logs, db_service.delete_processing_logs. msimpl.
  match goal with |- context [for_each _ _ ?w0] =>
    destruct (Hloop w0 row Hrow)
      as (w1 & entries & -> & Hlogs & Hmsg & Hall & Hs1 & Hm1 & Ha1 & Hp1 & Hh1 & Hd1) end.
  clear Hloop. msimpl.
  rewrite Hp1, Hrow. msimpl. rewrite Hs1, Hs. msimpl. rewrite lookup_insert_eq. msimpl.
  match goal with |- context [existsb ?p ?l] => destruct (existsb p l) eqn:E end;
    msimpl; eexists _, _, _, _; (split; [reflexivity|]); msimpl;
    rewrite !lookup_insert_eq, Hlogs, List.filter_app,
      (filter_filter_neg (db_service.log_of sid)),
      (filter_all (db_service.log_of sid) entries)
      by (eapply Forall_impl; [exact Hall|]; cbn; tauto);
    cbn [app];
    (split; [exact Hmsg|]);
    (split; [eapply Forall_impl; [exact Hall|]; cbn; tauto|]);
    repeat split; try reflexivity; eexists; reflexivity.
Qed.

Lemma force_complete_rewrites_the_logs_witness :
  exists reply w' row',
    ProcessingComplete.post (R := unit) Sample.alice "s1" (Sample.midrun "Finance")
      = (Val (Success reply), w')
    /\ List.map log_message (logs_of "s1" w') = ProcessingComplete.dummy_logs
    /\ processing_status (db w') !! "s1" = Some row'
    /\ ps_status row' = PsCompleted
    /\ ps_stages row' = Sample.midrun_stages.
Proof.
  edestruct force_complete_rewrites_the_logs
    with (w := Sample.midrun "Finance") (auth := Sample.alice) (sid := "s1")
    as (reply & w' & row' & s' & H1 & H2 & _ & H3 & H4 & _ & H5 & _).
  - vm_compute. reflexivity.
  - repeat split; vm_compute; congruence.
  - vm_compute. reflexivity.
  - exists reply, w', row'. split; [exact H1|]. split; [exact H2|].
    split; [exact H3|]. split; [exact H4|]. exact H5.
Defined.

(** X8.  Force-complete on a session that has no processing row still
    succeeds: no row is created and no log is stored, and the session is
    moved to step [completed] with status [completed]. *)
Theorem force_complete_without_a_run (w : World) (auth : Auth) (sid : string)
    (s : Session) :
  sessions (db w) !! sid = Some s ->
  owner auth s ->
  processing_status (db w) !! sid = None ->
  exists reply w' s',
    ProcessingComplete.post (R := unit) auth sid w = (Val (Success reply), w')
    /\ processing_status (db w') = processing_status (db w)
    /\ logs_of sid w' = []
    /\ history w' = history w
    /\ sessions (db w') !! sid = Some s'
    /\ sess_current_step s' = StepCompleted /\ sess_status s' = SessCompleted.
Proof.
  intros Hs (c & uid & Hl & Hu & Hown)%owner_inv Hrow.
  assert (Hloop : forall (logs : list string) (w0 : World),
             processing_status (db w0) !! sid = None ->
             exists n,
               for_each (R := unit) logs
                 (fun log_message =>
                    db_service.add_processing_log sid log_message LogInfo ;! ret tt) w0
               = (Val tt,
                  {| db := db w0; clock := clock w0; next_id := n; threads := threads w0;
                     sched := sched w0; history := history w0 |})).
  { induction logs as [|l logs IH]; intros w0 H0.
    - exists (next_id w0). destruct w0. reflexivity.
    - cbn [for_each]. unfold bind at 1. msimpl. rewrite H0. msimpl.
      match goal with |- context [for_each _ _ ?w1] =>
        destruct (IH w1 H0) as (n & ->) end.
      exists n. reflexivity. }
  specialize (Hloop ProcessingComplete.dummy_logs).
  unfold ProcessingComplete.post. enter Hl Hu Hs Hown.
  unfold ProcessingComplete._populate_dummy_logs, logs_of.
  unfold db_service.clear_processing_logs, db_service.delete_processing_logs. msimpl.
  match goal with |- context [for_each _ _ ?w0] =>
    destruct (Hloop w0 Hrow) as (n & ->) end.
  clear Hloop. msimpl. rewrite Hrow. msimpl. rewrite Hs. msimpl. rewrite lookup_insert_eq. msimpl.
  match goal with |- context [existsb ?p ?l] => destruct (existsb p l) eqn:E end;
    msimpl; eexists _, _, _; (split; [reflexivity|]); msimpl;
    rewrite !lookup_insert_eq;
    repeat split; try reflexivity;
    exact (filter_filter_neg (db_service.log_of sid) _).
Qed.

Lemma force_complete_without_a_run_witness :
  exists reply w',
    ProcessingComplete.post (R := unit) Sample.alice "s1" (Sample.asked "Finance")
      = (Val (Success reply), w')
    /\ processing_status (db w') = processing_status (db (Sample.asked "Finance"))
    /\ logs_of "s1" w' = [].
Proof.
  edestruct force_complete_without_a_run
    with (w := Sample.asked "Finance") (auth := Sample.alice) (sid := "s1")
    as (reply & w' & s' & H1 & H2 & H3 & _).
  - vm_compute. reflexivity.
  - repeat split; vm_compute; congruence.
  - vm_compute. reflexivity.
  - exists reply, w'. split; [exact H1|]. split; [exact H2|]. exact H3.
Defined.

(** ** The run of the simulator, continued *)

(** X9.  Without a processing row for the session and with a quiet
    environment the task returns at once, with or without an application
    context: it stores no log, writes to no row, appends no message and
    leaves every table as it was. *)
Theorem run_without_a_row_does_nothing (active : bool) (w : World) (sid : string)
    (t : pynum) :
  processing_status (db w) !! sid = None ->
  hd None (sched w) = None ->
  exists w',
    ProcessingStart._process_analytics_with_context (R := unit) active sid t w
    = (Val tt, w')
    /\ db w' = db w /\ history w' = history w /\ threads w' = threads w.
Proof.
  intros Hrow Hq.
  destruct active; [|exists w; repeat split; reflexivity].
  unfold ProcessingStart._process_analytics_with_context,
    ProcessingStart.current_app_app_context,
    ProcessingStart._process_analytics, ProcessingStart.process_analytics_body.
  msimpl. rewrite Hrow. msimpl.
  rewrite sleep_quiet by exact Hq.
  repeat (msimpl; progress rewrite ?Hrow). msimpl.
  eexists. split; [reflexivity|]. msimpl.
  repeat split; reflexivity.
Qed.

Lemma run_without_a_row_does_nothing_witness :
  exists w',
    ProcessingStart._process_analytics_with_context (R := unit) true "s1" (PInt 6)
      (Sample.asked "Finance") = (Val tt, w')
    /\ db w' = db (Sample.asked "Finance").
Proof.
  edestruct run_without_a_row_does_nothing
    with (active := true) (w := Sample.asked "Finance") (sid := "s1") (t := PInt 6)
    as (w' & H1 & H2 & _).
  - vm_compute. reflexivity.
  - reflexivity.
  - exists w'. split; [exact H1 | exact H2].
Defined.

Lemma initial_point (w : World) (sid : string) (row : ProcessingStatus) :
  processing_status (db w) !! sid = Some row ->
  length (ps_stages row) = length Config.PROCESSING_STAGES ->
  Forall (fun st => stage_progress st = float_of_int 0) (ps_stages row) ->
  at_point (writes_of sid (history w)) 0 (float_of_int 0) None (view sid w).
Proof.
  intros Hrow Hlen Hzero.
  exists row, []. unfold view. rewrite Hrow, app_nil_r.
  split; [reflexivity|]. split; [|split; [apply steady_nil|]].
  - split; [exact Hlen|]. intros i st Hi. split; [|lia].
    rewrite Forall_lookup in Hzero. rewrite (Hzero i st Hi).
    unfold shape_val. cbn. destruct (i =? 0)%nat; reflexivity.
  - split; [|reflexivity]. intros i q _ H. discriminate.
Qed.

Lemma run_done_stable : stable run_done.
Proof.
  intros row stages' ws (row0 & Heq & Hst & _) Hproc _.
  cbn in Heq. injection Heq as <-. congruence.
Qed.

Lemma finish_processing_done ws0 sid :
  triple sid (steady_since ws0)
    (at_point ws0 7 (float_of_int 0) (overall_before 7 0))
    (ProcessingStart.finish_processing sid)
    (fun _ => run_done).
Proof.
  set (P := at_point ws0 7 (float_of_int 0) (overall_before 7 0)).
  unfold ProcessingStart.finish_processing.
  eapply triple_bind with (Q := fun _ => P); [apply triple_utcnow|]. intros now.
  eapply triple_bind with (Q := fun _ => run_done).
  { eapply triple_conseq;
      [apply (triple_update_processing_status sid _ (fun _ => run_done)) | | auto].
    intros v Hv. destruct Hv as (row' & us & -> & Hshape & _). cbn [fst snd].
    eexists. split; [reflexivity|]. split; [reflexivity|]. split; [reflexivity|].
    exact Hshape. }
  intros _.
  repeat first
    [ apply triple_ret; solve [auto]
    | apply triple_add_processing_log
    | apply triple_update_session
    | apply triple_get_session
    | apply triple_add_message
    | apply triple_update_message_status
    | apply triple_sleep; exact run_done_stable
    | (eapply triple_bind with (Q := fun _ => run_done); [ | intros ? ]) ].
Qed.

Lemma process_analytics_body_done ws0 sid (t : pynum) :
  triple sid (steady_since ws0)
    (at_point ws0 0 (float_of_int 0) None)
    (ProcessingStart.process_analytics_body sid t)
    (fun _ => run_done).
Proof.
  destruct checks_ends as (E1 & E2 & E3 & E4).
  set (P := at_point ws0 0 (float_of_int 0) None).
  assert (PG : forall v, P v -> steady_since ws0 v) by (intros v; apply at_point_steady).
  assert (Hst : stable P) by (apply at_point_stable; exact E2).
  unfold ProcessingStart.process_analytics_body. cbv zeta.
  eapply triple_bind with (Q := fun _ => P); [apply triple_add_processing_log|].
  intros _.
  eapply triple_bind with (Q := fun _ => P); [apply triple_sleep; exact Hst|].
  intros _.
  eapply triple_bind with (Q := fun _ => P); [apply triple_add_processing_log|].
  intros _.
  eapply triple_bind; [apply (triple_get_processing_status sid _ P)|]. intros r.
  apply triple_conseq with (P := P) (Q := fun _ => run_done); [|tauto|auto].
  destruct r as [row|]; [|apply triple_return; exact PG].
  eapply triple_bind; [|intros ?; apply finish_processing_done].
  eapply triple_conseq;
    [apply (triple_for_each sid (steady_since ws0)
              (fun j => at_point ws0 j (float_of_int 0) (overall_before j 0)))
       with (n := 0%nat)
    | auto | auto].
  intros j [j' stage_config] Hj. cbn [Nat.add].
  unfold enumerate in Hj. rewrite list_lookup_imap in Hj.
  destruct (Config.PROCESSING_STAGES !! j) as [c|] eqn:Hc; [|discriminate].
  injection Hj as <- <-. apply process_stage_spec. exact Hc.
Qed.

(** X10.  When the body of the task, started on a row whose seven stages
    are at progress 0, runs to its end (it neither returns early nor
    raises) and the only requests served during its pauses are stop
    requests, then the row has status [completed] and overall progress 100,
    and each of its seven stages is [completed] at progress 100.  (A
    cleanup, a force-complete or a second start served meanwhile is outside
    the schedules of the model.) *)
Theorem natural_completion_completes_every_stage (w w' : World) (sid : string)
    (t : pynum) (row : ProcessingStatus) :
  processing_status (db w) !! sid = Some row ->
  length (ps_stages row) = length Config.PROCESSING_STAGES ->
  Forall (fun st => stage_progress st = float_of_int 0) (ps_stages row) ->
  ProcessingStart.process_analytics_body sid t w = (Val tt, w') ->
  exists row',
    processing_status (db w') !! sid = Some row'
    /\ ps_status row' = PsCompleted
    /\ ps_overall_progress row' = float_of_int 100
    /\ length (ps_stages row') = length Config.PROCESSING_STAGES
    /\ Forall (fun st => stage_status st = StCompleted
                         /\ stage_progress st = float_of_int 100) (ps_stages row').
Proof.
  intros Hrow Hlen Hzero Hrun.
  pose proof (process_analytics_body_done (writes_of sid (history w)) sid t w
                (initial_point w sid row Hrow Hlen Hzero)) as Hbody.
  rewrite Hrun in Hbody. destruct Hbody as (row' & Hv & Hst & Hov & Hl & Hshape).
  exists row'. split; [exact Hv|]. split; [exact Hst|]. split; [exact Hov|].
  split; [exact Hl|].
  apply Forall_lookup. intros i st Hi.
  destruct (Hshape i st Hi) as [Hp Hc].
  pose proof (lookup_lt_Some _ _ _ Hi) as Hlt. rewrite Hl in Hlt.
  split; [apply Hc; exact Hlt|].
  rewrite Hp. unfold shape_val. rewrite (proj2 (Nat.ltb_lt _ _) Hlt). reflexivity.
Qed.

Lemma natural_completion_completes_every_stage_witness :
  exists row',
    processing_status
      (db (snd (ProcessingStart.process_analytics_body "s1" (PInt 6)
                  (Sample.started "Finance")))) !! "s1" = Some row'
    /\ ps_status row' = PsCompleted
    /\ Forall (fun st => stage_status st = StCompleted
                         /\ stage_progress st = float_of_int 100) (ps_stages row').
Proof.
  edestruct natural_completion_completes_every_stage
    with (w := Sample.started "Finance") (sid := "s1") (t := PInt 6)
         (w' := snd (ProcessingStart.process_analytics_body "s1" (PInt 6)
                       (Sample.started "Finance")))
    as (row' & H1 & H2 & _ & _ & H3).
  - vm_compute. reflexivity.
  - reflexivity.
  - vm_compute. repeat constructor.
  - vm_compute. reflexivity.
  - exists row'. split; [exact H1|]. split; [exact H2 | exact H3].
Defined.

(** ** Ambiguity resolution, continued *)

(** What one call of the extension does, table by table. *)
Lemma continue_run (w : World) (auth : Auth) (sid : string) (s : Session)
    (a : AmbiguityData) :
  sessions (db w) !! sid = Some s ->
  owner auth s ->
  ambiguity_data (db w) !! sid = Some a ->
  exists data w' s' a',
    AmbiguityResolve.post (R := unit) auth sid continue_resolving w = (Val (Success data), w')
    /\ sessions (db w') !! sid = Some s'
    /\ sess_current_step s' = StepAmbiguity
    /\ sess_status s' = sess_status s
    /\ ambiguity_data (db w') !! sid = Some a'
    /\ amb_questions a'
       = AmbiguityResolve.extend_questions (dict_fromkeys (amb_questions a))
           Config.ADDITIONAL_QUESTIONS (initial_count (sess_domain s))
    /\ amb_answers a' = amb_answers a
    /\ amb_status a' = AmbActive
    /\ processing_status (db w') = processing_status (db w)
    /\ length (messages (db w')) = length (messages (db w)).
Proof.
  intros Hs (Hl & Hu & Hne) Ha.
  unfold AmbiguityResolve.post, continue_resolving.
  msimpl. rewrite Hl, Hu. msimpl.
  destruct (sess_user_id s) as [|c0 uid] eqn:Hown; [done|].
  rewrite Hs. msimpl. rewrite Hown.
  rewrite bool_decide_eq_true_2 by done. msimpl.
  rewrite bool_decide_eq_false_2 by discriminate.
  rewrite bool_decide_eq_true_2 by reflexivity.
  unfold AmbiguityResolve._continue_resolving. msimpl.
  destruct (clean_duplicate_questions_run (R := Response) w sid (sess_domain s) a Ha)
    as (a1 & -> & Hq & Hans & _).
  repeat (msimpl; progress rewrite ?lookup_insert_eq, ?Hs).
  rewrite ?Hq, ?Hans. fold (initial_count (sess_domain s)). mproj.
  set (ext := AmbiguityResolve.extend_questions (dict_fromkeys (amb_questions a))
                Config.ADDITIONAL_QUESTIONS (initial_count (sess_domain s))).
  assert (Hq' : exists q : string,
            forall w1 : World,
              (if (length (amb_answers a) <? length ext)%nat
               then list_index (R := Response) ext (length (amb_answers a))
               else ret "What additional analysis details would you like to specify?")
                w1 = (Val q, w1)).
  { destruct (length (amb_answers a) <? length ext)%nat eqn:E.
    - apply Nat.ltb_lt, lookup_lt_is_Some in E. destruct E as (q & E).
      exists q. intros w1. unfold list_index. rewrite E. reflexivity.
    - eexists. intros w1. reflexivity. }
  destruct Hq' as (q & Hq').
  unfold list_index in Hq'. unfold ret in Hq'. rewrite Hq'. msimpl.
  unfold AmbiguityResolve._update_ambiguity_message, update_ambiguity_message. msimpl.
  assert (Hlen : forall (p : Message -> bool) (f : Message -> Message) (l : list Message),
             length (update_first p f l) = length l).
  { intros p f l. induction l as [|x l IH]; [reflexivity|]. cbn.
    destruct (p x); cbn; [reflexivity | rewrite IH; reflexivity]. }
  destruct (List.find _ _); msimpl;
    eexists _, _, _, _; (split; [reflexivity|]); msimpl;
    rewrite !lookup_insert_eq; repeat split; cbn; try reflexivity; try assumption;
    apply Hlen.
Qed.

Lemma dict_fromkeys_prefix_extend (c add : list string) (n : nat) :
  c `prefix_of` AmbiguityResolve.extend_questions c add n.
Proof.
  unfold AmbiguityResolve.extend_questions.
  destruct (length c <=? n)%nat; [apply prefix_app_r | ]; reflexivity.
Qed.

(** X11.  Asking for more questions reopens the resolution: the session is
    back at step [ambiguity], the ambiguity data is [active] again with the
    answers given so far, its questions start with the earlier questions
    (duplicates dropped, first occurrences in order) and any question added
    is one of the configured additional ones; no message is added and the
    processing row is not touched. *)
Theorem continue_resolving_reopens_the_questions (w : World) (auth : Auth) (sid : string)
    (s : Session) (a : AmbiguityData) :
  sessions (db w) !! sid = Some s ->
  owner auth s ->
  ambiguity_data (db w) !! sid = Some a ->
  exists data w' s' a',
    AmbiguityResolve.post (R := unit) auth sid continue_resolving w = (Val (Success data), w')
    /\ sessions (db w') !! sid = Some s'
    /\ sess_current_step s' = StepAmbiguity
    /\ ambiguity_data (db w') !! sid = Some a'
    /\ amb_status a' = AmbActive
    /\ amb_answers a' = amb_answers a
    /\ dict_fromkeys (amb_questions a) `prefix_of` amb_questions a'
    /\ (forall q, q ∈ amb_questions a' ->
          q ∈ amb_questions a \/ q ∈ Config.ADDITIONAL_QUESTIONS)
    /\ processing_status (db w') = processing_status (db w)
    /\ length (messages (db w')) = length (messages (db w)).
Proof.
  intros Hs Hown Ha.
  destruct (continue_run w auth sid s a Hs Hown Ha)
    as (data & w' & s' & a' & H1 & H2 & H3 & _ & H4 & H5 & H6 & H7 & H8 & H9).
  exists data, w', s', a'. repeat split; try assumption.
  - rewrite H5. apply dict_fromkeys_prefix_extend.
  - intros q Hq. rewrite H5 in Hq. unfold AmbiguityResolve.extend_questions in Hq.
    assert (Hin : forall x, x ∈ dict_fromkeys (amb_questions a) -> x ∈ amb_questions a).
    { intros x Hx. unfold dict_fromkeys in Hx.
      assert (Hgen : forall l acc, x ∈ fold_left
                (fun d k => if bool_decide (k ∈ d) then d else d ++ [k]) l acc ->
                x ∈ acc \/ x ∈ l).
      { induction l as [|k l IH]; intros acc Hacc; cbn in Hacc; [left; exact Hacc|].
        apply IH in Hacc as [Hacc|Hacc]; [|right; right; exact Hacc].
        destruct (bool_decide (k ∈ acc)); [left; exact Hacc|].
        apply elem_of_app in Hacc as [Hacc|Hacc]; [left; exact Hacc|].
        apply list_elem_of_singleton in Hacc as ->. right. left. }
      apply Hgen in Hx as [Hx|Hx]; [inversion Hx | exact Hx]. }
    destruct (_ <=? _)%nat; [|left; apply Hin, Hq].
    apply elem_of_app in Hq as [Hq|Hq]; [left; apply Hin, Hq|].
    right. apply list_elem_of_In, filter_In in Hq as [Hq _].
    apply list_elem_of_In. exact Hq.
Qed.

Lemma continue_resolving_reopens_the_questions_witness :
  exists data w' a',
    AmbiguityResolve.post (R := unit) Sample.alice "s1" continue_resolving
      (Sample.answered "Finance") = (Val (Success data), w')
    /\ ambiguity_data (db w') !! "s1" = Some a'
    /\ amb_status a' = AmbActive
    /\ amb_answers a' = [ "geographic regions"; "CAC and LTV" ].
Proof.
  edestruct continue_resolving_reopens_the_questions
    with (w := Sample.answered "Finance") (auth := Sample.alice) (sid := "s1")
    as (data & w' & s' & a' & H1 & _ & _ & H2 & H3 & H4 & _).
  - vm_compute. reflexivity.
  - repeat split; vm_compute; congruence.
  - vm_compute. reflexivity.
  - exists data, w', a'. split; [exact H1|]. split; [exact H2|]. split; [exact H3|].
    rewrite H4. reflexivity.
Defined.

Lemma configured_questions_fit :
  Forall (fun qs => qs <> [] /\ NoDup qs
                    /\ Forall (fun q => q ∉ qs) Config.ADDITIONAL_QUESTIONS)
         configured_questions.
Proof.
  apply (bool_decide_unpack _). vm_compute. exact I.
Qed.

Lemma filter_keeps_all (c add : list string) :
  Forall (fun q => q ∉ c) add ->
  List.filter (fun q => negb (bool_decide (q ∈ c))) add = add.
Proof.
  intros H. apply filter_all. eapply Forall_impl; [exact H|].
  intros q Hq. cbn. rewrite bool_decide_eq_false_2 by exact Hq. reflexivity.
Qed.

(** X12.  For a session of a configured domain that still has the
    questions of its first query, asking for more questions stores these
    questions followed by the three additional questions of the
    configuration. *)
Theorem first_extension_adds_the_additional_questions (w : World) (auth : Auth)
    (sid : string) (s : Session) (a : AmbiguityData) :
  sessions (db w) !! sid = Some s ->
  owner auth s ->
  ambiguity_data (db w) !! sid = Some a ->
  In (sess_domain s) (List.map fst Config.DOMAIN_AMBIGUITY_QUESTIONS) ->
  amb_questions a = dict_get Config.DOMAIN_AMBIGUITY_QUESTIONS (sess_domain s) [] ->
  exists data w' a',
    AmbiguityResolve.post (R := unit) auth sid continue_resolving w = (Val (Success data), w')
    /\ ambiguity_data (db w') !! sid = Some a'
    /\ amb_questions a' = amb_questions a ++ Config.ADDITIONAL_QUESTIONS
    /\ length (amb_questions a') = (length (amb_questions a) + 3)%nat.
Proof.
  intros Hs Hown Ha Hdom Hqs.
  destruct (continue_run w auth sid s a Hs Hown Ha)
    as (data & w' & s' & a' & H1 & _ & _ & _ & H4 & H5 & _).
  assert (Hfit : NoDup (amb_questions a)
                 /\ Forall (fun q => q ∉ amb_questions a) Config.ADDITIONAL_QUESTIONS).
  { pose proof configured_questions_fit as Hall. rewrite Forall_forall in Hall.
    assert (Hin : In (amb_questions a) configured_questions).
    { rewrite Hqs. unfold configured_questions.
      clear -Hdom. induction Config.DOMAIN_AMBIGUITY_QUESTIONS as [|[k v] d IH];
        [destruct Hdom|].
      cbn [dict_get List.map snd]. destruct (String.eqb_spec k (sess_domain s)) as [E|E].
      - left. reflexivity.
      - right. apply IH. destruct Hdom as [Hd|Hd]; [cbn in Hd; congruence | exact Hd]. }
    apply list_elem_of_In in Hin. destruct (Hall _ Hin) as (_ & Hnd & Hadd).
    split; assumption. }
  destruct Hfit as [Hnd Hadd].
  assert (Hext : amb_questions a' = amb_questions a ++ Config.ADDITIONAL_QUESTIONS).
  { rewrite H5. unfold AmbiguityResolve.extend_questions, initial_count.
    rewrite dict_fromkeys_id by exact Hnd. rewrite <- Hqs.
    rewrite (proj2 (Nat.leb_le _ _)) by lia.
    rewrite filter_keeps_all by exact Hadd. reflexivity. }
  exists data, w', a'. split; [exact H1|]. split; [exact H4|]. split; [exact Hext|].
  rewrite Hext, length_app. reflexivity.
Qed.

Lemma first_extension_adds_the_additional_questions_witness :
  exists data w' a',
    AmbiguityResolve.post (R := unit) Sample.alice "s1" continue_resolving
      (Sample.answered "Finance") = (Val (Success data), w')
    /\ ambiguity_data (db w') !! "s1" = Some a'
    /\ length (amb_questions a') = 5%nat.
Proof.
  edestruct first_extension_adds_the_additional_questions
    with (w := Sample.answered "Finance") (auth := Sample.alice) (sid := "s1")
    as (data & w' & a' & H1 & H2 & _ & H3).
  - vm_compute. reflexivity.
  - repeat split; vm_compute; congruence.
  - vm_compute. reflexivity.
  - vm_compute. left. reflexivity.
  - reflexivity.
  - exists data, w', a'. split; [exact H1|]. split; [exact H2|]. rewrite H3. reflexivity.
Defined.

(** X13.  For a session of a domain the configuration does not list and
    with at least one stored question, asking for more questions adds none:
    the count the extension compares with is taken with an empty fallback,
    so the stored questions are only cleaned of duplicates. *)
Theorem unlisted_domain_is_never_extended (w : World) (auth : Auth) (sid : string)
    (s : Session) (a : AmbiguityData) :
  sessions (db w) !! sid = Some s ->
  owner auth s ->
  ambiguity_data (db w) !! sid = Some a ->
  ~ In (sess_domain s) (List.map fst Config.DOMAIN_AMBIGUITY_QUESTIONS) ->
  amb_questions a <> [] ->
  exists data w' a',
    AmbiguityResolve.post (R := unit) auth sid continue_resolving w = (Val (Success data), w')
    /\ ambiguity_data (db w') !! sid = Some a'
    /\ amb_questions a' = dict_fromkeys (amb_questions a).
Proof.
  intros Hs Hown Ha Hdom Hne.
  destruct (continue_run w auth sid s a Hs Hown Ha)
    as (data & w' & s' & a' & H1 & _ & _ & _ & H4 & H5 & _).
  exists data, w', a'. split; [exact H1|]. split; [exact H4|].
  rewrite H5. unfold AmbiguityResolve.extend_questions, initial_count.
  rewrite dict_get_default by exact Hdom. cbn [length].
  destruct (dict_fromkeys (amb_questions a)) as [|q l] eqn:E; [|reflexivity].
  exfalso. apply Hne.
  destruct (amb_questions a) as [|x l']; [reflexivity|].
  assert (Hx : x ∈ dict_fromkeys (x :: l')).
  { unfold dict_fromkeys. cbn.
    assert (Hgen : forall l acc, x ∈ acc -> x ∈ fold_left
              (fun d k => if bool_decide (k ∈ d) then d else d ++ [k]) l acc).
    { induction l as [|k l0 IH]; intros acc Hacc; [exact Hacc|]. cbn. apply IH.
      destruct (bool_decide (k ∈ acc)); [exact Hacc|]. apply elem_of_app. left. exact Hacc. }
    apply Hgen. left. }
  rewrite E in Hx. inversion Hx.
Qed.

Lemma unlisted_domain_is_never_extended_witness :
  exists data w' a',
    AmbiguityResolve.post (R := unit) Sample.alice "s1" continue_resolving asked_unlisted
      = (Val (Success data), w')
    /\ ambiguity_data (db w') !! "s1" = Some a'
    /\ length (amb_questions a') = 2%nat.
Proof.
  edestruct unlisted_domain_is_never_extended
    with (w := asked_unlisted) (auth := Sample.alice) (sid := "s1")
    as (data & w' & a' & H1 & H2 & H3).
  - vm_compute. reflexivity.
  - repeat split; vm_compute; congruence.
  - vm_compute. reflexivity.
  - vm_compute. intros H. repeat (destruct H as [H|H]; [discriminate H|]). exact H.
  - vm_compute. discriminate.
  - exists data, w', a'. split; [exact H1|]. split; [exact H2|]. rewrite H3. reflexivity.
Defined.

(** X14.  The action [start_analysis] only moves the state machine: the
    session goes to step [processing] and the ambiguity data, when there is
    one, is marked [completed] with its questions, answers and index kept.
    It creates no processing row, records no background task and adds no
    message or log: the run itself is started by the processing endpoint. *)
Theorem start_analysis_only_moves_the_step (w : World) (auth : Auth) (sid : string)
    (s : Session) :
  sessions (db w) !! sid = Some s ->
  owner auth s ->
  exists w' s',
    AmbiguityResolve.post (R := unit) auth sid start_analysis w
      = (Val (Success [ ("message", JStr "Analysis started");
                        ("session_step", JStr "processing") ]), w')
    /\ sessions (db w') !! sid = Some s'
    /\ sess_current_step s' = StepProcessing
    /\ sess_status s' = sess_status s
    /\ (forall a, ambiguity_data (db w) !! sid = Some a ->
          exists a', ambiguity_data (db w') !! sid = Some a'
                     /\ amb_status a' = AmbCompleted
                     /\ is_Some (amb_completed_at a')
                     /\ amb_questions a' = amb_questions a
                     /\ amb_answers a' = amb_answers a
                     /\ amb_current_question_index a' = amb_current_question_index a)
    /\ (ambiguity_data (db w) !! sid = None ->
        ambiguity_data (db w') = ambiguity_data (db w))
    /\ processing_status (db w') = processing_status (db w)
    /\ processing_logs (db w') = processing_logs (db w)
    /\ messages (db w') = messages (db w)
    /\ threads w' = threads w
    /\ history w' = history w.
Proof.
  intros Hs (c & uid & Hl & Hu & Hown)%owner_inv.
  unfold AmbiguityResolve.post, start_analysis. enter Hl Hu Hs Hown.
  rewrite bool_decide_eq_true_2 by reflexivity.
  unfold AmbiguityResolve._start_analysis. msimpl. rewrite Hs. msimpl.
  destruct (ambiguity_data (db w) !! sid) as [a|] eqn:Ha; msimpl;
    eexists _, _; (split; [reflexivity|]); msimpl;
    rewrite !lookup_insert_eq; repeat split; try reflexivity; try discriminate.
  - intros a0 [= <-]. eexists. split; [reflexivity|]. cbn.
    repeat split; try reflexivity. eexists. reflexivity.
Qed.

Lemma start_analysis_only_moves_the_step_witness :
  exists w' s',
    AmbiguityResolve.post (R := unit) Sample.alice "s1" start_analysis
      (Sample.answered "Finance")
      = (Val (Success [ ("message", JStr "Analysis started");
                        ("session_step", JStr "processing") ]), w')
    /\ sessions (db w') !! "s1" = Some s'
    /\ sess_current_step s' = StepProcessing
    /\ processing_status (db w') = processing_status (db (Sample.answered "Finance"))
    /\ threads w' = threads (Sample.answered "Finance").
Proof.
  edestruct start_analysis_only_moves_the_step
    with (w := Sample.answered "Finance") (auth := Sample.alice) (sid := "s1")
    as (w' & s' & H1 & H2 & H3 & _ & _ & _ & H4 & _ & _ & H5 & _).
  - vm_compute. reflexivity.
  - repeat split; vm_compute; congruence.
  - exists w', s'. repeat split; assumption.
Defined.

(** X15.  Cleanup removes the ambiguity data, the processing row and the
    logs of the session and nothing else: the rows of other sessions, the
    session itself and its messages stay.  Afterwards the questions
    endpoint and the answer endpoint answer 404 for the session. *)
Theorem cleanup_removes_the_data_of_the_session (w : World) (auth : Auth) (sid : string)
    (s : Session) :
  sessions (db w) !! sid = Some s ->
  owner auth s ->
  exists w',
    AmbiguityCleanup.post (R := unit) auth sid w
      = (Val (Success [ ("message", JStr ("Cleaned all data for session " +:+ sid));
                        ("session_id", JStr sid) ]), w')
    /\ ambiguity_data (db w') = delete sid (ambiguity_data (db w))
    /\ processing_status (db w') = delete sid (processing_status (db w))
    /\ logs_of sid w' = []
    /\ sessions (db w') = sessions (db w)
    /\ messages (db w') = messages (db w)
    /\ AmbiguityQuestions.get (R := unit) auth sid w'
       = (Val (Error "No ambiguity data found" 404 None), w')
    /\ (forall answer,
          strip answer <> EmptyString ->
          AmbiguityAnswer.post (R := unit) auth sid (Some (single_body (Some answer))) w'
          = (Val (Error "No ambiguity data found" 404 None), w')).
Proof.
  intros Hs (c & uid & Hl & Hu & Hown)%owner_inv.
  assert (Hw' : exists w',
             AmbiguityCleanup.post (R := unit) auth sid w
             = (Val (Success [ ("message", JStr ("Cleaned all data for session " +:+ sid));
                               ("session_id", JStr sid) ]), w')
             /\ ambiguity_data (db w') = delete sid (ambiguity_data (db w))
             /\ processing_status (db w') = delete sid (processing_status (db w))
             /\ logs_of sid w' = []
             /\ sessions (db w') = sessions (db w)
             /\ messages (db w') = messages (db w)).
  { unfold AmbiguityCleanup.post, logs_of. enter Hl Hu Hs Hown.
    unfold db_service.delete_processing_logs.
    destruct (ambiguity_data (db w) !! sid) as [a|] eqn:Ha;
      destruct (processing_status (db w) !! sid) as [row|] eqn:Hrow;
      repeat (msimpl; progress rewrite ?Ha, ?Hrow);
      eexists; (split; [reflexivity|]); msimpl;
      rewrite ?(delete_id _ _ Ha), ?(delete_id _ _ Hrow);
      repeat split; try reflexivity;
      exact (filter_filter_neg (db_service.log_of sid) _). }
  destruct Hw' as (w' & Hrun & Hamb & Hps & Hlogs & Hsess & Hmsgs).
  exists w'. do 6 (split; [assumption|]).
  assert (Hs' : sessions (db w') !! sid = Some s) by (rewrite Hsess; exact Hs).
  assert (Hnone : ambiguity_data (db w') !! sid = None)
    by (rewrite Hamb; apply lookup_delete_eq).
  split.
  - unfold AmbiguityQuestions.get. enter Hl Hu Hs' Hown. rewrite Hnone. reflexivity.
  - intros answer Hanswer. unfold AmbiguityAnswer.post, single_body.
    enter Hl Hu Hs' Hown.
    cbn [AmbiguityAnswer.body_answers AmbiguityAnswer.body_answer from_option].
    destruct (String.eqb_spec (strip answer) EmptyString) as [E|_]; [done|].
    unfold AmbiguityAnswer._handle_single_answer. msimpl. rewrite Hnone. reflexivity.
Qed.

Lemma cleanup_removes_the_data_of_the_session_witness :
  exists w',
    fst (AmbiguityCleanup.post (R := unit) Sample.alice "s1" (Sample.midrun "Finance"))
      = Val (Success [ ("message", JStr "Cleaned all data for session s1");
                       ("session_id", JStr "s1") ])
    /\ w' = snd (AmbiguityCleanup.post (R := unit) Sample.alice "s1"
                   (Sample.midrun "Finance"))
    /\ ambiguity_data (db w') !! "s1" = None
    /\ processing_status (db w') !! "s1" = None.
Proof.
  edestruct cleanup_removes_the_data_of_the_session
    with (w := Sample.midrun "Finance") (auth := Sample.alice) (sid := "s1")
    as (w' & H1 & H2 & H3 & _).
  - vm_compute. reflexivity.
  - repeat split; vm_compute; congruence.
  - exists w'. rewrite H1. split; [reflexivity|]. split; [reflexivity|].
    rewrite H2, H3. split; apply lookup_delete_eq.
Defined.

(** X16.  Confirming the context marks the ambiguity data [confirmed] and
    stamps its completion, with questions, answers and index kept; the
    session is not moved.  When the session has no ambiguity data the
    request is still answered with success, and no table is changed. *)
Theorem context_confirmation_marks_the_data (w : World) (auth : Auth) (sid : string)
    (s : Session) :
  sessions (db w) !! sid = Some s ->
  owner auth s ->
  exists w',
    AmbiguityContext.post (R := unit) auth sid w
      = (Val (Success [ ("message", JStr "Context confirmed");
                        ("status", JStr "confirmed") ]), w')
    /\ (forall a, ambiguity_data (db w) !! sid = Some a ->
          exists a', ambiguity_data (db w') = <[sid := a']> (ambiguity_data (db w))
                     /\ amb_status a' = AmbConfirmed
                     /\ amb_completed_at a' = Some (clock w)
                     /\ amb_questions a' = amb_questions a
                     /\ amb_answers a' = amb_answers a
                     /\ amb_current_question_index a' = amb_current_question_index a)
    /\ (ambiguity_data (db w) !! sid = None -> db w' = db w)
    /\ sessions (db w') = sessions (db w)
    /\ messages (db w') = messages (db w)
    /\ processing_status (db w') = processing_status (db w).
Proof.
  intros Hs (c & uid & Hl & Hu & Hown)%owner_inv.
  unfold AmbiguityContext.post. enter Hl Hu Hs Hown.
  destruct (ambiguity_data (db w) !! sid) as [a|] eqn:Ha; msimpl;
    eexists; (split; [reflexivity|]); msimpl;
    repeat split; try reflexivity; try discriminate.
  - intros a0 [= <-]. eexists. split; [reflexivity|]. repeat split; reflexivity.
Qed.

Lemma context_confirmation_marks_the_data_witness :
  exists w',
    AmbiguityContext.post (R := unit) Sample.alice "s1" (Sample.fresh "Finance")
      = (Val (Success [ ("message", JStr "Context confirmed");
                        ("status", JStr "confirmed") ]), w')
    /\ db w' = db (Sample.fresh "Finance").
Proof.
  edestruct context_confirmation_marks_the_data
    with (w := Sample.fresh "Finance") (auth := Sample.alice) (sid := "s1")
    as (w' & H1 & _ & H2 & _).
  - vm_compute. reflexivity.
  - repeat split; vm_compute; congruence.
  - exists w'. split; [exact H1|]. apply H2. vm_compute. reflexivity.
Defined.

(** ** Answers, continued *)

(** X17.  After a successful submission on either path the stored index is
    the number of stored answers; and after a successful batch submission
    there are never more answers than questions. *)
Theorem submission_keeps_the_index_on_the_answers (w w' : World) (sid : string)
    (data : list (string * json)) :
  (forall answer,
     AmbiguityAnswer._handle_single_answer sid answer w = (Val (Success data), w') ->
     exists row, ambiguity_data (db w') !! sid = Some row
       /\ amb_current_question_index row = length (amb_answers row))
  /\ (forall answers,
        AmbiguityAnswer._handle_batch_answers sid answers w = (Val (Success data), w') ->
        exists row, ambiguity_data (db w') !! sid = Some row
          /\ amb_current_question_index row = length (amb_answers row)
          /\ (length (amb_answers row) <= length (amb_questions row))%nat).
Proof.
  split.
  - intros answer H. exact (single_answer_index w sid answer data w' H).
  - intros answers H. exact (batch_answers_index_and_bound w sid answers data w' H).
Qed.

(** X18.  A submission that carries no usable answer is refused with 400
    before the ambiguity data is read: a missing body, an empty array, an
    array of blank strings, a blank or missing single answer.  Nothing is
    written. *)
Theorem blank_submissions_are_refused (w : World) (auth : Auth) (sid : string)
    (s : Session) :
  sessions (db w) !! sid = Some s ->
  owner auth s ->
  AmbiguityAnswer.post (R := unit) auth sid None w
    = (Val (Error "No data provided" 400 None), w)
  /\ AmbiguityAnswer.post (R := unit) auth sid (Some (blank_batch [])) w
     = (Val (Error "Answers array is required" 400 None), w)
  /\ (forall answers,
        answers <> [] ->
        Forall (fun x => strip x = EmptyString) answers ->
        AmbiguityAnswer.post (R := unit) auth sid (Some (blank_batch answers)) w
        = (Val (Error "At least one valid answer is required" 400 None), w))
  /\ (forall answer,
        strip (default EmptyString answer) = EmptyString ->
        AmbiguityAnswer.post (R := unit) auth sid (Some (single_body answer)) w
        = (Val (Error "Answer is required" 400 None), w)).
Proof.
  intros Hs (c & uid & Hl & Hu & Hown)%owner_inv.
  repeat split.
  - unfold AmbiguityAnswer.post. enter Hl Hu Hs Hown. reflexivity.
  - unfold AmbiguityAnswer.post, blank_batch. enter Hl Hu Hs Hown. reflexivity.
  - intros answers Hne Hall. unfold AmbiguityAnswer.post, blank_batch.
    enter Hl Hu Hs Hown. cbn [AmbiguityAnswer.body_answers].
    destruct answers as [|x l]; [done|].
    assert (E : List.filter (fun s0 => negb (String.eqb s0 EmptyString))
                  (List.map strip (x :: l)) = []).
    { clear -Hall. induction Hall as [|y l' Hy _ IH]; [reflexivity|].
      cbn. rewrite Hy. cbn. exact IH. }
    rewrite E. reflexivity.
  - intros answer Hanswer. unfold AmbiguityAnswer.post, single_body.
    enter Hl Hu Hs Hown.
    cbn [AmbiguityAnswer.body_answers AmbiguityAnswer.body_answer].
    cbn [default from_option] in Hanswer |- *.
    destruct answer as [x|]; cbn [default from_option] in Hanswer |- *;
      rewrite Hanswer; reflexivity.
Qed.

Lemma blank_submissions_are_refused_witness :
  AmbiguityAnswer.post (R := unit) Sample.alice "s1" (Some (blank_batch [ "  "; "" ]))
    (Sample.asked "Finance")
  = (Val (Error "At least one valid answer is required" 400 None), Sample.asked "Finance").
Proof.
  edestruct blank_submissions_are_refused
    with (w := Sample.asked "Finance") (auth := Sample.alice) (sid := "s1")
    as (_ & _ & H & _).
  - vm_compute. reflexivity.
  - repeat split; vm_compute; congruence.
  - apply H; [discriminate|]. repeat constructor.
Defined.

(** ** Messages, continued *)

(** X19.  A message without a body, without content or with blank content
    is refused with 400 before the handler pauses; nothing is stored. *)
Theorem blank_messages_are_refused (w : World) (auth : Auth) (sid : string)
    (s : Session) :
  sessions (db w) !! sid = Some s ->
  owner auth s ->
  MessagesCreate.post (R := unit) auth sid None w
    = (Val (Error "No data provided" 400 None), w)
  /\ (forall content,
        strip (default EmptyString content) = EmptyString ->
        MessagesCreate.post (R := unit) auth sid (Some content) w
        = (Val (Error "Message content is required" 400 None), w)).
Proof.
  intros Hs (c & uid & Hl & Hu & Hown)%owner_inv.
  split.
  - unfold MessagesCreate.post. enter Hl Hu Hs Hown. reflexivity.
  - intros content Hc. unfold MessagesCreate.post. enter Hl Hu Hs Hown.
    destruct content as [x|]; cbn [default from_option] in Hc |- *;
      rewrite Hc; reflexivity.
Qed.

Lemma blank_messages_are_refused_witness :
  MessagesCreate.post (R := unit) Sample.alice "s1" (Some (Some "   "))
    (Sample.fresh "Finance")
  = (Val (Error "Message content is required" 400 None), Sample.fresh "Finance").
Proof.
  edestruct blank_messages_are_refused
    with (w := Sample.fresh "Finance") (auth := Sample.alice) (sid := "s1") as [_ H].
  - vm_compute. reflexivity.
  - repeat split; vm_compute; congruence.
  - apply H. reflexivity.
Defined.

(** A message at a step that has no handler of its own. *)
Lemma plain_message_run (w : World) (auth : Auth) (sid content : string) (s : Session) :
  sessions (db w) !! sid = Some s ->
  owner auth s ->
  sess_current_step s = StepAmbiguity \/ sess_current_step s = StepContext
  \/ sess_current_step s = StepProcessing ->
  strip content <> EmptyString ->
  hd None (sched w) = None ->
  exists m w' t,
    MessagesCreate.post (R := unit) auth sid (Some (Some content)) w
      = (Val (Success [("messages", JMessages [m]); ("session_updated", JBool true)]), w')
    /\ msg_type m = MsgUser /\ msg_content m = strip content /\ msg_session_id m = sid
    /\ msg_status m = Some MsgCompleted
    /\ messages (db w') = messages (db w) ++ [m]
    /\ sessions (db w') = <[sid := db_service.touch t s]> (sessions (db w))
    /\ ambiguity_data (db w') = ambiguity_data (db w)
    /\ processing_status (db w') = processing_status (db w)
    /\ processing_logs (db w') = processing_logs (db w)
    /\ conversation_cycles (db w') = conversation_cycles (db w)
    /\ history w' = history w /\ threads w' = threads w.
Proof.
  intros Hs (c & uid & Hl & Hu & Hown)%owner_inv Hstep Hc Hq.
  unfold MessagesCreate.post. enter Hl Hu Hs Hown.
  destruct (String.eqb (strip content) EmptyString) eqn:E.
  { apply String.eqb_eq in E. done. }
  rewrite sleep_quiet by done. msimpl.
  rewrite Hs. msimpl.
  destruct Hstep as [Hstep|[Hstep|Hstep]]; rewrite Hstep;
    unfold MessagesCreate._handle_ambiguity_response; msimpl;
    eexists _, _, _; (split; [reflexivity|]); msimpl;
    repeat split; reflexivity.
Qed.

(** X20.  At the steps [context] and [processing] a message is stored and
    nothing else happens: the user's message is appended and the session is
    stamped; step, ambiguity data, processing row, logs and cycles are left
    as they were, and no reply is produced. *)
Theorem messages_during_context_and_processing (w : World) (auth : Auth)
    (sid content : string) (s : Session) :
  sessions (db w) !! sid = Some s ->
  owner auth s ->
  sess_current_step s = StepContext \/ sess_current_step s = StepProcessing ->
  strip content <> EmptyString ->
  hd None (sched w) = None ->
  exists m w' s',
    MessagesCreate.post (R := unit) auth sid (Some (Some content)) w
      = (Val (Success [("messages", JMessages [m]); ("session_updated", JBool true)]), w')
    /\ msg_type m = MsgUser /\ msg_content m = strip content
    /\ messages (db w') = messages (db w) ++ [m]
    /\ sessions (db w') !! sid = Some s'
    /\ sess_current_step s' = sess_current_step s
    /\ sess_status s' = sess_status s
    /\ ambiguity_data (db w') = ambiguity_data (db w)
    /\ processing_status (db w') = processing_status (db w)
    /\ processing_logs (db w') = processing_logs (db w)
    /\ conversation_cycles (db w') = conversation_cycles (db w).
Proof.
  intros Hs Hown Hstep Hc Hq.
  assert (Hstep' : sess_current_step s = StepAmbiguity
                   \/ sess_current_step s = StepContext
                   \/ sess_current_step s = StepProcessing) by tauto.
  destruct (plain_message_run w auth sid content s Hs Hown Hstep' Hc Hq) as
    (m & w' & t & H1 & H2 & H3 & _ & _ & H4 & H5 & H6 & H7 & H8 & H9 & _).
  exists m, w', (db_service.touch t s). split; [exact H1|].
  split; [exact H2|]. split; [exact H3|]. split; [exact H4|].
  split; [rewrite H5; apply lookup_insert_eq|].
  repeat split; assumption.
Qed.

Lemma messages_during_context_and_processing_witness :
  exists m w',
    MessagesCreate.post (R := unit) Sample.alice "s1" (Some (Some "any news?"))
      (Sample.midrun "Finance")
      = (Val (Success [("messages", JMessages [m]); ("session_updated", JBool true)]), w')
    /\ messages (db w') = messages (db (Sample.midrun "Finance")) ++ [m]
    /\ processing_status (db w') = processing_status (db (Sample.midrun "Finance")).
Proof.
  edestruct messages_during_context_and_processing
    with (w := Sample.midrun "Finance") (auth := Sample.alice) (sid := "s1")
         (content := "any news?")
    as (m & w' & s' & H1 & _ & _ & H2 & _ & _ & _ & _ & H3 & _).
  - vm_compute. reflexivity.
  - repeat split; vm_compute; congruence.
  - right. reflexivity.
  - vm_compute. discriminate.
  - reflexivity.
  - exists m, w'. repeat split; assumption.
Defined.

(** X21.  A message that was stored is listed: after a message at one of
    the steps [ambiguity], [context] or [processing], the message list of
    the session is the earlier list followed by the new message, and the
    count is one more. *)
Theorem stored_message_is_listed_last (w : World) (auth : Auth) (sid content : string)
    (s : Session) :
  sessions (db w) !! sid = Some s ->
  owner auth s ->
  sess_current_step s = StepAmbiguity \/ sess_current_step s = StepContext
  \/ sess_current_step s = StepProcessing ->
  strip content <> EmptyString ->
  hd None (sched w) = None ->
  exists m w' earlier,
    MessagesList.get (R := unit) auth sid w
      = (Val (Success [ ("messages", JMessages earlier);
                        ("total_count", JNat (length earlier)) ]), w)
    /\ MessagesCreate.post (R := unit) auth sid (Some (Some content)) w
       = (Val (Success [("messages", JMessages [m]); ("session_updated", JBool true)]), w')
    /\ MessagesList.get (R := unit) auth sid w'
       = (Val (Success [ ("messages", JMessages (earlier ++ [m]));
                         ("total_count", JNat (S (length earlier))) ]), w').
Proof.
  intros Hs Hown Hstep Hc Hq.
  destruct (plain_message_run w auth sid content s Hs Hown Hstep Hc Hq) as
    (m & w' & t & H1 & _ & _ & Hsid & _ & Hm & Hsess & _).
  destruct (owner_inv _ _ Hown) as (c & uid & Hl & Hu & Hu').
  exists m, w', (List.filter (message_of sid) (messages (db w))).
  split; [|split; [exact H1|]].
  - unfold MessagesList.get. enter Hl Hu Hs Hu'. reflexivity.
  - assert (Hs' : sessions (db w') !! sid = Some (db_service.touch t s))
      by (rewrite Hsess; apply lookup_insert_eq).
    unfold MessagesList.get. msimpl. rewrite Hl, Hu. msimpl.
    unfold db_service.touch in Hs'. rewrite Hs'. msimpl. rewrite Hu'.
    rewrite bool_decide_eq_true_2 by done. msimpl.
    rewrite Hm, List.filter_app. cbn [List.filter].
    assert (Hmine : message_of sid m = true)
      by (unfold message_of; rewrite Hsid; apply String.eqb_refl).
    rewrite !Hmine, length_app. cbn [length]. rewrite Nat.add_1_r. reflexivity.
Qed.

Lemma stored_message_is_listed_last_witness :
  exists m w' earlier,
    MessagesCreate.post (R := unit) Sample.alice "s1" (Some (Some "any news?"))
      (Sample.midrun "Finance")
      = (Val (Success [("messages", JMessages [m]); ("session_updated", JBool true)]), w')
    /\ MessagesList.get (R := unit) Sample.alice "s1" w'
       = (Val (Success [ ("messages", JMessages (earlier ++ [m]));
                         ("total_count", JNat (S (length earlier))) ]), w').
Proof.
  edestruct stored_message_is_listed_last
    with (w := Sample.midrun "Finance") (auth := Sample.alice) (sid := "s1")
         (content := "any news?")
    as (m & w' & earlier & _ & H1 & H2).
  - vm_compute. reflexivity.
  - repeat split; vm_compute; congruence.
  - right. right. reflexivity.
  - vm_compute. discriminate.
  - reflexivity.
  - exists m, w', earlier. split; assumption.
Defined.

(** X22.  A follow-up at step [completed] stores the user's message and one
    assistant message that quotes it; the session stays at step
    [completed], and ambiguity data, processing row, logs and cycles are
    left as they were. *)
Theorem follow_up_is_answered_in_kind (w : World) (auth : Auth) (sid content : string)
    (s : Session) :
  sessions (db w) !! sid = Some s ->
  owner auth s ->
  sess_current_step s = StepCompleted ->
  strip content <> EmptyString ->
  hd None (sched w) = None ->
  hd None (tail (sched w)) = None ->
  exists m reply w' s',
    MessagesCreate.post (R := unit) auth sid (Some (Some content)) w
      = (Val (Success [("messages", JMessages [m; reply]); ("session_updated", JBool true)]),
         w')
    /\ msg_type m = MsgUser /\ msg_content m = strip content
    /\ msg_type reply = MsgAssistant /\ msg_status reply = Some MsgCompleted
    /\ msg_content reply
       = "Thank you for your follow-up question: " +:+ dq +:+ strip content +:+ dq
         +:+ ". This functionality would typically provide additional insights based on your query and the previous analysis context. The system would analyze your question in relation to the completed analytics session and provide relevant additional information or clarifications."
    /\ messages (db w') = messages (db w) ++ [m; reply]
    /\ sessions (db w') !! sid = Some s'
    /\ sess_current_step s' = StepCompleted /\ sess_status s' = sess_status s
    /\ ambiguity_data (db w') = ambiguity_data (db w)
    /\ processing_status (db w') = processing_status (db w)
    /\ processing_logs (db w') = processing_logs (db w)
    /\ conversation_cycles (db w') = conversation_cycles (db w).
Proof.
  intros Hs (c & uid & Hl & Hu & Hown)%owner_inv Hstep Hc Hq Hq2.
  unfold MessagesCreate.post. enter Hl Hu Hs Hown.
  destruct (String.eqb (strip content) EmptyString) eqn:E.
  { apply String.eqb_eq in E. done. }
  rewrite sleep_quiet by done. msimpl.
  rewrite Hs. msimpl. rewrite Hstep.
  unfold MessagesCreate._handle_followup_query. msimpl.
  rewrite sleep_quiet by exact Hq2. msimpl.
  rewrite lookup_insert_eq. msimpl.
  eexists _, _, _, _. split; [reflexivity|]. msimpl.
  rewrite lookup_insert_eq, <- app_assoc.
  repeat split; try reflexivity; exact Hstep.
Qed.

Lemma follow_up_is_answered_in_kind_witness :
  exists m reply w',
    MessagesCreate.post (R := unit) Sample.alice "s1" (Some (Some " and by region? "))
      (Sample.forced "Finance")
      = (Val (Success [("messages", JMessages [m; reply]); ("session_updated", JBool true)]),
         w')
    /\ msg_content m = "and by region?"
    /\ msg_type reply = MsgAssistant.
Proof.
  edestruct follow_up_is_answered_in_kind
    with (w := Sample.forced "Finance") (auth := Sample.alice) (sid := "s1")
         (content := " and by region? ")
    as (m & reply & w' & s' & H1 & _ & H2 & H3 & _).
  - vm_compute. reflexivity.
  - repeat split; vm_compute; congruence.
  - reflexivity.
  - vm_compute. discriminate.
  - reflexivity.
  - reflexivity.
  - exists m, reply, w'. split; [exact H1|]. split; [exact H2 | exact H3].
Defined.

(** ** The first query *)

Lemma find_snoc_some {A} (p : A -> bool) (l : list A) (x : A) :
  p x = true -> exists y, List.find p (l ++ [x]) = Some y.
Proof.
  intros Hx. induction l as [|a l IH]; cbn [app List.find].
  - rewrite Hx. eauto.
  - destruct (p a); eauto.
Qed.

Lemma length_update_first {A} (p : A -> bool) (f : A -> A) (l : list A) :
  length (update_first p f l) = length l.
Proof.
  induction l as [|a l IH]; cbn [update_first]; [reflexivity|].
  destruct (p a); cbn [length]; congruence.
Qed.

Lemma opening_questions_nonempty (domain : string) :
  exists q rest, opening_questions domain = q :: rest.
Proof.
  assert (Hin : In (opening_questions domain) configured_questions).
  { pose proof (dict_get_cases Config.DOMAIN_AMBIGUITY_QUESTIONS domain
                  (dict_get Config.DOMAIN_AMBIGUITY_QUESTIONS "Finance" [])) as [H|H].
    - unfold opening_questions. rewrite <- H. left. reflexivity.
    - exact H. }
  pose proof configured_questions_fit as Hfit.
  rewrite Forall_forall in Hfit. apply list_elem_of_In, Hfit in Hin as [Hne _].
  destruct (opening_questions domain) as [|q rest]; [done | eauto].
Qed.

(** X23.  The first message of a session (step [query], no ambiguity data
    yet) opens the resolution for every domain: the user's message and one
    [ambiguity] message are stored, the session moves to step [ambiguity],
    ambiguity data is created with the questions of the domain (those of
    Finance for a domain that is not configured), no answer and index 0, the
    ambiguity message carries the first of these questions, and one
    conversation cycle is added. *)
Theorem first_query_opens_the_resolution (w : World) (auth : Auth) (sid content : string)
    (s : Session) :
  sessions (db w) !! sid = Some s ->
  owner auth s ->
  sess_current_step s = StepQuery ->
  strip content <> EmptyString ->
  ambiguity_data (db w) !! sid = None ->
  hd None (sched w) = None ->
  hd None (tail (sched w)) = None ->
  exists m amb w' s' a,
    MessagesCreate.post (R := unit) auth sid (Some (Some content)) w
      = (Val (Success [("messages", JMessages [m; amb]); ("session_updated", JBool true)]),
         w')
    /\ msg_type m = MsgUser /\ msg_content m = strip content
    /\ msg_type amb = MsgAmbiguity /\ msg_status amb = Some MsgActive
    /\ msg_current_question amb = opening_questions (sess_domain s) !! 0%nat
    /\ msg_answered_questions amb = 0%nat
    /\ msg_total_questions amb = length (opening_questions (sess_domain s))
    /\ msg_all_questions amb = Some (opening_questions (sess_domain s))
    /\ messages (db w') = messages (db w) ++ [m; amb]
    /\ sessions (db w') !! sid = Some s'
    /\ sess_current_step s' = StepAmbiguity /\ sess_status s' = sess_status s
    /\ ambiguity_data (db w') !! sid = Some a
    /\ amb_questions a = opening_questions (sess_domain s)
    /\ amb_answers a = [] /\ amb_current_question_index a = 0%nat
    /\ amb_status a = AmbActive
    /\ length (conversation_cycles (db w')) = S (length (conversation_cycles (db w)))
    /\ processing_status (db w') = processing_status (db w)
    /\ processing_logs (db w') = processing_logs (db w).
Proof.
  intros Hs (c & uid & Hl & Hu & Hown)%owner_inv Hstep Hc Ha Hq Hq2.
  destruct (opening_questions_nonempty (sess_domain s)) as (q & rest & Hqs).
  unfold MessagesCreate.post. enter Hl Hu Hs Hown.
  destruct (String.eqb (strip content) EmptyString) eqn:E.
  { apply String.eqb_eq in E. done. }
  rewrite sleep_quiet by done. msimpl.
  rewrite Hs. msimpl. rewrite Hstep.
  unfold MessagesCreate._handle_initial_query. msimpl.
  rewrite !lookup_insert_eq. msimpl.
  match goal with |- context [List.find ?p (?l ++ [?x])] =>
    destruct (find_snoc_some p l x) as [cycle Hfind];
      [cbn; apply Nat.eqb_refl | rewrite Hfind] end.
  msimpl. rewrite Ha. msimpl.
  rewrite sleep_quiet by exact Hq2. msimpl.
  fold (opening_questions (sess_domain s)). rewrite Hqs. cbn [lookup list_lookup].
  msimpl. rewrite !lookup_insert_eq. msimpl.
  eexists _, _, _, _, _. split; [reflexivity|]. msimpl.
  rewrite !lookup_insert_eq, <- app_assoc, length_update_first, length_app.
  cbn [length]. rewrite Nat.add_1_r.
  repeat split; reflexivity.
Qed.

Lemma first_query_opens_the_resolution_witness :
  exists m amb w',
    MessagesCreate.post (R := unit) Sample.alice "s1" (Some (Some "How late are we?"))
      (Sample.fresh "Logistics")
      = (Val (Success [("messages", JMessages [m; amb]); ("session_updated", JBool true)]),
         w')
    /\ msg_all_questions amb = Some (opening_questions "Finance").
Proof.
  edestruct first_query_opens_the_resolution
    with (w := Sample.fresh "Logistics") (auth := Sample.alice) (sid := "s1")
         (content := "How late are we?")
    as (m & amb & w' & s' & a & H1 & _ & _ & _ & _ & _ & _ & _ & H2 & _).
  - vm_compute. reflexivity.
  - repeat split; vm_compute; congruence.
  - reflexivity.
  - vm_compute. discriminate.
  - reflexivity.
  - reflexivity.
  - reflexivity.
  - exists m, amb, w'. split; [exact H1 | exact H2].
Defined.

(** ** Results and export *)



(** X25.  An export request of the owner never succeeds: a format outside
    pdf, csv, json and xlsx (compared in lower case, pdf when absent) is
    answered 400, and a supported one is answered 500, because building the
    export data raises; the world is left as it was. *)
Theorem export_never_succeeds (w : World) (auth : Auth) (sid : string) (s : Session)
    (format : option string) :
  sessions (db w) !! sid = Some s ->
  owner auth s ->
  (lower (default "pdf" format) ∉ [ "pdf"; "csv"; "json"; "xlsx" ] ->
   AnalyticsExport.get (R := unit) auth sid format w
   = (Val (Error "Unsupported export format" 400 None), w))
  /\ (lower (default "pdf" format) ∈ [ "pdf"; "csv"; "json"; "xlsx" ] ->
      exists e,
        AnalyticsExport.get (R := unit) auth sid format w
        = (Val (Error ("Failed to export results: " +:+ e) 500 None), w)).
Proof.
  intros Hs (c & uid & Hl & Hu & Hown)%owner_inv.
  split; intros Hf; unfold AnalyticsExport.get; enter Hl Hu Hs Hown.
  - rewrite bool_decide_eq_false_2 by exact Hf. reflexivity.
  - rewrite bool_decide_eq_true_2 by exact Hf.
    unfold AnalyticsExport._generate_export_data. msimpl.
    eexists. reflexivity.
Qed.

Lemma export_never_succeeds_witness :
  exists e,
    AnalyticsExport.get (R := unit) Sample.alice "s1" (Some "JSON") (Sample.forced "Finance")
    = (Val (Error ("Failed to export results: " +:+ e) 500 None), Sample.forced "Finance").
Proof.
  edestruct export_never_succeeds
    with (w := Sample.forced "Finance") (auth := Sample.alice) (sid := "s1")
         (format := Some "JSON") as [_ H].
  - vm_compute. reflexivity.
  - repeat split; vm_compute; congruence.
  - apply H. apply (bool_decide_unpack _). vm_compute. exact I.
Defined.

(** ** Validated requests *)

Lemma validated_time (config : ProcessingStart.StartConfig) :
  validate_processing_config config = [] ->
  exists x,
    requested_time (Some config) = inl x
    /\ forall R (w0 : World),
         ProcessingStart.out_of_range (R := R) (inl x) w0 = (Val false, w0).
Proof.
  unfold validate_processing_config, requested_time.
  destruct config as [[[[z|f]|ty]|] depth style level];
    cbn [ProcessingStart.rc_processing_time ProcessingStart.rc_analytics_depth
         ProcessingStart.rc_reporting_style ProcessingStart.rc_cross_validation
         default from_option id]; cbv zeta; intros Hv.
  - destruct ((z <? Config.MIN_PROCESSING_TIME) || (Config.MAX_PROCESSING_TIME <? z))%bool
      eqn:E.
    + exfalso. destruct depth, style, level;
        repeat match type of Hv with context [if ?b then _ else _] => destruct b end;
        discriminate.
    + eexists. split; [reflexivity|]. intros R w0.
      unfold ProcessingStart.out_of_range, ret. rewrite E. reflexivity.
  - destruct (PrimFloat.ltb f (float_of_int Config.MIN_PROCESSING_TIME)
              || PrimFloat.ltb (float_of_int Config.MAX_PROCESSING_TIME) f)%bool eqn:E.
    + exfalso. destruct depth, style, level;
        repeat match type of Hv with context [if ?b then _ else _] => destruct b end;
        discriminate.
    + eexists. split; [reflexivity|]. intros R w0.
      unfold ProcessingStart.out_of_range, ret. rewrite E. reflexivity.
  - exfalso. destruct depth, style, level;
      repeat match type of Hv with context [if ?b then _ else _] => destruct b end;
      discriminate.
  - eexists. split; [reflexivity|]. intros R w0. reflexivity.
Qed.

Lemma validated_words (config : ProcessingStart.StartConfig) :
  validate_processing_config config = [] ->
  default "moderate" (ProcessingStart.rc_analytics_depth config) ∈ Config.ANALYSIS_DEPTHS
  /\ default "detailed" (ProcessingStart.rc_reporting_style config) ∈ Config.REPORT_FORMATS
  /\ default "medium" (ProcessingStart.rc_cross_validation config) ∈ Config.VALIDATION_LEVELS.
Proof.
  unfold validate_processing_config.
  destruct config as [time depth style level];
    cbn [ProcessingStart.rc_processing_time ProcessingStart.rc_analytics_depth
         ProcessingStart.rc_reporting_style ProcessingStart.rc_cross_validation
         default from_option id]; cbv zeta.
  set (e0 := match time with Some _ => _ | None => _ end). intros Hv.
  assert (Hd : from_option id "moderate" depth ∈ Config.ANALYSIS_DEPTHS).
  { destruct depth as [d|]; [|apply list_elem_of_In; cbn; auto].
    destruct (decide (d ∈ Config.ANALYSIS_DEPTHS)) as [H|H]; [exact H|].
    exfalso. rewrite (bool_decide_eq_false_2 _ H) in Hv. cbn [negb] in Hv.
    destruct style, level;
      repeat match type of Hv with context [if ?b then _ else _] => destruct b end;
      repeat (apply app_eq_nil in Hv as [Hv ?]); discriminate. }
  assert (Hs : from_option id "detailed" style ∈ Config.REPORT_FORMATS).
  { destruct style as [d|]; [|apply list_elem_of_In; cbn; auto].
    destruct (decide (d ∈ Config.REPORT_FORMATS)) as [H|H]; [exact H|].
    exfalso. rewrite (bool_decide_eq_false_2 _ H) in Hv. cbn [negb] in Hv.
    destruct level;
      repeat match type of Hv with context [if ?b then _ else _] => destruct b end;
      repeat (apply app_eq_nil in Hv as [Hv ?]); discriminate. }
  assert (Hl : from_option id "medium" level ∈ Config.VALIDATION_LEVELS).
  { destruct level as [d|]; [|apply list_elem_of_In; cbn; auto].
    destruct (decide (d ∈ Config.VALIDATION_LEVELS)) as [H|H]; [exact H|].
    exfalso. rewrite (bool_decide_eq_false_2 _ H) in Hv. cbn [negb] in Hv.
    repeat (apply app_eq_nil in Hv as [Hv ?]); discriminate. }
  auto.
Qed.

(** X26.  A start request that [validate_processing_config] finds no fault
    with is started, and its configuration is stored as it was sent: the
    requested duration (6 when absent) is kept, the three words are the
    requested ones (the defaults when absent), and each is one of the
    configured values. *)
Theorem validated_request_is_stored_as_sent (w : World) (auth : Auth) (sid : string)
    (s : Session) (config : ProcessingStart.StartConfig) :
  sessions (db w) !! sid = Some s ->
  owner auth s ->
  hd None (sched w) = None ->
  validate_processing_config config = [] ->
  exists reply w' row,
    ProcessingStart.post (R := unit) auth sid (Some config) w = (Val (Success reply), w')
    /\ processing_status (db w') !! sid = Some row
    /\ inl (cfg_processing_time (ps_config row)) = requested_time (Some config)
    /\ cfg_analytics_depth (ps_config row)
       = default "moderate" (ProcessingStart.rc_analytics_depth config)
    /\ cfg_reporting_style (ps_config row)
       = default "detailed" (ProcessingStart.rc_reporting_style config)
    /\ cfg_cross_validation (ps_config row)
       = default "medium" (ProcessingStart.rc_cross_validation config)
    /\ cfg_analytics_depth (ps_config row) ∈ Config.ANALYSIS_DEPTHS
    /\ cfg_reporting_style (ps_config row) ∈ Config.REPORT_FORMATS
    /\ cfg_cross_validation (ps_config row) ∈ Config.VALIDATION_LEVELS.
Proof.
  intros Hs (c & uid & Hl & Hu & Hown)%owner_inv Hq Hv.
  destruct (validated_time config Hv) as (x & Hx & Hrun).
  destruct (validated_words config Hv) as (Hd & Hst & Hlv).
  specialize (Hrun Response).
  unfold requested_time in *.
  destruct config as [[[x'|ty]|] depth style level];
    cbn [default from_option id ProcessingStart.rc_processing_time
         ProcessingStart.rc_analytics_depth ProcessingStart.rc_reporting_style
         ProcessingStart.rc_cross_validation] in Hx, Hd, Hst, Hlv |- *;
    try discriminate; injection Hx as <-;
    unfold ProcessingStart.post; enter Hl Hu Hs Hown;
    unfold ProcessingStart.empty_config;
    cbn [from_option ProcessingStart.rc_processing_time ProcessingStart.rc_analytics_depth
         ProcessingStart.rc_reporting_style ProcessingStart.rc_cross_validation];
    rewrite Hrun; msimpl.
  all: destruct (processing_status (db w) !! sid) as [old|] eqn:Hold;
    destruct (ambiguity_data (db w) !! sid) as [amb|] eqn:Hamb;
    repeat (msimpl; progress rewrite ?lookup_delete_eq, ?Hold, ?Hs, ?Hamb);
    rewrite sleep_quiet by done; msimpl;
    eexists _, _, _; (split; [reflexivity|]); msimpl;
    rewrite !lookup_insert_eq; (split; [reflexivity|]); cbn;
    repeat split; assumption.
Qed.

Lemma validated_request_is_stored_as_sent_witness :
  exists reply w' row,
    ProcessingStart.post (R := unit) Sample.alice "s1" (Some deep_request)
      (Sample.answered "Finance") = (Val (Success reply), w')
    /\ processing_status (db w') !! "s1" = Some row
    /\ cfg_processing_time (ps_config row) = PInt 12
    /\ cfg_analytics_depth (ps_config row) = "deep".
Proof.
  edestruct validated_request_is_stored_as_sent
    with (w := Sample.answered "Finance") (auth := Sample.alice) (sid := "s1")
         (config := deep_request)
    as (reply & w' & row & H1 & H2 & H3 & H4 & _).
  - vm_compute. reflexivity.
  - repeat split; vm_compute; congruence.
  - reflexivity.
  - vm_compute. reflexivity.
  - exists reply, w', row. split; [exact H1|]. split; [exact H2|].
    split; [|exact H4]. injection H3 as H3. exact H3.
Defined.
